(** * The agent's information cache (src/control/cmd/daos_agent/infocache.go)

    A shallow embedding of the refreshable cache of the DAOS agent: the two
    kinds of cache entry ([cachedAttachInfo], [cachedFabricInfo]), the
    facade [InfoCache] that owns them, and the copy-out path of the attach
    info.  Go pointers are locations of an explicit heap, so that sharing
    between the cached master record and what callers receive is visible;
    the Go methods are computations over a [World] that holds the facade,
    the heap, the clock read by [time.Now] and a trace of the calls made to
    the external collaborators. *)

From Stdlib Require Import ZArith String List Lia.
From stdpp Require Import gmap strings list fin_maps.
From Equations.Prop Require Import Equations Logic.

Local Open Scope string_scope.
Local Open Scope list_scope.
Local Open Scope nat_scope.
Local Open Scope stdpp_scope.

(** ** Errors (github.com/pkg/errors) *)

Inductive error : Type :=
| errors_New (msg : string)
| errors_Wrap (cause : error) (msg : string)
| errors_Errorf (fmt : string).

(** ** Time (package time)

    A [time.Time] is the number of nanoseconds since the zero value
    [time.Time{}]; a [time.Duration] is a signed number of nanoseconds. *)

Definition Time := Z.
Definition Duration := Z.
Definition Time_zero : Time := 0%Z.
Definition Time_Add (t : Time) (d : Duration) : Time := (t + d)%Z.
Definition Time_Before (t u : Time) : bool := (t <? u)%Z.
Definition Time_Equal (t u : Time) : bool := (t =? u)%Z.

(** ** Slices and their backing arrays

    A non-nil slice is a header (backing array, length, capacity); the nil
    slice is [None].  The code never re-slices a response list, so the
    offset into the array is always zero.  An array cell of the heap holds
    [cap] elements. *)

Definition loc := nat.

Record slice : Type := Slice { base : loc; len : nat; cap : nat }.

Definition slice_len (s : option slice) : nat :=
  match s with Some h => len h | None => 0 end.

Section Slices.
Context {A : Type} (zero : A).

Definition alloc_cell {B : Type} (x : B) (m : gmap loc B) : loc * gmap loc B :=
  let l := fresh (dom m) in (l, <[l := x]> m).

(** [make([]T, n)] *)
Definition make (n : nat) (m : gmap loc (list A)) : option slice * gmap loc (list A) :=
  let '(l, m') := alloc_cell (replicate n zero) m in (Some (Slice l n n), m').

(** The elements a slice shows: the first [len] cells of its array. *)
Definition elems (m : gmap loc (list A)) (s : option slice) : list A :=
  match s with
  | None => []
  | Some h => take (len h) (default [] (m !! base h))
  end.

(** [copy(dst, src)]: the first [min(len(dst), len(src))] elements of
    [src] overwrite those of [dst]; returns how many were copied. *)
Definition copy (dst src : option slice) (m : gmap loc (list A)) : nat * gmap loc (list A) :=
  match dst with
  | None => (0, m)
  | Some d =>
      let xs := elems m src in
      let n := Nat.min (len d) (length xs) in
      (n, alter (fun arr => take n xs ++ drop n arr) (base d) m)
  end.

(** [append(s, x)]: in place when the capacity allows, otherwise into a
    new array (Go leaves the new capacity to the runtime; the model takes
    the exact fit). *)
Definition append (s : option slice) (x : A) (m : gmap loc (list A)) : option slice * gmap loc (list A) :=
  let grow :=
    let xs := elems m s ++ [x] in
    let '(l, m') := alloc_cell xs m in
    (Some (Slice l (length xs) (length xs)), m') in
  match s with
  | Some h =>
      if decide (len h < cap h)
      then (Some (Slice (base h) (S (len h)) (cap h)), alter (fun arr => <[len h := x]> arr) (base h) m)
      else grow
  | None => grow
  end.

(** [s[i] = x]; [None] is the index-out-of-range panic. *)
Definition store (s : option slice) (i : nat) (x : A) (m : gmap loc (list A)) : option (gmap loc (list A)) :=
  if decide (i < slice_len s)
  then match s with
       | Some h => Some (alter (fun arr => <[i := x]> arr) (base h) m)
       | None => None
       end
  else None.
End Slices.

(** ** The attach-info records (package control)

    The declarations of package control are not among the sources.  The
    fields below are those of section 3 of the specification and of the
    wire messages of src/proto/mgmt/svc.proto; the lists that the copy-out
    path touches have the element types that [copyGetAttachInfoResp] gives
    them ([[]uint32], [[]*control.PrimaryServiceRank], [[]string]); the
    secondary rank URIs and hints, the build info and the fabric summary,
    which the code never reads, are left out. *)

(** Modelled from the spec: [control.UnaryInvoker], the bound RPC client
    of section 3, is not among the sources; a client is a handle. *)
Definition UnaryInvoker := nat.

(** Modelled from the spec: [control.GetAttachInfoReq] is not among the
    sources; the request of the fetcher is {system, allRanks} (section 6). *)
Record GetAttachInfoReq : Type := {
  req_System : string;
  AllRanks : bool;
}.

(** Modelled from the spec: [control.PrimaryServiceRank] is not among the
    sources; (rank, URI, provider index, context count) of section 3. *)
Record PrimaryServiceRank : Type := {
  Rank : Z;
  Uri : string;
  psr_ProviderIdx : Z;
  NumCtxs : Z;
}.

(** Modelled from the spec: [control.ClientNetworkHint] is not among the
    sources; the primary ClientNetHint of section 3, held by value in the
    response. *)
Record ClientNetworkHint : Type := {
  Provider : string;
  hint_Interface : string;
  Domain : string;
  CrtTimeout : Z;
  hint_NetDevClass : Z;
  SrvSrxSet : Z;
  EnvVars : option slice;        (* []string *)
  ProviderIdx : Z;
}.

(** Modelled from the spec: [control.GetAttachInfoResp] is not among the
    sources; the AttachInfoRecord of section 3. *)
Record GetAttachInfoResp : Type := {
  Status : Z;
  ServiceRanks : option slice;   (* []*PrimaryServiceRank *)
  MSRanks : option slice;        (* []uint32 *)
  ClientNetHint : ClientNetworkHint;
  DataVersion : Z;
  System : string;
}.

Definition set_EnvVars (s : option slice) (h : ClientNetworkHint) : ClientNetworkHint :=
  {| Provider := Provider h; hint_Interface := hint_Interface h; Domain := Domain h;
     CrtTimeout := CrtTimeout h; hint_NetDevClass := hint_NetDevClass h;
     SrvSrxSet := SrvSrxSet h; EnvVars := s; ProviderIdx := ProviderIdx h |}.

Definition set_ClientNetHint (n : ClientNetworkHint) (r : GetAttachInfoResp) : GetAttachInfoResp :=
  {| Status := Status r; ServiceRanks := ServiceRanks r; MSRanks := MSRanks r;
     ClientNetHint := n; DataVersion := DataVersion r; System := System r |}.

Definition set_MSRanks (s : option slice) (r : GetAttachInfoResp) : GetAttachInfoResp :=
  {| Status := Status r; ServiceRanks := ServiceRanks r; MSRanks := s;
     ClientNetHint := ClientNetHint r; DataVersion := DataVersion r; System := System r |}.

Definition set_ServiceRanks (s : option slice) (r : GetAttachInfoResp) : GetAttachInfoResp :=
  {| Status := Status r; ServiceRanks := s; MSRanks := MSRanks r;
     ClientNetHint := ClientNetHint r; DataVersion := DataVersion r; System := System r |}.

(** What the management service sends, before it is laid out in memory:
    [None] for a list is the nil slice. *)
Record AttachInfoRecord : Type := {
  rec_Status : Z;
  rec_ServiceRanks : option (list PrimaryServiceRank);
  rec_MSRanks : option (list Z);
  rec_Provider : string;
  rec_Interface : string;
  rec_Domain : string;
  rec_CrtTimeout : Z;
  rec_NetDevClass : Z;
  rec_SrvSrxSet : Z;
  rec_EnvVars : option (list string);
  rec_ProviderIdx : Z;
  rec_DataVersion : Z;
  rec_System : string;
}.

(** ** The fabric records (package hardware and the agent's NUMAFabric)

    [NUMAFabric], [NUMAFabricMap], [FabricInterface] and
    [FabricIfaceParams] are declared in files that are not among the
    sources.  A [NUMAFabricMap] maps a NUMA node to an ordered sequence of
    interface records (section 3); a [*NUMAFabric] is a location of the
    heap that holds its map. *)

(** Modelled from the spec: [hardware.NetDevClass] is not among the
    sources; a device class is a category of network hardware, here its
    number. *)
Definition NetDevClass := Z.

(** Modelled from the spec: [FabricInterface] is not among the sources;
    the FabricInterfaceRecord of section 3. *)
Record FabricInterface : Type := {
  Name : string;
  fi_Domain : string;
  fi_Provider : string;
  NUMANode : Z;
  fi_NetDevClass : NetDevClass;
}.

(** Modelled from the spec: [FabricIfaceParams] is not among the sources;
    the params of [GetFabricDevice] (section 6), of which the code reads
    [DevClass], [Provider] and [Interface]. *)
Record FabricIfaceParams : Type := {
  Interface : string;
  par_Provider : string;
  DevClass : NetDevClass;
}.

(** ** The heap *)

Record Heap : Type := {
  u32s : gmap loc (list Z);                 (* arrays of uint32 *)
  ptrs : gmap loc (list (option loc));      (* arrays of *PrimaryServiceRank *)
  strs : gmap loc (list string);            (* arrays of string *)
  psrs : gmap loc PrimaryServiceRank;
  resps : gmap loc GetAttachInfoResp;
  fabrics : gmap loc (gmap Z (list FabricInterface));
}.

Definition empty_heap : Heap :=
  {| u32s := ∅; ptrs := ∅; strs := ∅; psrs := ∅; resps := ∅; fabrics := ∅ |}.

Definition set_u32s (m : gmap loc (list Z)) (h : Heap) : Heap :=
  {| u32s := m; ptrs := ptrs h; strs := strs h; psrs := psrs h; resps := resps h; fabrics := fabrics h |}.
Definition set_ptrs (m : gmap loc (list (option loc))) (h : Heap) : Heap :=
  {| u32s := u32s h; ptrs := m; strs := strs h; psrs := psrs h; resps := resps h; fabrics := fabrics h |}.
Definition set_strs (m : gmap loc (list string)) (h : Heap) : Heap :=
  {| u32s := u32s h; ptrs := ptrs h; strs := m; psrs := psrs h; resps := resps h; fabrics := fabrics h |}.
Definition set_psrs (m : gmap loc PrimaryServiceRank) (h : Heap) : Heap :=
  {| u32s := u32s h; ptrs := ptrs h; strs := strs h; psrs := m; resps := resps h; fabrics := fabrics h |}.
Definition set_resps (m : gmap loc GetAttachInfoResp) (h : Heap) : Heap :=
  {| u32s := u32s h; ptrs := ptrs h; strs := strs h; psrs := psrs h; resps := m; fabrics := fabrics h |}.
Definition set_fabrics (m : gmap loc (gmap Z (list FabricInterface))) (h : Heap) : Heap :=
  {| u32s := u32s h; ptrs := ptrs h; strs := strs h; psrs := psrs h; resps := resps h; fabrics := m |}.

(** Every object of [h] is still there, unchanged, in [h']. *)
Definition heap_le (h h' : Heap) : Prop :=
  u32s h ⊆ u32s h' ∧ ptrs h ⊆ ptrs h' ∧ strs h ⊆ strs h' ∧
  psrs h ⊆ psrs h' ∧ resps h ⊆ resps h' ∧ fabrics h ⊆ fabrics h'.

(** Laying out a received record in fresh memory: one object per service
    rank, one array per list, one object for the record itself. *)
Fixpoint alloc_cells {B : Type} (xs : list B) (m : gmap loc B) : list loc * gmap loc B :=
  match xs with
  | [] => ([], m)
  | x :: xs' =>
      let '(l, m1) := alloc_cell x m in
      let '(ls, m2) := alloc_cells xs' m1 in
      (l :: ls, m2)
  end.

Definition alloc_slice {B : Type} (xs : option (list B)) (m : gmap loc (list B))
  : option slice * gmap loc (list B) :=
  match xs with
  | None => (None, m)
  | Some l =>
      let '(a, m') := alloc_cell l m in
      (Some (Slice a (length l) (length l)), m')
  end.

Definition alloc_resp (v : AttachInfoRecord) (h : Heap) : loc * Heap :=
  let '(sr, h1) :=
    match rec_ServiceRanks v with
    | None => (None, h)
    | Some prs =>
        let '(ls, ps) := alloc_cells prs (psrs h) in
        let '(s, pa) := alloc_slice (Some (map Some ls)) (ptrs h) in
        (s, set_ptrs pa (set_psrs ps h))
    end in
  let '(ms, u) := alloc_slice (rec_MSRanks v) (u32s h1) in
  let '(ev, st) := alloc_slice (rec_EnvVars v) (strs h1) in
  let hint :=
    {| Provider := rec_Provider v; hint_Interface := rec_Interface v;
       Domain := rec_Domain v; CrtTimeout := rec_CrtTimeout v;
       hint_NetDevClass := rec_NetDevClass v; SrvSrxSet := rec_SrvSrxSet v;
       EnvVars := ev; ProviderIdx := rec_ProviderIdx v |} in
  let r :=
    {| Status := rec_Status v; ServiceRanks := sr; MSRanks := ms;
       ClientNetHint := hint; DataVersion := rec_DataVersion v;
       System := rec_System v |} in
  let '(l, rs) := alloc_cell r (resps h1) in
  (l, set_resps rs (set_strs st (set_u32s u h1))).

(** ** Cache entries *)

Record cacheItem : Type := {
  lastCached : Time;
  refreshInterval : Duration;
}.

(** The external collaborators.  The [nat] is the number of calls made
    before this one, so that successive calls may answer differently. *)
Definition AttachInfoCollab : Type :=
  UnaryInvoker -> GetAttachInfoReq -> nat -> AttachInfoRecord + error.
Definition FabricScanCollab : Type :=
  list string -> nat -> gmap Z (list FabricInterface) + error.

(** The function values the entries hold ([getAttachInfoFn],
    [fabricScanFn]), first order: the method value [c.getAttachInfo] that
    [GetAttachInfo] binds, or a collaborator; a scanner, or the constant
    function of [EnableStaticFabricCache]. *)
Inductive getAttachInfoFn : Type :=
| InfoCache_getAttachInfo_fn
| getAttachInfoFn_of (f : AttachInfoCollab).

Inductive fabricScanFn : Type :=
| fabricScanFn_of (f : FabricScanCollab)
| static_fn (nf : option loc).

Record cachedAttachInfo : Type := {
  ai_cacheItem : cacheItem;
  ai_fetch : getAttachInfoFn;
  system : string;
  rpcClient : UnaryInvoker;
  lastResponse : option loc;         (* *control.GetAttachInfoResp *)
}.

Record cachedFabricInfo : Type := {
  fi_cacheItem : cacheItem;
  fetch : fabricScanFn;
  providers : list string;
  devClass : NetDevClass;
  lastResults : option loc;          (* *NUMAFabric *)
}.

(** A [cache.Item] with its dynamic type. *)
Inductive Item : Type :=
| AttachItem (ci : cachedAttachInfo)
| FabricItem (cfi : cachedFabricInfo).

(** ** The facade and the world *)

(** Modelled from the spec: [hardware.WaitFabricReadyParams] is not among
    the sources; the fields are those [waitFabricReady] fills in, but for
    the state provider. *)
Record WaitFabricReadyParams : Type := {
  FabricIfaces : list string;
  IgnoreUnusable : bool;
  IterationSleep : Duration;
}.

(** The fields of [InfoCache] that the methods below read or write.  The
    pointer [cache] is followed once and for all: the item cache it points
    to is the [items] of the world.  The logger, the provider set of
    [AddProvider], the ignored interfaces and the device-state getter play
    no part in what follows.  [netIfaces] is the answer of the interface
    lister. *)
Record InfoCache : Type := {
  fabricCacheDisabled : bool;
  attachInfoCacheDisabled : bool;
  clientTelemetryEnabled : bool;
  clientTelemetryRetain : bool;
  getAttachInfoCb : option AttachInfoCollab;
  fabricScan : fabricScanFn;
  netIfaces : list string + error;
  devClassGetter : string -> NetDevClass + error;
  client : UnaryInvoker;
  attachInfoRefresh : Duration;
}.

(** The state the methods run in.  The three logs are a trace of the calls
    made to the collaborators, oldest first; nothing in the code reads
    them. *)
Record World : Type := {
  ic : option InfoCache;             (* c *InfoCache; None is nil *)
  items : gmap string Item;          (* the *cache.ItemCache that c.cache points to *)
  heap : Heap;
  clock : Time;                      (* what time.Now() reads *)
  rpcLog : list (UnaryInvoker * GetAttachInfoReq);   (* calls to the attach-info fetcher *)
  scanLog : list (list string);      (* calls to the fabric scanner *)
  waitLog : list WaitFabricReadyParams;              (* calls to the readiness waiter *)
}.

Definition set_ic (c : option InfoCache) (w : World) : World :=
  {| ic := c; items := items w; heap := heap w; clock := clock w;
     rpcLog := rpcLog w; scanLog := scanLog w; waitLog := waitLog w |}.
Definition set_items (m : gmap string Item) (w : World) : World :=
  {| ic := ic w; items := m; heap := heap w; clock := clock w;
     rpcLog := rpcLog w; scanLog := scanLog w; waitLog := waitLog w |}.
Definition set_heap (h : Heap) (w : World) : World :=
  {| ic := ic w; items := items w; heap := h; clock := clock w;
     rpcLog := rpcLog w; scanLog := scanLog w; waitLog := waitLog w |}.
Definition set_clock (t : Time) (w : World) : World :=
  {| ic := ic w; items := items w; heap := heap w; clock := t;
     rpcLog := rpcLog w; scanLog := scanLog w; waitLog := waitLog w |}.
Definition set_rpcLog (l : list (UnaryInvoker * GetAttachInfoReq)) (w : World) : World :=
  {| ic := ic w; items := items w; heap := heap w; clock := clock w;
     rpcLog := l; scanLog := scanLog w; waitLog := waitLog w |}.
Definition set_scanLog (l : list (list string)) (w : World) : World :=
  {| ic := ic w; items := items w; heap := heap w; clock := clock w;
     rpcLog := rpcLog w; scanLog := l; waitLog := waitLog w |}.
Definition set_waitLog (l : list WaitFabricReadyParams) (w : World) : World :=
  {| ic := ic w; items := items w; heap := heap w; clock := clock w;
     rpcLog := rpcLog w; scanLog := scanLog w; waitLog := l |}.

(** ** The monad of the Go methods: state passing over the world *)

Definition M (A : Type) : Type := World -> A * World.

Definition ret {A : Type} (a : A) : M A := fun w => (a, w).
Definition bind {A B : Type} (m : M A) (k : A -> M B) : M B :=
  fun w => let '(a, w') := m w in k a w'.

Notation "'let*' x := m 'in' k" := (bind m (fun x => k))
  (at level 10, x pattern, m at level 100, k at level 200, only parsing).

Definition get_world : M World := fun w => (w, w).
Definition modify (f : World -> World) : M unit := fun w => (tt, f w).
Definition time_Now : M Time := fun w => (clock w, w).
Definition on_heap {A : Type} (f : Heap -> A * Heap) : M A :=
  fun w => let '(a, h) := f (heap w) in (a, set_heap h w).

(** ** cacheItem *)

(** [isStale]; [now] is what [time.Now()] reads. *)
Definition isStale (now : Time) (ci : cacheItem) : bool :=
  if (refreshInterval ci =? 0)%Z then false
  else Time_Before (Time_Add (lastCached ci) (refreshInterval ci)) now.

Definition isCached (ci : cacheItem) : bool :=
  negb (Time_Equal (lastCached ci) Time_zero).

(** ** The inner loop of filterDevClass

    [for i := 0; i < len(fis); i++]: a record of another class is cut out
    with [append(fis[:i], fis[i+1:]...)] and the index steps back, so that
    the next round looks at the same position again. *)
Equations? filterLoop (dc : NetDevClass) (i : nat) (fis : list FabricInterface)
  : list FabricInterface by wf (length fis - i) lt :=
  filterLoop dc i fis with inspect (fis !! i) := {
    | exist _ None _ => fis
    | exist _ (Some fi) Hi =>
        if bool_decide (fi_NetDevClass fi ≠ dc)
        then filterLoop dc i (take i fis ++ drop (S i) fis)
        else filterLoop dc (S i) fis }.
Proof.
  all: apply lookup_lt_Some in Hi.
  - rewrite length_app, length_take, length_drop. lia.
  - lia.
Qed.

(** The body of [for numa, fis := range nfMap]. *)
Definition filterBucket (dc : NetDevClass) (numa : Z) (fis : list FabricInterface)
    (nfMap : gmap Z (list FabricInterface)) : gmap Z (list FabricInterface) :=
  let fis' := filterLoop dc 0 fis in
  if decide (length fis' = 0) then delete numa nfMap else <[numa := fis']> nfMap.

(** Modelled from the spec: [NUMAFabric.LockedMap] is not among the
    sources.  It is the exclusive write-locked accessor of the topology map
    (section 4.4); in a sequential run the lock is always free, and the
    accessor fails only for a fabric that is not there. *)
Definition NUMAFabric_LockedMap (nf : option loc) (h : Heap)
  : (loc * gmap Z (list FabricInterface)) + error :=
  match nf with
  | None => inr (errors_New "NUMAFabric is nil")
  | Some l =>
      match fabrics h !! l with
      | Some m => inl (l, m)
      | None => inr (errors_New "NUMAFabric is nil")
      end
  end.

(** [cachedFabricInfo.filterDevClass] *)
Definition filterDevClass (dc : NetDevClass) (nf : option loc) (h : Heap) : option error * Heap :=
  match NUMAFabric_LockedMap nf h with
  | inr err => (Some (errors_Wrap err "acquiring NUMAFabricMap for editing"), h)
  | inl (l, nfMap) =>
      (None, set_fabrics (<[l := map_fold (filterBucket dc) nfMap nfMap]> (fabrics h)) h)
  end.

(** ** Keys *)

Definition attachInfoKey : string := "GetAttachInfo".
Definition fabricKey : string := "NUMAFabric".

Definition sysAttachInfoKey (sys : string) : string :=
  attachInfoKey +:+ "-" +:+ sys.

Definition cachedAttachInfo_Key (ci : option cachedAttachInfo) : string :=
  match ci with
  | None => ""
  | Some ci => if String.eqb (system ci) "" then attachInfoKey else sysAttachInfoKey (system ci)
  end.

Definition cachedFabricInfo_Key (cfi : option cachedFabricInfo) : string := fabricKey.

Definition newCachedAttachInfo (refreshInterval : Duration) (system : string)
    (rpcClient : UnaryInvoker) (fetchFn : getAttachInfoFn) : cachedAttachInfo :=
  {| ai_cacheItem := {| lastCached := Time_zero; refreshInterval := refreshInterval |};
     ai_fetch := fetchFn; system := system; rpcClient := rpcClient;
     lastResponse := None |}.

Definition newCachedFabricInfo (fetchFn : fabricScanFn) (devClass : NetDevClass)
    (providers : list string) : cachedFabricInfo :=
  {| fi_cacheItem := {| lastCached := Time_zero; refreshInterval := 0%Z |};
     fetch := fetchFn; devClass := devClass; providers := providers;
     lastResults := None |}.

(** [ci.lastResponse = resp; ci.lastCached = now] *)
Definition attach_cached (resp : option loc) (now : Time) (ci : cachedAttachInfo) : cachedAttachInfo :=
  {| ai_cacheItem := {| lastCached := now; refreshInterval := refreshInterval (ai_cacheItem ci) |};
     ai_fetch := ai_fetch ci; system := system ci; rpcClient := rpcClient ci;
     lastResponse := resp |}.

(** [cfi.lastResults = results; cfi.lastCached = now] *)
Definition fabric_cached (results : option loc) (now : Time) (cfi : cachedFabricInfo) : cachedFabricInfo :=
  {| fi_cacheItem := {| lastCached := now; refreshInterval := refreshInterval (fi_cacheItem cfi) |};
     fetch := fetch cfi; providers := providers cfi; devClass := devClass cfi;
     lastResults := results |}.

(** Calling a collaborator: the call is recorded, and a record that comes
    back is laid out in fresh memory. *)
Definition call_AttachInfoCollab (f : AttachInfoCollab) (rpcClient : UnaryInvoker)
    (req : GetAttachInfoReq) : M (option loc * option error) :=
  fun w =>
    let w1 := set_rpcLog (rpcLog w ++ [(rpcClient, req)]) w in
    match f rpcClient req (length (rpcLog w)) with
    | inl v => let '(l, h) := alloc_resp v (heap w) in ((Some l, None), set_heap h w1)
    | inr e => ((None, Some e), w1)
    end.

Definition call_fabricScanFn (f : fabricScanFn) (provs : list string)
  : M (option loc * option error) :=
  match f with
  | static_fn nf => ret (nf, None)
  | fabricScanFn_of g =>
      fun w =>
        let w1 := set_scanLog (scanLog w ++ [provs]) w in
        match g provs (length (scanLog w)) with
        | inl m =>
            let '(l, fs) := alloc_cell m (fabrics (heap w)) in
            ((Some l, None), set_heap (set_fabrics fs (heap w)) w1)
        | inr e => ((None, Some e), w1)
        end
  end.

(** ** Lookup of a named interface *)

(** Modelled from the spec: [NUMAFabric.FindDevice] is not among the
    sources.  Section 4.5: one named interface is looked up by exact match
    of its name, and the lookup fails with a not-found condition if it is
    absent.  The buckets are visited in the order of their NUMA nodes. *)
Definition FindDevice_by_name (nf : option loc) (params : FabricIfaceParams) (h : Heap)
  : list FabricInterface * option error :=
  match NUMAFabric_LockedMap nf h with
  | inr e => ([], Some e)
  | inl (_, nfMap) =>
      let found :=
        filter (fun fi => Name fi = Interface params)
               (mjoin ((map_to_list nfMap).*2)) in
      match found with
      | [] => ([], Some (errors_Errorf "fabric interface %q not found"))
      | _ => (found, None)
      end
  end.

(** ** The staleness rule in the words of the specification *)

(** Section 4.3: fresh if the refresh interval is zero, or if now is before
    last-fetch-time + interval; stale otherwise. *)
Definition fresh_by_spec (now : Time) (ci : cacheItem) : bool :=
  (refreshInterval ci =? 0)%Z
  || Time_Before now (Time_Add (lastCached ci) (refreshInterval ci)).


(** The master record of the entry tracked under a key. *)
Definition master_of (key : string) (w : World) : option loc :=
  match items w !! key with
  | Some (AttachItem cai) => lastResponse cai
  | _ => None
  end.

(** ** Sample inputs

    A small agent: a management service with one rank, and a node with an
    InfiniBand interface on NUMA node 0 and an Ethernet interface on NUMA
    node 1. *)
Module Sample.

Definition EnabledEnv : string := "D_CLIENT_METRICS_ENABLE".
Definition RetainEnv : string := "D_CLIENT_METRICS_RETAIN".
Definition defaultSystem : string := "daos_server".

Definition rank0 : PrimaryServiceRank :=
  {| Rank := 0%Z; Uri := "ofi+tcp://10.0.0.1:31416"; psr_ProviderIdx := 0%Z; NumCtxs := 8%Z |}.

Definition record (provider : string) : AttachInfoRecord :=
  {| rec_Status := 0%Z; rec_ServiceRanks := Some [rank0]; rec_MSRanks := Some [0%Z];
     rec_Provider := provider; rec_Interface := "eth1"; rec_Domain := "eth1";
     rec_CrtTimeout := 30%Z; rec_NetDevClass := 1%Z; rec_SrvSrxSet := (-1)%Z;
     rec_EnvVars := Some ["FI_OFI_RXM_USE_SRX=1"]; rec_ProviderIdx := 0%Z;
     rec_DataVersion := 3%Z; rec_System := "daos_server" |}.

Definition answers (provider : string) : AttachInfoCollab :=
  fun _ _ _ => inl (record provider).

Definition fails : AttachInfoCollab :=
  fun _ _ _ => inr (errors_New "connection refused").

Definition ib0 : FabricInterface :=
  {| Name := "ib0"; fi_Domain := "mlx5_0"; fi_Provider := "ofi+verbs";
     NUMANode := 0%Z; fi_NetDevClass := 32%Z |}.
Definition eth0 : FabricInterface :=
  {| Name := "eth0"; fi_Domain := "eth0"; fi_Provider := "ofi+verbs";
     NUMANode := 0%Z; fi_NetDevClass := 1%Z |}.
Definition eth1 : FabricInterface :=
  {| Name := "eth1"; fi_Domain := "eth1"; fi_Provider := "ofi+tcp";
     NUMANode := 1%Z; fi_NetDevClass := 1%Z |}.

Definition topology : gmap Z (list FabricInterface) :=
  <[0%Z := [eth0; ib0]]> (<[1%Z := [ib0]]> (<[2%Z := [eth1; ib0; eth0]]> ∅)).

Definition seeded : gmap Z (list FabricInterface) :=
  <[0%Z := [eth0]]> (<[1%Z := [eth1]]> ∅).

Definition scans : FabricScanCollab := fun _ _ => inl topology.

Definition facade (attachDisabled fabricDisabled : bool)
    (cb : option AttachInfoCollab) : InfoCache :=
  {| fabricCacheDisabled := fabricDisabled; attachInfoCacheDisabled := attachDisabled;
     clientTelemetryEnabled := true; clientTelemetryRetain := true;
     getAttachInfoCb := cb; fabricScan := fabricScanFn_of scans;
     netIfaces := inl ["eth0"; "eth1"; "ib0"];
     devClassGetter := fun name => inl (if String.eqb name "ib0" then 32%Z else 1%Z);
     client := 1; attachInfoRefresh := 0%Z |}.

Definition world (c : option InfoCache) (now : Time) : World :=
  {| ic := c; items := ∅; heap := empty_heap; clock := now;
     rpcLog := []; scanLog := []; waitLog := [] |}.

Definition ready : WaitFabricReadyParams -> nat -> option error := fun _ _ => None.

Definition anyDevice
  : option loc -> FabricIfaceParams -> M (option FabricInterface * option error) :=
  fun _ _ => ret (None, Some (errors_New "no suitable fabric interface")).

Definition finds_nothing
  : option loc -> FabricIfaceParams -> Heap -> list FabricInterface * option error :=
  fun _ _ _ => ([], None).

Definition wants (name : string) : FabricIfaceParams :=
  {| Interface := name; par_Provider := "ofi+tcp"; DevClass := 1%Z |}.

Definition entry (fetchFn : getAttachInfoFn) (last : Time) (interval : Duration)
  : cachedAttachInfo :=
  {| ai_cacheItem := {| lastCached := last; refreshInterval := interval |};
     ai_fetch := fetchFn; system := "daos_server"; rpcClient := 1;
     lastResponse := None |}.

End Sample.

(** ** More of the fabric and of the configuration *)

(** Modelled from the spec: [NUMAFabric.RLockedMap] is not among the
    sources.  Section 4.4: the topology map is exposed to readers through a
    read-locked accessor that returns the map and a release action; as for
    the write-locked accessor, in a sequential run it fails only for a
    fabric that is not there. *)
Definition NUMAFabric_RLockedMap (nf : option loc) (h : Heap)
  : (loc * gmap Z (list FabricInterface)) + error :=
  match nf with
  | None => inr (errors_New "NUMAFabric is nil")
  | Some l =>
      match fabrics h !! l with
      | Some m => inl (l, m)
      | None => inr (errors_New "NUMAFabric is nil")
      end
  end.

(** Modelled from the spec: the agent's [Config] is declared in a file that
    is not among the sources; it is the configuration value object of
    section 9, with the fields that [NewInfoCache] reads.  [A] is the type
    of a configured fabric interface. *)
Record Config (A : Type) : Type := {
  DisableCache : bool;
  CacheExpiration : Duration;
  TelemetryEnabled : bool;
  TelemetryRetain : Duration;
  FabricInterfaces : list A;
}.
Arguments DisableCache {A} _.
Arguments CacheExpiration {A} _.
Arguments TelemetryEnabled {A} _.
Arguments TelemetryRetain {A} _.
Arguments FabricInterfaces {A} _.

(** Conjunctions whose parts are at hand. *)
Ltac split_done := repeat (split; [done|]); try done.

(** ** Sample inputs for the error paths

    Facades whose collaborators fail: a lister of network interfaces that
    cannot list, a classifier that does not know one interface, a fetcher
    that answers its first call only, and a facade whose attach-info
    entries expire. *)
Module Faulty.

Definition unlistable (fabricDisabled : bool) : InfoCache :=
  {| fabricCacheDisabled := fabricDisabled; attachInfoCacheDisabled := false;
     clientTelemetryEnabled := false; clientTelemetryRetain := false;
     getAttachInfoCb := None; fabricScan := fabricScanFn_of Sample.scans;
     netIfaces := inr (errors_New "netlink unavailable");
     devClassGetter := fun _ => inl 1%Z;
     client := 1; attachInfoRefresh := 0%Z |}.

Definition unclassified : InfoCache :=
  {| fabricCacheDisabled := true; attachInfoCacheDisabled := false;
     clientTelemetryEnabled := false; clientTelemetryRetain := false;
     getAttachInfoCb := None; fabricScan := fabricScanFn_of Sample.scans;
     netIfaces := inl ["eth0"; "eth1"; "ib0"];
     devClassGetter :=
       fun name => if String.eqb name "eth1" then inr (errors_New "no such device")
                   else inl 1%Z;
     client := 1; attachInfoRefresh := 0%Z |}.

Definition answers_once : AttachInfoCollab :=
  fun _ _ n =>
    match n with
    | 0 => inl (Sample.record "ofi+tcp")
    | S _ => inr (errors_New "connection refused")
    end.

Definition expiring (cb : AttachInfoCollab) : InfoCache :=
  {| fabricCacheDisabled := false; attachInfoCacheDisabled := false;
     clientTelemetryEnabled := true; clientTelemetryRetain := false;
     getAttachInfoCb := Some cb; fabricScan := fabricScanFn_of Sample.scans;
     netIfaces := inl ["eth0"; "eth1"; "ib0"];
     devClassGetter := fun _ => inl 1%Z;
     client := 1; attachInfoRefresh := 10%Z |}.

End Faulty.

(** Goals about the sample inputs are settled by evaluation. *)
Ltac by_computation := vm_compute; first [reflexivity | discriminate | eauto].
Ltac sample_wf :=
  vm_compute; repeat split; eexists; (split; [reflexivity | split; repeat constructor]).

Section Agent.

(** Constants and functions of packages that are not among the sources:
    [build.DefaultSystemName], [telemetry.ClientMetricsEnabledEnv],
    [telemetry.ClientMetricsRetainEnv], [hardware.WaitFabricReady], and
    the lookups [FindDevice] and [GetDevice] of [NUMAFabric]. *)
Variable DefaultSystemName : string.
Variable ClientMetricsEnabledEnv ClientMetricsRetainEnv : string.
Variable hardware_WaitFabricReady : WaitFabricReadyParams -> nat -> option error.
Variable NUMAFabric_FindDevice :
  option loc -> FabricIfaceParams -> Heap -> list FabricInterface * option error.
Variable NUMAFabric_GetDevice :
  option loc -> FabricIfaceParams -> M (option FabricInterface * option error).

(** *** Telemetry and the fetch wrapper of the facade *)

(** [resp.ClientNetHint.EnvVars = append(resp.ClientNetHint.EnvVars, s)] *)
Definition append_EnvVars (l : loc) (s : string) (h : Heap) : Heap :=
  match resps h !! l with
  | None => h
  | Some r =>
      let '(ev, st) := append (EnvVars (ClientNetHint r)) s (strs h) in
      set_resps (<[l := set_ClientNetHint (set_EnvVars ev (ClientNetHint r)) r]> (resps h))
        (set_strs st h)
  end.

Definition addTelemetrySettings (resp : option loc) : M unit :=
  fun w =>
    match ic w, resp with
    | Some c, Some l =>
        if clientTelemetryEnabled c then
          let h1 := append_EnvVars l (ClientMetricsEnabledEnv +:+ "=1") (heap w) in
          if clientTelemetryRetain c then
            (tt, set_heap (append_EnvVars l (ClientMetricsRetainEnv +:+ "=1") h1) w)
          else (tt, set_heap h1 w)
        else (tt, w)
    | _, _ => (tt, w)
    end.

Definition InfoCache_getAttachInfo (rpcClient : UnaryInvoker) (req : GetAttachInfoReq)
  : M (option loc * option error) :=
  fun w =>
    match ic w with
    | None => ((None, Some (errors_New "InfoCache is nil")), w)
    | Some c =>
        match getAttachInfoCb c with
        | None => ((None, Some (errors_New "getAttachInfoFn is nil")), w)
        | Some cb =>
            (let* (resp, err) := call_AttachInfoCollab cb rpcClient req in
             match err with
             | Some e => ret (None, Some e)
             | None => let* _ := addTelemetrySettings resp in ret (resp, None)
             end) w
        end
    end.

Definition call_getAttachInfoFn (f : getAttachInfoFn) (rpcClient : UnaryInvoker)
    (req : GetAttachInfoReq) : M (option loc * option error) :=
  match f with
  | InfoCache_getAttachInfo_fn => InfoCache_getAttachInfo rpcClient req
  | getAttachInfoFn_of g => call_AttachInfoCollab g rpcClient req
  end.

(** *** cachedAttachInfo

    A method returns its receiver as the call left it, next to its Go
    results; a [None] receiver is the nil pointer. *)

Definition cachedAttachInfo_needsRefresh (ci : option cachedAttachInfo) : M bool :=
  match ci with
  | None => ret false
  | Some ci =>
      let* now := time_Now in
      ret (negb (isCached (ai_cacheItem ci)) || isStale now (ai_cacheItem ci))
  end.

Definition cachedAttachInfo_refresh (ci : option cachedAttachInfo)
  : M (option cachedAttachInfo * option error) :=
  match ci with
  | None => ret (None, Some (errors_New "cachedAttachInfo is nil"))
  | Some ci =>
      let req := {| req_System := system ci; AllRanks := true |} in
      let* (resp, err) := call_getAttachInfoFn (ai_fetch ci) (rpcClient ci) req in
      match err with
      | Some e => ret (Some ci, Some (errors_Wrap e "refreshing cached attach info failed"))
      | None =>
          let* now := time_Now in
          ret (Some (attach_cached resp now ci), None)
      end
  end.

Definition cachedAttachInfo_RefreshIfNeeded (ci : option cachedAttachInfo)
  : M (option cachedAttachInfo * (bool * option error)) :=
  match ci with
  | None => ret (None, (false, Some (errors_New "cachedAttachInfo is nil")))
  | Some _ =>
      let* need := cachedAttachInfo_needsRefresh ci in
      if (need : bool) then
        let* (ci', err) := cachedAttachInfo_refresh ci in
        ret (ci', (true, err))
      else ret (ci, (false, None))
  end.

Definition cachedAttachInfo_Refresh (ci : option cachedAttachInfo)
  : M (option cachedAttachInfo * option error) :=
  match ci with
  | None => ret (None, Some (errors_New "cachedAttachInfo is nil"))
  | Some _ => cachedAttachInfo_refresh ci
  end.

(** *** cachedFabricInfo *)

Definition cachedFabricInfo_refresh (cfi : option cachedFabricInfo)
  : M (option cachedFabricInfo * option error) :=
  match cfi with
  | None => ret (None, Some (errors_New "cachedFabricInfo is nil"))
  | Some cfi =>
      let* (results, err) := call_fabricScanFn (fetch cfi) (providers cfi) in
      match err with
      | Some e => ret (Some cfi, Some (errors_Wrap e "refreshing cached fabric info"))
      | None =>
          let* err := on_heap (filterDevClass (devClass cfi) results) in
          match err with
          | Some e => ret (Some cfi, Some (errors_Wrap e "filtering NUMAMap on device class"))
          | None =>
              let* now := time_Now in
              ret (Some (fabric_cached results now cfi), None)
          end
      end
  end.

Definition cachedFabricInfo_RefreshIfNeeded (cfi : option cachedFabricInfo)
  : M (option cachedFabricInfo * (bool * option error)) :=
  match cfi with
  | None => ret (None, (false, Some (errors_New "cachedFabricInfo is nil")))
  | Some cfi' =>
      if negb (isCached (fi_cacheItem cfi')) then
        let* (cfi2, err) := cachedFabricInfo_refresh cfi in
        ret (cfi2, (true, err))
      else ret (cfi, (false, None))
  end.

Definition cachedFabricInfo_Refresh (cfi : option cachedFabricInfo)
  : M (option cachedFabricInfo * option error) :=
  match cfi with
  | None => ret (None, Some (errors_New "cachedFabricInfo is nil"))
  | Some _ => cachedFabricInfo_refresh cfi
  end.

(** *** cache.ItemCache

    Package control/lib/cache is not among the sources; its cache is the
    KeyedCache of section 4.1 of the specification, and its entries have
    the capability contract of section 4.2.  The calls of the interface
    methods of an entry go to the methods of its dynamic type. *)

(** [item.Key()] *)
Definition Item_Key (it : Item) : string :=
  match it with
  | AttachItem ci => cachedAttachInfo_Key (Some ci)
  | FabricItem cfi => cachedFabricInfo_Key (Some cfi)
  end.

(** [item.RefreshIfNeeded(ctx)] *)
Definition Item_RefreshIfNeeded (it : Item) : M (Item * (bool * option error)) :=
  match it with
  | AttachItem ci =>
      let* (ci', r) := cachedAttachInfo_RefreshIfNeeded (Some ci) in
      ret (AttachItem (default ci ci'), r)
  | FabricItem cfi =>
      let* (cfi', r) := cachedFabricInfo_RefreshIfNeeded (Some cfi) in
      ret (FabricItem (default cfi cfi'), r)
  end.

(** [item.Refresh(ctx)] *)
Definition Item_Refresh (it : Item) : M (Item * option error) :=
  match it with
  | AttachItem ci =>
      let* (ci', r) := cachedAttachInfo_Refresh (Some ci) in
      ret (AttachItem (default ci ci'), r)
  | FabricItem cfi =>
      let* (cfi', r) := cachedFabricInfo_Refresh (Some cfi) in
      ret (FabricItem (default cfi cfi'), r)
  end.

(** Modelled from the spec: [ItemCache.Set] is not among the sources.  It
    installs an entry under its own key (section 4.5: a statically seeded
    entry is installed eagerly). *)
Definition ItemCache_Set (it : Item) : M (option error) :=
  fun w => (None, set_items (<[Item_Key it := it]> (items w)) w).

(** Modelled from the spec: [ItemCache.Has] is not among the sources.
    Section 4.1: existence check that does not trigger creation. *)
Definition ItemCache_Has (key : string) : M bool :=
  fun w => (bool_decide (is_Some (items w !! key)), w).

(** Modelled from the spec: [ItemCache.Keys] is not among the sources.
    Section 4.1: snapshot of the currently tracked keys. *)
Definition ItemCache_Keys : M (list string) :=
  fun w => ((map_to_list (items w)).*1, w).

(** Modelled from the spec: [ItemCache.GetOrCreate] is not among the
    sources.  Section 4.1: the entry of an existing key is returned;
    otherwise the factory is called, and its failure leaves the key absent.
    The read path then calls [RefreshIfNeeded] on the entry (sections 4.3
    and 4.4), and a failure of that refresh goes to the caller (section 7).
    In a sequential run the release handle does nothing. *)
Definition ItemCache_GetOrCreate (key : string) (createItem : M (option Item * option error))
  : M (option Item * option error) :=
  let refreshed (it : Item) : M (option Item * option error) :=
    let* (it', r) := Item_RefreshIfNeeded it in
    let* _ := modify (fun w => set_items (<[key := it']> (items w)) w) in
    match snd r with
    | Some e => ret (None, Some e)
    | None => ret (Some it', None)
    end in
  let* w := get_world in
  match items w !! key with
  | Some it => refreshed it
  | None =>
      let* (created, err) := createItem in
      match created, err with
      | Some it, None =>
          let* _ := modify (fun w => set_items (<[key := it]> (items w)) w) in
          refreshed it
      | _, Some e => ret (None, Some e)
      | None, None => ret (None, None)
      end
  end.

(** Modelled from the spec: [ItemCache.Refresh] is not among the sources.
    Section 4.1: the named existing entries are re-fetched whatever their
    staleness, and unknown keys are ignored; the outcome for a key is that
    of the refresh of its entry (section 7), the first failure being
    returned. *)
Fixpoint ItemCache_Refresh (keys : list string) : M (option error) :=
  match keys with
  | [] => ret None
  | key :: rest =>
      let* w := get_world in
      match items w !! key with
      | None => ItemCache_Refresh rest
      | Some it =>
          let* (it', err) := Item_Refresh it in
          let* _ := modify (fun w => set_items (<[key := it']> (items w)) w) in
          match err with
          | Some e => ret (Some e)
          | None => ItemCache_Refresh rest
          end
      end
  end.

(** *** InfoCache: the switches *)

Definition with_fabricCacheDisabled (b : bool) (c : InfoCache) : InfoCache :=
  {| fabricCacheDisabled := b; attachInfoCacheDisabled := attachInfoCacheDisabled c;
     clientTelemetryEnabled := clientTelemetryEnabled c;
     clientTelemetryRetain := clientTelemetryRetain c;
     getAttachInfoCb := getAttachInfoCb c; fabricScan := fabricScan c;
     netIfaces := netIfaces c; devClassGetter := devClassGetter c;
     client := client c; attachInfoRefresh := attachInfoRefresh c |}.

Definition with_attachInfoCache (disabled : bool) (interval : Duration) (c : InfoCache) : InfoCache :=
  {| fabricCacheDisabled := fabricCacheDisabled c; attachInfoCacheDisabled := disabled;
     clientTelemetryEnabled := clientTelemetryEnabled c;
     clientTelemetryRetain := clientTelemetryRetain c;
     getAttachInfoCb := getAttachInfoCb c; fabricScan := fabricScan c;
     netIfaces := netIfaces c; devClassGetter := devClassGetter c;
     client := client c; attachInfoRefresh := interval |}.

Definition IsAttachInfoCacheEnabled : M bool :=
  fun w =>
    match ic w with
    | None => (false, w)
    | Some c => (negb (attachInfoCacheDisabled c), w)
    end.

Definition DisableAttachInfoCache : M unit :=
  fun w =>
    match ic w with
    | None => (tt, w)
    | Some c => (tt, set_ic (Some (with_attachInfoCache true (attachInfoRefresh c) c)) w)
    end.

Definition EnableAttachInfoCache (interval : Duration) : M unit :=
  fun w =>
    match ic w with
    | None => (tt, w)
    | Some c => (tt, set_ic (Some (with_attachInfoCache false interval c)) w)
    end.

Definition IsFabricCacheEnabled : M bool :=
  fun w =>
    match ic w with
    | None => (false, w)
    | Some c => (negb (fabricCacheDisabled c), w)
    end.

Definition DisableFabricCache : M unit :=
  fun w =>
    match ic w with
    | None => (tt, w)
    | Some c => (tt, set_ic (Some (with_fabricCacheDisabled true c)) w)
    end.

Definition EnableFabricCache : M unit :=
  fun w =>
    match ic w with
    | None => (tt, w)
    | Some c => (tt, set_ic (Some (with_fabricCacheDisabled false c)) w)
    end.

Definition EnableStaticFabricCache (nf : option loc) : M unit :=
  fun w =>
    match ic w with
    | None => (tt, w)
    | Some _ =>
        (let* now := time_Now in
         let item :=
           {| fi_cacheItem := {| lastCached := now; refreshInterval := 0%Z |};
              fetch := static_fn nf; providers := []; devClass := 0%Z;
              lastResults := nf |} in
         let* _ := ItemCache_Set (FabricItem item) in
         EnableFabricCache) w
    end.

(** *** InfoCache: attach info *)

Definition copyGetAttachInfoResp (orig : option loc) (h : Heap) : option loc * Heap :=
  match orig with
  | None => (None, h)
  | Some o =>
      match resps h !! o with
      | None => (None, h)
      | Some r =>
          (* cp := new(control.GetAttachInfoResp); *cp = *orig *)
          let '(cp, rs) := alloc_cell r (resps h) in
          (* cp.MSRanks = make([]uint32, len(orig.MSRanks)); copy(cp.MSRanks, orig.MSRanks) *)
          let '(ms, u1) := make 0%Z (slice_len (MSRanks r)) (u32s h) in
          let '(_, u2) := copy ms (MSRanks r) u1 in
          (* cp.ServiceRanks = make([]*control.PrimaryServiceRank, len(orig.ServiceRanks)); copy(...) *)
          let '(sr, p1) := make None (slice_len (ServiceRanks r)) (ptrs h) in
          let '(_, p2) := copy sr (ServiceRanks r) p1 in
          (* if orig.ClientNetHint.EnvVars != nil { make; copy } *)
          let '(ev, s2) :=
            match EnvVars (ClientNetHint r) with
            | Some _ =>
                let '(ev, s1) := make "" (slice_len (EnvVars (ClientNetHint r))) (strs h) in
                let '(_, s2) := copy ev (EnvVars (ClientNetHint r)) s1 in
                (ev, s2)
            | None => (EnvVars (ClientNetHint r), strs h)
            end in
          let r' :=
            set_ClientNetHint (set_EnvVars ev (ClientNetHint r))
              (set_ServiceRanks sr (set_MSRanks ms r)) in
          (Some cp,
           set_resps (<[cp := r']> rs) (set_strs s2 (set_ptrs p2 (set_u32s u2 h))))
      end
  end.

(** [resp.ClientNetHint.Provider] *)
Definition resp_Provider (h : Heap) (resp : option loc) : string :=
  match resp with
  | Some l => match resps h !! l with Some r => Provider (ClientNetHint r) | None => "" end
  | None => ""
  end.

(** [c] is the receiver, which [GetAttachInfo] has found not to be nil. *)
Definition InfoCache_getAttachInfoRemote (c : InfoCache) (sys : string)
  : M (option loc * option error) :=
  let req := {| req_System := sys; AllRanks := true |} in
  let* (resp, err) := InfoCache_getAttachInfo (client c) req in
  match err with
  | Some e => ret (None, Some (errors_Wrap e "GetAttachInfo %+v"))
  | None =>
      let* w := get_world in
      if String.eqb (resp_Provider (heap w) resp) ""
      then ret (None, Some (errors_New "GetAttachInfo response contained no provider"))
      else ret (resp, None)
  end.

Definition InfoCache_GetAttachInfo (sys : string) : M (option loc * option error) :=
  fun w =>
    match ic w with
    | None => ((None, Some (errors_New "InfoCache is nil")), w)
    | Some c =>
        (let* enabled := IsAttachInfoCacheEnabled in
         if negb enabled then InfoCache_getAttachInfoRemote c sys
         else
           let sys := if String.eqb sys "" then DefaultSystemName else sys in
           let createItem : M (option Item * option error) :=
             ret (Some (AttachItem (newCachedAttachInfo (attachInfoRefresh c) sys (client c)
                                      InfoCache_getAttachInfo_fn)), None) in
           let* (item, err) := ItemCache_GetOrCreate (sysAttachInfoKey sys) createItem in
           match err with
           | Some e => ret (None, Some (errors_Wrap e "getting attach info from cache"))
           | None =>
               match item with
               | Some (AttachItem cai) =>
                   let* cp := on_heap (copyGetAttachInfoResp (lastResponse cai)) in
                   ret (cp, None)
               | _ => ret (None, Some (errors_Errorf "unexpected attach info data type %T"))
               end
           end) w
    end.

(** *** InfoCache: fabric *)

(** The loop of [waitFabricReady] over the local interfaces. *)
Fixpoint needIfaces_of (getter : string -> NetDevClass + error) (netDevClass : NetDevClass)
    (ifaces : list string) (needIfaces : list string) : list string + error :=
  match ifaces with
  | [] => inl needIfaces
  | name :: rest =>
      match getter name with
      | inr e => inr (errors_Wrap e "getting device class for %s")
      | inl dc =>
          if (dc =? netDevClass)%Z
          then needIfaces_of getter netDevClass rest (needIfaces ++ [name])
          else needIfaces_of getter netDevClass rest needIfaces
      end
  end.

Definition InfoCache_waitFabricReady (c : InfoCache) (netDevClass : NetDevClass)
  : M (option error) :=
  match netIfaces c with
  | inr e => ret (Some (errors_Wrap e "getting net interfaces"))
  | inl ifaces =>
      match needIfaces_of (devClassGetter c) netDevClass ifaces [] with
      | inr e => ret (Some e)
      | inl [] => ret None
      | inl needIfaces =>
          fun w =>
            let p := {| FabricIfaces := needIfaces; IgnoreUnusable := true;
                        IterationSleep := 1000000000%Z |} in
            (hardware_WaitFabricReady p (length (waitLog w)),
             set_waitLog (waitLog w ++ [p]) w)
      end
  end.

Definition InfoCache_getNUMAFabric (c : InfoCache) (netDevClass : NetDevClass)
    (provs : list string) : M (option loc * option error) :=
  let* enabled := IsFabricCacheEnabled in
  if negb enabled then
    let* err := InfoCache_waitFabricReady c netDevClass in
    match err with
    | Some e => ret (None, Some e)
    | None => call_fabricScanFn (fabricScan c) provs
    end
  else
    let createItem : M (option Item * option error) :=
      let* err := InfoCache_waitFabricReady c netDevClass in
      match err with
      | Some e => ret (None, Some e)
      | None => ret (Some (FabricItem (newCachedFabricInfo (fabricScan c) netDevClass provs)), None)
      end in
    let* (item, err) := ItemCache_GetOrCreate fabricKey createItem in
    match err with
    | Some e => ret (None, Some (errors_Wrap e "getting fabric scan from cache"))
    | None =>
        match item with
        | Some (FabricItem cfi) => ret (lastResults cfi, None)
        | _ => ret (None, Some (errors_Errorf "unexpected fabric data type %T"))
        end
    end.

(** What a call of [GetFabricDevice] comes to: its two Go results, or a
    run-time panic. *)
Inductive outcome : Type :=
| Returned (fi : option FabricInterface) (err : option error)
| Panicked (reason : string).

Definition InfoCache_GetFabricDevice (params : option FabricIfaceParams) : M outcome :=
  fun w =>
    match ic w with
    | None => (Returned None (Some (errors_New "InfoCache is nil")), w)
    | Some c =>
        match params with
        | None => (Panicked "invalid memory address or nil pointer dereference", w)
        | Some p =>
            (let* (nf, err) := InfoCache_getNUMAFabric c (DevClass p) [par_Provider p] in
             match err with
             | Some e => ret (Returned None (Some e))
             | None =>
                 if negb (String.eqb (Interface p) "") then
                   let* w' := get_world in
                   let '(fi, err) := NUMAFabric_FindDevice nf p (heap w') in
                   match err with
                   | Some e => ret (Returned None (Some e))
                   | None =>
                       match fi with
                       | [] => ret (Panicked "index out of range [0] with length 0")
                       | fi0 :: _ => ret (Returned (Some fi0) None)
                       end
                   end
                 else
                   let* (fi, err) := NUMAFabric_GetDevice nf p in
                   ret (Returned fi err)
             end) w
        end
    end.

(** *** InfoCache.Refresh *)

Definition InfoCache_Refresh : M (option error) :=
  fun w =>
    match ic w with
    | None => (Some (errors_New "InfoCache is nil"), w)
    | Some c =>
        (let* attachEnabled := IsAttachInfoCacheEnabled in
         let* fabricEnabled := IsFabricCacheEnabled in
         if negb attachEnabled && negb fabricEnabled
         then ret (Some (errors_New "all caches are disabled"))
         else
           let* hasFabric := ItemCache_Has fabricKey in
           let keys := if fabricEnabled && hasFabric then [fabricKey] else [] in
           let* tracked := ItemCache_Keys in
           let keys :=
             if attachEnabled
             then keys ++ filter (fun k => String.prefix attachInfoKey k = true) tracked
             else keys in
           ItemCache_Refresh keys) w
    end.

(** *** InfoCache.GetNUMAFabricMap *)

(** The map comes with the fabric it belongs to; the release action does
    nothing in a sequential run. *)
Definition InfoCache_GetNUMAFabricMap (devClass : NetDevClass) (provs : list string)
  : M (option (loc * gmap Z (list FabricInterface)) * option error) :=
  fun w =>
    match ic w with
    | None => ((None, Some (errors_New "InfoCache is nil")), w)
    | Some c =>
        (let* (nf, err) := InfoCache_getNUMAFabric c devClass provs in
         match err with
         | Some e => ret (None, Some (errors_Wrap e "getting the NUMA fabric"))
         | None =>
             let* w' := get_world in
             match NUMAFabric_RLockedMap nf (heap w') with
             | inl m => ret (Some m, None)
             | inr e => ret (None, Some e)
             end
         end) w
    end.

(** *** NewInfoCache

    The collaborators that the constructor installs come from packages that
    are not among the sources ([control.GetAttachInfo], the scan function
    that [getFabricScanFn] builds, [net.Interfaces], the default device
    class provider), and so does [NUMAFabricFromConfig]; they are arguments
    here.  The new facade replaces the one of the world, with a new, empty
    item cache. *)
Definition NewInfoCache {A : Type}
    (NUMAFabricFromConfig : list A -> gmap Z (list FabricInterface))
    (control_GetAttachInfo : AttachInfoCollab) (scan : fabricScanFn)
    (net_Interfaces : list string + error)
    (classProvider : string -> NetDevClass + error)
    (client : UnaryInvoker) (cfg : Config A) : M unit :=
  fun w =>
    let c :=
      {| fabricCacheDisabled := false; attachInfoCacheDisabled := false;
         clientTelemetryEnabled := TelemetryEnabled cfg;
         clientTelemetryRetain := (0 <? TelemetryRetain cfg)%Z;
         getAttachInfoCb := Some control_GetAttachInfo; fabricScan := scan;
         netIfaces := net_Interfaces; devClassGetter := classProvider;
         client := client; attachInfoRefresh := 0%Z |} in
    (if DisableCache cfg then
       let* _ := DisableAttachInfoCache in DisableFabricCache
     else
       let* _ := EnableAttachInfoCache (CacheExpiration cfg) in
       if 0 <? length (FabricInterfaces cfg) then
         let* nf :=
           on_heap (fun h =>
                      let '(l, fs) :=
                        alloc_cell (NUMAFabricFromConfig (FabricInterfaces cfg)) (fabrics h) in
                      (Some l, set_fabrics fs h)) in
         EnableStaticFabricCache nf
       else EnableFabricCache) (set_items ∅ (set_ic (Some c) w)).

(** Successive calls of [getNUMAFabric], each with its own device class and
    providers. *)
Fixpoint getNUMAFabric_each (c : InfoCache) (requests : list (NetDevClass * list string))
  : M (list (option loc * option error)) :=
  match requests with
  | [] => ret []
  | (dc, provs) :: rest =>
      let* r := InfoCache_getNUMAFabric c dc provs in
      let* rs := getNUMAFabric_each c rest in
      ret (r :: rs)
  end.

(** *** Notions used in the statements *)

(** The fetch function of an entry reaches a collaborator: it is one, or
    the facade it is bound to exists and has one. *)
Definition fetch_installed (f : getAttachInfoFn) (w : World) : Prop :=
  match f with
  | getAttachInfoFn_of _ => True
  | InfoCache_getAttachInfo_fn =>
      exists c cb, ic w = Some c /\ getAttachInfoCb c = Some cb
  end.

(** What filtering on a device class leaves of a bucket: the records of
    that class in their order, or no bucket at all. *)
Definition filtered_bucket (dc : NetDevClass) (fis : list FabricInterface)
  : option (list FabricInterface) :=
  match filter (fun fi => fi_NetDevClass fi = dc) fis with
  | [] => None
  | kept => Some kept
  end.

(** How [GetFabricDevice] ends once [FindDevice] has answered: the
    error, or the first element of the list. *)
Definition first_device (r : list FabricInterface * option error) : outcome :=
  match snd r with
  | Some e => Returned None (Some e)
  | None =>
      match fst r with
      | [] => Panicked "index out of range [0] with length 0"
      | fi0 :: _ => Returned (Some fi0) None
      end
  end.

(** A slice lies within its array. *)
Definition wf_slice {A : Type} (m : gmap loc (list A)) (s : option slice) : Prop :=
  match s with
  | None => True
  | Some h => exists arr, m !! base h = Some arr /\ len h <= cap h /\ cap h <= length arr
  end.

(** The three lists of a record lie within their arrays. *)
Definition wf_resp (h : Heap) (r : GetAttachInfoResp) : Prop :=
  wf_slice (u32s h) (MSRanks r) /\ wf_slice (ptrs h) (ServiceRanks r) /\
  wf_slice (strs h) (EnvVars (ClientNetHint r)).

(** The environment variables that telemetry adds. *)
Definition telemetry_vars (c : InfoCache) : list string :=
  if clientTelemetryEnabled c then
    (ClientMetricsEnabledEnv +:+ "=1") ::
    (if clientTelemetryRetain c then [ClientMetricsRetainEnv +:+ "=1"] else [])
  else [].

(** Successive calls of [GetAttachInfo], made when the clock reads the
    given times. *)
Fixpoint GetAttachInfo_at (sys : string) (times : list Time)
  : M (list (option loc * option error)) :=
  match times with
  | [] => ret []
  | t :: rest =>
      let* _ := modify (set_clock t) in
      let* r := InfoCache_GetAttachInfo sys in
      let* rs := GetAttachInfo_at sys rest in
      ret (r :: rs)
  end.

(** What a caller can do with a record it received:
    [resp.ServiceRanks[i].Uri = u], and reading that field back. *)
Definition ServiceRank_ptr (resp : option loc) (i : nat) (h : Heap) : option loc :=
  l ← resp; r ← resps h !! l; p ← elems (ptrs h) (ServiceRanks r) !! i; p.

Definition caller_set_Uri (resp : option loc) (i : nat) (u : string) (h : Heap) : Heap :=
  match ServiceRank_ptr resp i h with
  | Some p =>
      set_psrs (alter (fun x => {| Rank := Rank x; Uri := u;
                                    psr_ProviderIdx := psr_ProviderIdx x;
                                    NumCtxs := NumCtxs x |}) p (psrs h)) h
  | None => h
  end.

Definition read_Uri (resp : option loc) (i : nat) (h : Heap) : option string :=
  p ← ServiceRank_ptr resp i h; x ← psrs h !! p; Some (Uri x).

(** *** Facts about the entries *)

Lemma isStale_false_iff (now : Time) (ci : cacheItem) :
  isStale now ci = false <->
  refreshInterval ci = 0%Z \/ (now <= lastCached ci + refreshInterval ci)%Z.
Proof.
  unfold isStale, Time_Before, Time_Add.
  destruct (Z.eqb_spec (refreshInterval ci) 0) as [E|E].
  - split; auto.
  - rewrite Z.ltb_ge. split; [auto | intros [H|H]; [contradiction | exact H]].
Qed.

Lemma isCached_true_iff (ci : cacheItem) :
  isCached ci = true <-> lastCached ci <> Time_zero.
Proof.
  unfold isCached, Time_Equal. rewrite negb_true_iff. apply Z.eqb_neq.
Qed.

Lemma addTelemetrySettings_frame (resp : option loc) (w : World) :
  let w' := snd (addTelemetrySettings resp w) in
  ic w' = ic w /\ items w' = items w /\ clock w' = clock w /\
  rpcLog w' = rpcLog w /\ scanLog w' = scanLog w /\ waitLog w' = waitLog w.
Proof.
  unfold addTelemetrySettings.
  destruct (ic w) as [c|] eqn:Hc; [|by simpl].
  destruct resp as [l|]; [|by simpl].
  destruct (clientTelemetryEnabled c); [|by simpl].
  destruct (clientTelemetryRetain c); by simpl.
Qed.

Lemma call_AttachInfoCollab_frame f cl req (w : World) :
  let w' := snd (call_AttachInfoCollab f cl req w) in
  ic w' = ic w /\ items w' = items w /\ clock w' = clock w /\
  rpcLog w' = rpcLog w ++ [(cl, req)] /\ scanLog w' = scanLog w /\ waitLog w' = waitLog w.
Proof.
  unfold call_AttachInfoCollab.
  destruct (f cl req (length (rpcLog w))) as [v|e]; [|by simpl].
  destruct (alloc_resp v (heap w)) as [l h]. by simpl.
Qed.




Lemma call_getAttachInfoFn_frame f cl req (w : World) :
  let w' := snd (call_getAttachInfoFn f cl req w) in
  ic w' = ic w /\ items w' = items w /\ clock w' = clock w /\
  scanLog w' = scanLog w /\ waitLog w' = waitLog w /\
  (fetch_installed f w -> rpcLog w' = rpcLog w ++ [(cl, req)]).
Proof.
  destruct f as [|g]; simpl.
  - unfold InfoCache_getAttachInfo.
    destruct (ic w) as [c|] eqn:Hc.
    2:{ simpl. repeat split; auto. intros (c & cb & [=] & _). }
    destruct (getAttachInfoCb c) as [cb|] eqn:Hcb.
    2:{ simpl. repeat split; auto. intros (c' & cb & [= <-] & ?). congruence. }
    unfold bind.
    pose proof (call_AttachInfoCollab_frame cb cl req w) as Hf.
    destruct (call_AttachInfoCollab cb cl req w) as [[resp [e'|]] w1]; simpl in Hf.
    + simpl. destruct Hf as (? & ? & ? & ? & ? & ?). repeat split; congruence.
    + pose proof (addTelemetrySettings_frame resp w1) as Ht.
      destruct (addTelemetrySettings resp w1) as [[] w2]. simpl in Ht |- *.
      destruct Hf as (? & ? & ? & ? & ? & ?), Ht as (? & ? & ? & ? & ? & ?).
      repeat split; congruence.
  - pose proof (call_AttachInfoCollab_frame g cl req w) as Hf. simpl in Hf.
    destruct Hf as (? & ? & ? & ? & ? & ?). repeat split; auto.
Qed.

Lemma attach_RefreshIfNeeded_fresh (ci : cachedAttachInfo) (w : World) :
  isCached (ai_cacheItem ci) = true -> isStale (clock w) (ai_cacheItem ci) = false ->
  cachedAttachInfo_RefreshIfNeeded (Some ci) w = ((Some ci, (false, None)), w).
Proof.
  intros Hc Hs. unfold cachedAttachInfo_RefreshIfNeeded, cachedAttachInfo_needsRefresh,
    bind, time_Now, ret. by rewrite Hc, Hs.
Qed.

Lemma attach_RefreshIfNeeded_needed (ci : cachedAttachInfo) (w : World) :
  negb (isCached (ai_cacheItem ci)) || isStale (clock w) (ai_cacheItem ci) = true ->
  cachedAttachInfo_RefreshIfNeeded (Some ci) w =
    (let '((ci', err), w') := cachedAttachInfo_refresh (Some ci) w in
     ((ci', (true, err)), w')).
Proof.
  intros H. unfold cachedAttachInfo_RefreshIfNeeded, cachedAttachInfo_needsRefresh,
    bind, time_Now, ret. rewrite H.
  by destruct (cachedAttachInfo_refresh (Some ci) w) as [[ci' err] w'].
Qed.

Lemma attach_refresh_ok (ci : cachedAttachInfo) (w : World) ci' w' :
  cachedAttachInfo_refresh (Some ci) w = ((ci', None), w') ->
  exists resp,
    call_getAttachInfoFn (ai_fetch ci) (rpcClient ci)
      {| req_System := system ci; AllRanks := true |} w = ((resp, None), w') /\
    ci' = Some (attach_cached resp (clock w') ci).
Proof.
  unfold cachedAttachInfo_refresh, bind.
  destruct (call_getAttachInfoFn _ _ _ w) as [[resp [e|]] w1]; unfold ret, time_Now.
  - intros [=].
  - intros [= <- <-]. eauto.
Qed.

(** C4 (amended): an attach-info entry is fresh exactly when its refresh
    interval is zero or the current time is not after last-fetch-time plus
    the interval, and stale otherwise.  A cached, fresh entry answers
    [RefreshIfNeeded] with (false, nil) and nothing changes; with interval
    zero this holds for ever after the first successful fetch; once the
    interval has elapsed [RefreshIfNeeded] returns true with the results
    of [refresh], which calls the fetcher. *)
Theorem attach_entry_staleness (ci : cachedAttachInfo) (w : World) :
  let item := ai_cacheItem ci in
  (isStale (clock w) item = false <->
     refreshInterval item = 0%Z \/ (clock w <= lastCached item + refreshInterval item)%Z)
  /\ (isCached item = true -> isStale (clock w) item = false ->
      cachedAttachInfo_RefreshIfNeeded (Some ci) w = ((Some ci, (false, None)), w))
  /\ (refreshInterval item = 0%Z -> clock w <> Time_zero ->
      forall ci' w',
        cachedAttachInfo_refresh (Some ci) w = ((Some ci', None), w') ->
        forall w2,
          cachedAttachInfo_RefreshIfNeeded (Some ci') w2 = ((Some ci', (false, None)), w2))
  /\ (refreshInterval item <> 0%Z ->
      (lastCached item + refreshInterval item < clock w)%Z ->
      exists ci' err w',
        cachedAttachInfo_refresh (Some ci) w = ((ci', err), w') /\
        cachedAttachInfo_RefreshIfNeeded (Some ci) w = ((ci', (true, err)), w') /\
        (fetch_installed (ai_fetch ci) w ->
         rpcLog w' = rpcLog w ++
           [(rpcClient ci, {| req_System := system ci; AllRanks := true |})])).
Proof.
  intros item. split; [apply isStale_false_iff|].
  split; [apply attach_RefreshIfNeeded_fresh|]. split.
  - intros Hz Hclk ci' w' Href w2.
    apply attach_refresh_ok in Href as (resp & Hcall & [= ->]).
    pose proof (call_getAttachInfoFn_frame (ai_fetch ci) (rpcClient ci)
                  {| req_System := system ci; AllRanks := true |} w) as Hf.
    rewrite Hcall in Hf. simpl in Hf. destruct Hf as (_ & _ & Hck & _).
    apply attach_RefreshIfNeeded_fresh.
    + apply isCached_true_iff. simpl. congruence.
    + apply isStale_false_iff. left. exact Hz.
  - intros Hnz Hlt.
    destruct (cachedAttachInfo_refresh (Some ci) w) as [[ci' err] w'] eqn:Href.
    exists ci', err, w'. split; [reflexivity|]. split.
    + rewrite attach_RefreshIfNeeded_needed, Href; [reflexivity|].
      apply orb_true_iff. right. unfold isStale, Time_Before, Time_Add. fold item.
      destruct (Z.eqb_spec (refreshInterval item) 0); [contradiction|].
      by apply Z.ltb_lt.
    + intros Hinst. unfold cachedAttachInfo_refresh, bind in Href.
      pose proof (call_getAttachInfoFn_frame (ai_fetch ci) (rpcClient ci)
                    {| req_System := system ci; AllRanks := true |} w) as Hf.
      destruct (call_getAttachInfoFn _ _ _ w) as [[resp [e|]] w1];
        simpl in Hf; destruct Hf as (_ & _ & _ & _ & _ & Hlog);
        unfold ret, time_Now in Href; injection Href as <- <- <-; auto.
Qed.

Lemma filterLoop_eq (dc : NetDevClass) (i : nat) (fis : list FabricInterface) :
  filterLoop dc i fis =
  take i fis ++ filter (fun fi => fi_NetDevClass fi = dc) (drop i fis).
Proof.
  funelim (filterLoop dc i fis).
  - clear Heqcall. pose proof (lookup_lt_Some _ _ _ Hi) as Hlt.
    rewrite (drop_S _ _ _ Hi).
    case_bool_decide as Hne.
    + rewrite H.
      rewrite (take_app_length' (take i fis)) by (rewrite length_take; lia).
      rewrite (drop_app_length' (take i fis)) by (rewrite length_take; lia).
      by rewrite filter_cons_False.
    + rewrite H0. rewrite (take_S_r _ _ _ Hi).
      rewrite filter_cons_True by (destruct (decide (fi_NetDevClass fi = dc)); [done|contradiction]).
      by rewrite <- app_assoc.
  - pose proof (proj1 (lookup_ge_None _ _) e).
    rewrite take_ge, drop_ge by lia. by rewrite app_nil_r.
Qed.

Lemma filterLoop_filter (dc : NetDevClass) (fis : list FabricInterface) :
  filterLoop dc 0 fis = filter (fun fi => fi_NetDevClass fi = dc) fis.
Proof. by rewrite filterLoop_eq. Qed.

Lemma filterBucket_lookup dc numa fis (acc : gmap Z (list FabricInterface)) k :
  filterBucket dc numa fis acc !! k =
  if decide (numa = k) then filtered_bucket dc fis else acc !! k.
Proof.
  unfold filterBucket, filtered_bucket. rewrite filterLoop_filter.
  destruct (filter _ fis) as [|x xs]; simpl.
  - rewrite lookup_delete. by destruct (decide (numa = k)).
  - rewrite lookup_insert. by destruct (decide (numa = k)).
Qed.

Lemma filter_range_lookup dc (nfMap : gmap Z (list FabricInterface)) k :
  map_fold (filterBucket dc) nfMap nfMap !! k = nfMap !! k ≫= filtered_bucket dc.
Proof.
  enough (forall acc, map_fold (filterBucket dc) acc nfMap !! k =
            match nfMap !! k with
            | Some fis => filtered_bucket dc fis
            | None => acc !! k
            end) as H.
  { rewrite H. by destruct (nfMap !! k). }
  intros acc.
  apply (map_fold_weak_ind (fun r (m : gmap Z (list FabricInterface)) =>
           r !! k = match m !! k with
                    | Some fis => filtered_bucket dc fis
                    | None => acc !! k
                    end)).
  - by rewrite lookup_empty.
  - intros i x m r Hi IH. rewrite filterBucket_lookup, lookup_insert.
    destruct (decide (i = k)); [done | exact IH].
Qed.



Lemma filterDevClass_ok dc (l : loc) (h : Heap) m :
  fabrics h !! l = Some m ->
  filterDevClass dc (Some l) h =
    (None, set_fabrics (<[l := map_fold (filterBucket dc) m m]> (fabrics h)) h).
Proof. intros H. unfold filterDevClass, NUMAFabric_LockedMap. by rewrite H. Qed.





Lemma filtered_bucket_Some dc fis kept :
  filtered_bucket dc fis = Some kept <->
  kept = filter (fun fi => fi_NetDevClass fi = dc) fis /\ kept <> [].
Proof.
  unfold filtered_bucket.
  destruct (filter _ fis) as [|x xs]; split.
  - intros [=].
  - intros [-> H]. contradiction.
  - intros [= <-]. done.
  - intros [-> _]. done.
Qed.

Lemma fabric_refresh_of_fetch (cfi : cachedFabricInfo) (w w1 : World) (l : loc)
    (m : gmap Z (list FabricInterface)) :
  call_fabricScanFn (fetch cfi) (providers cfi) w = ((Some l, None), w1) ->
  fabrics (heap w1) !! l = Some m ->
  cachedFabricInfo_Refresh (Some cfi) w =
    ((Some (fabric_cached (Some l) (clock w1) cfi), None),
     set_heap (set_fabrics
                 (<[l := map_fold (filterBucket (devClass cfi)) m m]> (fabrics (heap w1)))
                 (heap w1)) w1).
Proof.
  intros Hcall Hm. unfold cachedFabricInfo_Refresh, cachedFabricInfo_refresh, bind.
  rewrite Hcall. unfold on_heap. rewrite (filterDevClass_ok _ _ _ _ Hm).
  reflexivity.
Qed.

(** C5: a successful [Refresh] of a fabric entry filters the scanned
    topology map in place: the map the entry then holds has, for every
    NUMA node, exactly the records of the entry's device class that the
    scan put there, in their original order, and no bucket at all for a
    node that the filtering left without records. *)
Theorem fabric_refresh_filters (cfi : cachedFabricInfo) (w : World)
    (g : FabricScanCollab) (m : gmap Z (list FabricInterface)) :
  fetch cfi = fabricScanFn_of g ->
  g (providers cfi) (length (scanLog w)) = inl m ->
  exists l w' m',
    cachedFabricInfo_Refresh (Some cfi) w =
      ((Some (fabric_cached (Some l) (clock w) cfi), None), w') /\
    fabrics (heap w') !! l = Some m' /\
    (forall numa fis,
        m' !! numa = Some fis <->
        exists scanned,
          m !! numa = Some scanned /\
          fis = filter (fun fi => fi_NetDevClass fi = devClass cfi) scanned /\
          fis <> []) /\
    (forall numa fis,
        m' !! numa = Some fis ->
        Forall (fun fi => fi_NetDevClass fi = devClass cfi) fis) /\
    (forall numa scanned,
        m !! numa = Some scanned ->
        filter (fun fi => fi_NetDevClass fi = devClass cfi) scanned = [] ->
        m' !! numa = None).
Proof.
  intros Hf Hg.
  set (l := fresh (dom (fabrics (heap w)))).
  set (w1 := set_heap (set_fabrics (<[l := m]> (fabrics (heap w))) (heap w))
               (set_scanLog (scanLog w ++ [providers cfi]) w)).
  assert (Hcall : call_fabricScanFn (fetch cfi) (providers cfi) w = ((Some l, None), w1)).
  { rewrite Hf. simpl. by rewrite Hg. }
  assert (Hm : fabrics (heap w1) !! l = Some m) by (simpl; apply lookup_insert_eq).
  pose proof (fabric_refresh_of_fetch cfi w w1 l m Hcall Hm) as Href.
  eexists l, _, (map_fold (filterBucket (devClass cfi)) m m).
  split; [exact Href|]. split; [simpl; apply lookup_insert_eq|].
  assert (Hlk : forall numa fis,
             map_fold (filterBucket (devClass cfi)) m m !! numa = Some fis <->
             exists scanned, m !! numa = Some scanned /\
               fis = filter (fun fi => fi_NetDevClass fi = devClass cfi) scanned /\
               fis <> []).
  { intros numa fis. rewrite filter_range_lookup.
    destruct (m !! numa) as [scanned|]; simpl.
    - rewrite filtered_bucket_Some. split.
      + intros [-> ?]. eauto.
      + intros (s & [= <-] & -> & ?). auto.
    - split; [intros [=] | intros (s & [=] & _)]. }
  split; [exact Hlk|]. split.
  - intros numa fis H. apply Hlk in H as (scanned & _ & -> & _).
    apply Forall_forall. intros fi Hin. by apply list_elem_of_filter in Hin as [? _].
  - intros numa scanned Hs Hnil. rewrite filter_range_lookup, Hs. simpl.
    unfold filtered_bucket. by rewrite Hnil.
Qed.

(** *** Facts about the facade *)

Lemma set_items_id (w : World) : set_items (items w) w = w.
Proof. by destruct w. Qed.

Lemma fabric_RefreshIfNeeded_cached (cfi : cachedFabricInfo) (w : World) :
  isCached (fi_cacheItem cfi) = true ->
  cachedFabricInfo_RefreshIfNeeded (Some cfi) w = ((Some cfi, (false, None)), w).
Proof. intros H. unfold cachedFabricInfo_RefreshIfNeeded. by rewrite H. Qed.

(** A hit: the entry is tracked and its own policy finds it fresh. *)
Lemma GetOrCreate_hit (key : string) createItem (it : Item) (w : World) :
  items w !! key = Some it ->
  Item_RefreshIfNeeded it w = ((it, (false, None)), w) ->
  ItemCache_GetOrCreate key createItem w = ((Some it, None), w).
Proof.
  intros Hit Hfresh. unfold ItemCache_GetOrCreate, bind, get_world.
  rewrite Hit, Hfresh. unfold modify, ret. simpl.
  by rewrite (insert_id _ _ _ Hit), set_items_id.
Qed.

Lemma getNUMAFabric_cached (c : InfoCache) (cfi : cachedFabricInfo) dc provs (w : World) :
  ic w = Some c -> fabricCacheDisabled c = false ->
  items w !! fabricKey = Some (FabricItem cfi) ->
  isCached (fi_cacheItem cfi) = true ->
  InfoCache_getNUMAFabric c dc provs w = ((lastResults cfi, None), w).
Proof.
  intros Hc Hen Hit Hcached.
  unfold InfoCache_getNUMAFabric, bind, IsFabricCacheEnabled. rewrite Hc, Hen. simpl.
  rewrite (GetOrCreate_hit _ _ (FabricItem cfi)); [done | done |].
  unfold Item_RefreshIfNeeded, bind. by rewrite fabric_RefreshIfNeeded_cached.
Qed.

Lemma GetFabricDevice_cached (c : InfoCache) (cfi : cachedFabricInfo)
    (p : FabricIfaceParams) (w : World) :
  ic w = Some c -> fabricCacheDisabled c = false ->
  items w !! fabricKey = Some (FabricItem cfi) ->
  isCached (fi_cacheItem cfi) = true ->
  Interface p <> "" ->
  InfoCache_GetFabricDevice (Some p) w =
    (first_device (NUMAFabric_FindDevice (lastResults cfi) p (heap w)), w).
Proof.
  intros Hc Hen Hit Hcached Hname.
  unfold InfoCache_GetFabricDevice. rewrite Hc. unfold bind.
  rewrite (getNUMAFabric_cached c cfi) by assumption.
  apply String.eqb_neq in Hname. rewrite Hname. simpl. unfold get_world.
  unfold first_device.
  destruct (NUMAFabric_FindDevice (lastResults cfi) p (heap w)) as [fi [e|]]; [done|].
  by destruct fi.
Qed.

Lemma EnableStaticFabricCache_spec (c : InfoCache) (nf : option loc) (w : World) :
  ic w = Some c ->
  EnableStaticFabricCache nf w =
    (tt,
     set_ic (Some (with_fabricCacheDisabled false c))
       (set_items
          (<[fabricKey :=
               FabricItem {| fi_cacheItem := {| lastCached := clock w; refreshInterval := 0%Z |};
                             fetch := static_fn nf; providers := []; devClass := 0%Z;
                             lastResults := nf |}]> (items w)) w)).
Proof.
  intros Hc. unfold EnableStaticFabricCache. rewrite Hc.
  unfold bind, time_Now, ItemCache_Set, EnableFabricCache. simpl. by rewrite Hc.
Qed.

(** C10: the nil-receiver guard of [GetFabricDevice] does not make it
    total.  On a nil receiver it returns an error; on a facade that
    exists, a nil [params] is dereferenced and the call panics; when an
    interface is named and [FindDevice] answers with an empty list and no
    error, indexing its first element panics; and if [FindDevice] never
    answers so, a call with params that are not nil does not panic. *)
Theorem GetFabricDevice_partial (w : World) :
  (ic w = None ->
   forall params,
     InfoCache_GetFabricDevice params w =
       (Returned None (Some (errors_New "InfoCache is nil")), w))
  /\ (forall c, ic w = Some c ->
      InfoCache_GetFabricDevice None w =
        (Panicked "invalid memory address or nil pointer dereference", w))
  /\ (forall c p nf w1,
        ic w = Some c -> Interface p <> "" ->
        InfoCache_getNUMAFabric c (DevClass p) [par_Provider p] w = ((nf, None), w1) ->
        NUMAFabric_FindDevice nf p (heap w1) = ([], None) ->
        InfoCache_GetFabricDevice (Some p) w =
          (Panicked "index out of range [0] with length 0", w1))
  /\ ((forall nf p h fi, NUMAFabric_FindDevice nf p h = (fi, None) -> fi <> []) ->
      forall p reason,
        fst (InfoCache_GetFabricDevice (Some p) w) <> Panicked reason).
Proof.
  split; [|split; [|split]].
  - intros Hc params. unfold InfoCache_GetFabricDevice. by rewrite Hc.
  - intros c Hc. unfold InfoCache_GetFabricDevice. by rewrite Hc.
  - intros c p nf w1 Hc Hname Hnf Hfind.
    unfold InfoCache_GetFabricDevice. rewrite Hc. unfold bind. rewrite Hnf.
    apply String.eqb_neq in Hname. rewrite Hname. simpl.
    unfold get_world. by rewrite Hfind.
  - intros Hpre p reason. unfold InfoCache_GetFabricDevice.
    destruct (ic w) as [c|]; [|done]. unfold bind.
    destruct (InfoCache_getNUMAFabric c (DevClass p) [par_Provider p] w)
      as [[nf [e|]] w1]; [done|].
    destruct (negb (Interface p =? "")%string).
    + unfold get_world.
      destruct (NUMAFabric_FindDevice nf p (heap w1)) as [fi [e|]] eqn:Hfind; [done|].
      destruct fi as [|fi0 fi]; [|done].
      by apply Hpre in Hfind.
    + by destruct (NUMAFabric_GetDevice nf p w1) as [[fi err] w2].
Qed.

Lemma InfoCache_getAttachInfo_frame cl req (w : World) :
  let w' := snd (InfoCache_getAttachInfo cl req w) in
  ic w' = ic w /\ items w' = items w /\ clock w' = clock w /\
  scanLog w' = scanLog w /\ waitLog w' = waitLog w /\
  (fetch_installed InfoCache_getAttachInfo_fn w -> rpcLog w' = rpcLog w ++ [(cl, req)]).
Proof. exact (call_getAttachInfoFn_frame InfoCache_getAttachInfo_fn cl req w). Qed.

Lemma GetAttachInfo_disabled (sys : string) (w : World) (c : InfoCache) :
  ic w = Some c -> attachInfoCacheDisabled c = true ->
  InfoCache_GetAttachInfo sys w = InfoCache_getAttachInfoRemote c sys w.
Proof.
  intros Hc Hd. unfold InfoCache_GetAttachInfo. rewrite Hc.
  unfold bind, IsAttachInfoCacheEnabled. by rewrite Hc, Hd.
Qed.

Lemma getAttachInfoRemote_frame (c : InfoCache) (sys : string) (w : World) :
  let w' := snd (InfoCache_getAttachInfoRemote c sys w) in
  w' = snd (InfoCache_getAttachInfo (client c)
              {| req_System := sys; AllRanks := true |} w).
Proof.
  unfold InfoCache_getAttachInfoRemote, bind.
  destruct (InfoCache_getAttachInfo _ _ w) as [[resp [e|]] w1]; simpl; [done|].
  unfold get_world. by destruct (String.eqb _ _).
Qed.

(** C7: with the attach-info sub-cache disabled, [GetAttachInfo] fetches
    directly: it calls the fetcher once, with the caller's system name
    and the all-ranks flag set, and it neither reads nor writes the
    tracked entries. *)
Theorem bypass_fetch_all_ranks (sys : string) (w : World) (c : InfoCache)
    (cb : AttachInfoCollab) :
  ic w = Some c -> attachInfoCacheDisabled c = true -> getAttachInfoCb c = Some cb ->
  InfoCache_GetAttachInfo sys w = InfoCache_getAttachInfoRemote c sys w /\
  let w' := snd (InfoCache_GetAttachInfo sys w) in
  rpcLog w' = rpcLog w ++ [(client c, {| req_System := sys; AllRanks := true |})] /\
  Forall (fun call => AllRanks (snd call) = true) (drop (length (rpcLog w)) (rpcLog w')) /\
  items w' = items w /\ ic w' = ic w.
Proof.
  intros Hc Hd Hcb. split; [by apply GetAttachInfo_disabled|].
  rewrite (GetAttachInfo_disabled sys w c Hc Hd).
  pose proof (getAttachInfoRemote_frame c sys w) as Hw. simpl in Hw.
  simpl. rewrite Hw.
  pose proof (InfoCache_getAttachInfo_frame (client c)
                {| req_System := sys; AllRanks := true |} w) as Hf.
  simpl in Hf. destruct Hf as (Hic & Hit & _ & _ & _ & Hlog).
  assert (Hinst : fetch_installed InfoCache_getAttachInfo_fn w) by (simpl; eauto).
  rewrite (Hlog Hinst). repeat split; auto.
  rewrite drop_app_length. by constructor.
Qed.





(** *** Facts about slices *)

Lemma elems_length {A : Type} (m : gmap loc (list A)) (s : option slice) :
  wf_slice m s -> length (elems m s) = slice_len s.
Proof.
  destruct s as [h|]; simpl; [|done].
  intros (arr & -> & ? & ?). simpl. rewrite length_take. lia.
Qed.

Lemma elems_weaken {A : Type} (m m' : gmap loc (list A)) (s : option slice) :
  wf_slice m s -> m ⊆ m' -> elems m' s = elems m s /\ wf_slice m' s.
Proof.
  destruct s as [h|]; simpl; [|done].
  intros (arr & Harr & ? & ?) Hsub.
  pose proof (lookup_weaken _ _ _ _ Harr Hsub) as Harr'.
  rewrite Harr, Harr'. split; [done|]. eauto.
Qed.

Lemma append_spec {A : Type} (s : option slice) (x : A) (m : gmap loc (list A)) :
  wf_slice m s ->
  elems (snd (append s x m)) (fst (append s x m)) = elems m s ++ [x] /\
  wf_slice (snd (append s x m)) (fst (append s x m)).
Proof.
  intros Hwf.
  assert (Hgrow : forall xs : list A,
             let l := fresh (dom m) in
             elems (<[l := xs]> m) (Some (Slice l (length xs) (length xs))) = xs /\
             wf_slice (<[l := xs]> m) (Some (Slice l (length xs) (length xs)))).
  { intros xs l. unfold elems, wf_slice. cbn [base len cap].
    rewrite lookup_insert_eq. split.
    - simpl. by rewrite take_ge.
    - by exists xs. }
  unfold append, alloc_cell.
  destruct s as [h|]; [|apply Hgrow].
  destruct (decide (len h < cap h)) as [Hlt|_]; [|apply Hgrow].
  destruct Hwf as (arr & Harr & Hle & Hcap).
  unfold elems, wf_slice. cbn [fst snd base len cap].
  rewrite lookup_alter_eq, Harr. cbn [fmap option_fmap option_map default from_option].
  unfold id. split.
  - rewrite (take_S_r _ _ x) by (apply list_lookup_insert_eq; lia).
    by rewrite take_insert_ge.
  - exists (<[len h := x]> arr). rewrite length_insert. split; [done|]. lia.
Qed.

Lemma make_copy_spec {A : Type} (zero : A) (src : option slice) (m : gmap loc (list A)) :
  wf_slice m src ->
  let l := fresh (dom m) in
  let d := Some (Slice l (slice_len src) (slice_len src)) in
  make zero (slice_len src) m = (d, <[l := replicate (slice_len src) zero]> m) /\
  snd (copy d src (<[l := replicate (slice_len src) zero]> m)) = <[l := elems m src]> m /\
  elems (<[l := elems m src]> m) d = elems m src /\
  wf_slice (<[l := elems m src]> m) d.
Proof.
  intros Hwf l d. split; [done|].
  assert (Hfresh : m !! l = None) by apply not_elem_of_dom, is_fresh.
  assert (Hsub : m ⊆ <[l := replicate (slice_len src) zero]> m) by by apply insert_subseteq.
  destruct (elems_weaken _ _ _ Hwf Hsub) as [Hel _].
  pose proof (elems_length _ _ Hwf) as Hlen.
  split; [|split].
  - unfold copy. subst d. cbn [snd base len]. rewrite Hel, Hlen, Nat.min_id.
    rewrite alter_insert_eq. f_equal.
    rewrite take_ge by lia.
    rewrite drop_replicate, Nat.sub_diag. simpl. by rewrite app_nil_r.
  - subst d. unfold elems at 1. cbn [base len]. rewrite lookup_insert_eq.
    cbn [default from_option]. unfold id. apply take_ge. lia.
  - subst d. unfold wf_slice. cbn [base len cap]. exists (elems m src).
    rewrite lookup_insert_eq. split; [done|]. lia.
Qed.

(** *** Facts about the fetch wrapper and telemetry *)

Lemma alloc_slice_spec {B : Type} (xs : option (list B)) (m : gmap loc (list B)) :
  elems (snd (alloc_slice xs m)) (fst (alloc_slice xs m)) = default [] xs /\
  wf_slice (snd (alloc_slice xs m)) (fst (alloc_slice xs m)).
Proof.
  destruct xs as [l|]; [|done].
  unfold alloc_slice, alloc_cell, elems, wf_slice. cbn [fst snd base len cap].
  rewrite lookup_insert_eq. split.
  - simpl. by rewrite take_ge.
  - by exists l.
Qed.

Lemma alloc_resp_spec (v : AttachInfoRecord) (h : Heap) :
  exists r,
    resps (snd (alloc_resp v h)) !! fst (alloc_resp v h) = Some r /\
    Provider (ClientNetHint r) = rec_Provider v /\
    elems (strs (snd (alloc_resp v h))) (EnvVars (ClientNetHint r)) = default [] (rec_EnvVars v) /\
    wf_slice (strs (snd (alloc_resp v h))) (EnvVars (ClientNetHint r)).
Proof.
  unfold alloc_resp.
  destruct (match rec_ServiceRanks v with
            | Some prs => _
            | None => (None, h)
            end) as [sr h1] eqn:Hsr.
  assert (Hstrs : strs h1 = strs h).
  { destruct (rec_ServiceRanks v) as [prs|].
    - destruct (alloc_cells prs (psrs h)) as [ls ps].
      destruct (alloc_slice (Some (map Some ls)) (ptrs h)) as [s pa].
      by injection Hsr as <- <-.
    - by injection Hsr as <- <-. }
  destruct (alloc_slice (rec_MSRanks v) (u32s h1)) as [ms u].
  pose proof (alloc_slice_spec (rec_EnvVars v) (strs h1)) as Hev.
  destruct (alloc_slice (rec_EnvVars v) (strs h1)) as [ev st].
  unfold alloc_cell. cbn [fst snd] in *.
  eexists. split; [apply lookup_insert_eq|]. simpl. by destruct Hev.
Qed.

Lemma append_EnvVars_spec (l : loc) (s : string) (h : Heap) (r : GetAttachInfoResp) :
  resps h !! l = Some r ->
  wf_slice (strs h) (EnvVars (ClientNetHint r)) ->
  exists r',
    resps (append_EnvVars l s h) !! l = Some r' /\
    Provider (ClientNetHint r') = Provider (ClientNetHint r) /\
    elems (strs (append_EnvVars l s h)) (EnvVars (ClientNetHint r')) =
      elems (strs h) (EnvVars (ClientNetHint r)) ++ [s] /\
    wf_slice (strs (append_EnvVars l s h)) (EnvVars (ClientNetHint r')).
Proof.
  intros Hr Hwf. unfold append_EnvVars. rewrite Hr.
  pose proof (append_spec (EnvVars (ClientNetHint r)) s (strs h) Hwf) as Happ.
  destruct (append (EnvVars (ClientNetHint r)) s (strs h)) as [ev st].
  cbn [fst snd] in Happ. eexists. split; [apply lookup_insert_eq|]. simpl.
  by destruct Happ.
Qed.

Lemma addTelemetrySettings_spec (c : InfoCache) (l : loc) (w : World)
    (r : GetAttachInfoResp) :
  ic w = Some c ->
  resps (heap w) !! l = Some r ->
  wf_slice (strs (heap w)) (EnvVars (ClientNetHint r)) ->
  exists r',
    resps (heap (snd (addTelemetrySettings (Some l) w))) !! l = Some r' /\
    Provider (ClientNetHint r') = Provider (ClientNetHint r) /\
    elems (strs (heap (snd (addTelemetrySettings (Some l) w)))) (EnvVars (ClientNetHint r')) =
      elems (strs (heap w)) (EnvVars (ClientNetHint r)) ++ telemetry_vars c.
Proof.
  intros Hc Hr Hwf. unfold addTelemetrySettings, telemetry_vars. rewrite Hc.
  destruct (clientTelemetryEnabled c).
  2:{ exists r. simpl. by rewrite app_nil_r. }
  destruct (append_EnvVars_spec l (ClientMetricsEnabledEnv +:+ "=1") (heap w) r Hr Hwf)
    as (r1 & Hr1 & Hp1 & He1 & Hwf1).
  destruct (clientTelemetryRetain c).
  - destruct (append_EnvVars_spec l (ClientMetricsRetainEnv +:+ "=1") _ r1 Hr1 Hwf1)
      as (r2 & Hr2 & Hp2 & He2 & _).
    exists r2. simpl. split; [done|]. split; [congruence|].
    rewrite He2, He1. by rewrite <- app_assoc.
  - exists r1. simpl. split; [done|]. split; [done|]. exact He1.
Qed.

Lemma getAttachInfo_ok (c : InfoCache) (cb : AttachInfoCollab) cl req
    (v : AttachInfoRecord) (w : World) :
  ic w = Some c -> getAttachInfoCb c = Some cb ->
  cb cl req (length (rpcLog w)) = inl v ->
  exists l r w',
    InfoCache_getAttachInfo cl req w = ((Some l, None), w') /\
    resps (heap w') !! l = Some r /\
    Provider (ClientNetHint r) = rec_Provider v /\
    elems (strs (heap w')) (EnvVars (ClientNetHint r)) =
      default [] (rec_EnvVars v) ++ telemetry_vars c.
Proof.
  intros Hc Hcb Hv. unfold InfoCache_getAttachInfo. rewrite Hc, Hcb.
  unfold bind, call_AttachInfoCollab. rewrite Hv.
  destruct (alloc_resp_spec v (heap w)) as (r & Hr & Hp & He & Hwf).
  destruct (alloc_resp v (heap w)) as [l h1]. cbn [fst snd] in *.
  set (w1 := set_heap h1 (set_rpcLog (rpcLog w ++ [(cl, req)]) w)).
  destruct (addTelemetrySettings_spec c l w1 r Hc Hr Hwf) as (r' & Hr' & Hp' & He').
  destruct (addTelemetrySettings (Some l) w1) as [[] w2]. cbn [snd] in *.
  exists l, r', w2. split; [done|]. split; [done|]. split; [congruence|].
  rewrite He'. f_equal. exact He.
Qed.

(** *** Facts about the copy-out path *)

Lemma heap_le_refl (h : Heap) : heap_le h h.
Proof. by repeat split. Qed.

Lemma heap_le_trans (h1 h2 h3 : Heap) : heap_le h1 h2 -> heap_le h2 h3 -> heap_le h1 h3.
Proof.
  intros (? & ? & ? & ? & ? & ?) (? & ? & ? & ? & ? & ?).
  repeat split; by etrans.
Qed.

Lemma wf_resp_weaken (h h' : Heap) (r : GetAttachInfoResp) :
  wf_resp h r -> heap_le h h' -> wf_resp h' r.
Proof.
  intros (H1 & H2 & H3) (L1 & L2 & L3 & _).
  repeat split.
  - by apply (elems_weaken _ _ _ H1 L1).
  - by apply (elems_weaken _ _ _ H2 L2).
  - by apply (elems_weaken _ _ _ H3 L3).
Qed.

Lemma copyGetAttachInfoResp_spec (o : loc) (r : GetAttachInfoResp) (h : Heap) :
  resps h !! o = Some r -> wf_resp h r ->
  exists cp ms sr ev h',
    copyGetAttachInfoResp (Some o) h = (Some cp, h') /\
    (cp ∉ dom (resps h)) /\
    resps h' !! cp =
      Some (set_ClientNetHint (set_EnvVars ev (ClientNetHint r))
              (set_ServiceRanks (Some sr) (set_MSRanks (Some ms) r))) /\
    heap_le h h' /\ psrs h' = psrs h /\
    (base ms ∉ dom (u32s h)) /\
    elems (u32s h') (Some ms) = elems (u32s h) (MSRanks r) /\
    (base sr ∉ dom (ptrs h)) /\
    elems (ptrs h') (Some sr) = elems (ptrs h) (ServiceRanks r) /\
    (forall s, ev = Some s -> base s ∉ dom (strs h)) /\
    (ev = None <-> EnvVars (ClientNetHint r) = None) /\
    elems (strs h') ev = elems (strs h) (EnvVars (ClientNetHint r)) /\
    wf_resp h' (set_ClientNetHint (set_EnvVars ev (ClientNetHint r))
                  (set_ServiceRanks (Some sr) (set_MSRanks (Some ms) r))).
Proof.
  intros Hr (Hw1 & Hw2 & Hw3). unfold copyGetAttachInfoResp. rewrite Hr.
  unfold alloc_cell at 1.
  destruct (make_copy_spec 0%Z (MSRanks r) (u32s h) Hw1) as (Hmk1 & Hcp1 & Hel1 & Hwf1).
  rewrite Hmk1.
  destruct (copy _ (MSRanks r) _) as [n1 u2]. cbn [snd] in Hcp1. subst u2.
  destruct (make_copy_spec None (ServiceRanks r) (ptrs h) Hw2) as (Hmk2 & Hcp2 & Hel2 & Hwf2).
  rewrite Hmk2.
  destruct (copy _ (ServiceRanks r) _) as [n2 p2]. cbn [snd] in Hcp2. subst p2.
  assert (Hu : u32s h ⊆ <[fresh (dom (u32s h)) := elems (u32s h) (MSRanks r)]> (u32s h))
    by apply insert_subseteq, not_elem_of_dom, is_fresh.
  assert (Hp : ptrs h ⊆ <[fresh (dom (ptrs h)) := elems (ptrs h) (ServiceRanks r)]> (ptrs h))
    by apply insert_subseteq, not_elem_of_dom, is_fresh.
  assert (Hrs : resps h ⊆ <[fresh (dom (resps h)) :=
                   set_ClientNetHint (set_EnvVars (EnvVars (ClientNetHint r)) (ClientNetHint r))
                     (set_ServiceRanks (ServiceRanks r) (set_MSRanks (MSRanks r) r))]> (resps h))
    by apply insert_subseteq, not_elem_of_dom, is_fresh.
  destruct (EnvVars (ClientNetHint r)) as [e|] eqn:Hev.
  - destruct (make_copy_spec "" (Some e) (strs h) Hw3) as (Hmk3 & Hcp3 & Hel3 & Hwf3).
    rewrite Hmk3.
    destruct (copy _ (Some e) _) as [n3 s2]. cbn [snd] in Hcp3. subst s2.
    eexists _, _, _, _, _. split; [reflexivity|].
    split; [apply is_fresh|]. cbn [resps u32s ptrs strs psrs set_resps set_strs set_ptrs set_u32s].
    split; [by rewrite insert_insert_eq, lookup_insert_eq|].
    split.
    { repeat split; cbn; try done.
      - apply insert_subseteq, not_elem_of_dom, is_fresh.
      - rewrite insert_insert_eq. apply insert_subseteq, not_elem_of_dom, is_fresh. }
    split; [done|]. split; [apply is_fresh|]. split; [exact Hel1|].
    split; [apply is_fresh|]. split; [exact Hel2|].
    split; [intros s [= <-]; apply is_fresh|].
    split; [split; intros [=]|]. split; [exact Hel3|].
    repeat split; assumption.
  - eexists _, _, _, _, _. split; [reflexivity|].
    split; [apply is_fresh|]. cbn [resps u32s ptrs strs psrs set_resps set_strs set_ptrs set_u32s].
    split; [by rewrite insert_insert_eq, lookup_insert_eq|].
    split.
    { repeat split; cbn; try done.
      rewrite insert_insert_eq. apply insert_subseteq, not_elem_of_dom, is_fresh. }
    split; [done|]. split; [apply is_fresh|]. split; [exact Hel1|].
    split; [apply is_fresh|]. split; [exact Hel2|].
    split; [intros s [=]|].
    split; [done|]. split; [done|].
    repeat split; assumption.
Qed.

Lemma make_copy_subseteq {A : Type} (zero : A) (n : nat) (src : option slice)
    (m : gmap loc (list A)) :
  m ⊆ snd (copy (fst (make zero n m)) src (snd (make zero n m))).
Proof.
  unfold make, alloc_cell, copy. cbn [fst snd base len].
  rewrite alter_insert_eq. apply insert_subseteq, not_elem_of_dom, is_fresh.
Qed.

Lemma copyGetAttachInfoResp_heap_le (orig : option loc) (h : Heap) :
  heap_le h (snd (copyGetAttachInfoResp orig h)).
Proof.
  unfold copyGetAttachInfoResp.
  destruct orig as [o|]; [|apply heap_le_refl].
  destruct (resps h !! o) as [r|]; [|apply heap_le_refl].
  unfold alloc_cell at 1.
  pose proof (make_copy_subseteq 0%Z (slice_len (MSRanks r)) (MSRanks r) (u32s h)) as H1.
  destruct (make 0%Z (slice_len (MSRanks r)) (u32s h)) as [ms u1].
  cbn [fst snd] in H1. destruct (copy ms (MSRanks r) u1) as [n1 u2]. cbn [snd] in H1.
  pose proof (make_copy_subseteq None (slice_len (ServiceRanks r)) (ServiceRanks r) (ptrs h)) as H2.
  destruct (make None (slice_len (ServiceRanks r)) (ptrs h)) as [sr p1].
  cbn [fst snd] in H2. destruct (copy sr (ServiceRanks r) p1) as [n2 p2]. cbn [snd] in H2.
  assert (H3 : strs h ⊆
               snd (match EnvVars (ClientNetHint r) with
                    | Some _ =>
                        let '(ev, s1) := make "" (slice_len (EnvVars (ClientNetHint r))) (strs h) in
                        let '(_, s2) := copy ev (EnvVars (ClientNetHint r)) s1 in (ev, s2)
                    | None => (EnvVars (ClientNetHint r), strs h)
                    end)).
  { destruct (EnvVars (ClientNetHint r)) as [e|]; [|done].
    pose proof (make_copy_subseteq "" (slice_len (Some e)) (Some e) (strs h)) as H3.
    destruct (make "" (slice_len (Some e)) (strs h)) as [ev s1].
    cbn [fst snd] in H3. by destruct (copy ev (Some e) s1) as [n3 s2]. }
  destruct (match EnvVars (ClientNetHint r) with
            | Some _ => _
            | None => _
            end) as [ev s2].
  cbn [snd] in *. repeat split; cbn; try done.
  rewrite insert_insert_eq. apply insert_subseteq, not_elem_of_dom, is_fresh.
Qed.

Lemma GetAttachInfo_hit (sys : string) (w : World) (c : InfoCache)
    (cai : cachedAttachInfo) :
  ic w = Some c -> attachInfoCacheDisabled c = false ->
  items w !! sysAttachInfoKey (if String.eqb sys "" then DefaultSystemName else sys)
    = Some (AttachItem cai) ->
  isCached (ai_cacheItem cai) = true -> isStale (clock w) (ai_cacheItem cai) = false ->
  InfoCache_GetAttachInfo sys w =
    ((fst (copyGetAttachInfoResp (lastResponse cai) (heap w)), None),
     set_heap (snd (copyGetAttachInfoResp (lastResponse cai) (heap w))) w).
Proof.
  intros Hc Hen Hit Hcached Hfresh.
  unfold InfoCache_GetAttachInfo. rewrite Hc.
  unfold bind, IsAttachInfoCacheEnabled. rewrite Hc, Hen. cbn [negb].
  rewrite (GetOrCreate_hit _ _ (AttachItem cai)); [|done|].
  - unfold on_heap, ret.
    by destruct (copyGetAttachInfoResp (lastResponse cai) (heap w)) as [cp h'].
  - unfold Item_RefreshIfNeeded, bind. by rewrite attach_RefreshIfNeeded_fresh.
Qed.

Lemma alter_fresh_subseteq {A : Type} (f : A -> A) (b : loc) (m m' : gmap loc A) :
  m ⊆ m' -> (b ∉ dom m) -> m ⊆ alter f b m'.
Proof.
  intros Hsub Hb. apply map_subseteq_spec. intros k x Hk.
  assert (b <> k) by (intros ->; apply Hb, elem_of_dom; eauto).
  rewrite lookup_alter_ne by done. by eapply lookup_weaken.
Qed.

Lemma store_fresh_subseteq {A : Type} (s : option slice) (i : nat) (x : A)
    (m m' m2 : gmap loc (list A)) :
  m ⊆ m' -> (forall h, s = Some h -> base h ∉ dom m) ->
  store s i x m' = Some m2 -> m ⊆ m2.
Proof.
  intros Hsub Hb. unfold store.
  destruct (decide (i < slice_len s)); [|intros [=]].
  destruct s as [h|]; intros [= <-]. apply alter_fresh_subseteq; auto.
Qed.

(** C2 (amended): a cache hit of [GetAttachInfo] returns a new record
    with the content of the cached master, whose management-service rank
    list, service-rank list and environment-variable list are copied
    element by element into arrays of their own; nothing that was in the
    heap is changed by the call, and writing an element of one of the
    three returned lists changes neither the master nor any record
    returned earlier.  The elements of the service-rank list are
    pointers, and they are copied as pointers: the rank records they
    point to are not copied. *)
Theorem GetAttachInfo_copy (sys : string) (w : World) (c : InfoCache)
    (cai : cachedAttachInfo) (o : loc) (r : GetAttachInfoResp) :
  ic w = Some c -> attachInfoCacheDisabled c = false ->
  items w !! sysAttachInfoKey (if String.eqb sys "" then DefaultSystemName else sys)
    = Some (AttachItem cai) ->
  isCached (ai_cacheItem cai) = true -> isStale (clock w) (ai_cacheItem cai) = false ->
  lastResponse cai = Some o -> resps (heap w) !! o = Some r -> wf_resp (heap w) r ->
  exists cp r' w',
    InfoCache_GetAttachInfo sys w = ((Some cp, None), w') /\
    cp <> o /\ resps (heap w') !! cp = Some r' /\
    ic w' = ic w /\ items w' = items w /\ heap_le (heap w) (heap w') /\
    Status r' = Status r /\ DataVersion r' = DataVersion r /\ System r' = System r /\
    set_EnvVars None (ClientNetHint r') = set_EnvVars None (ClientNetHint r) /\
    elems (u32s (heap w')) (MSRanks r') = elems (u32s (heap w)) (MSRanks r) /\
    elems (ptrs (heap w')) (ServiceRanks r') = elems (ptrs (heap w)) (ServiceRanks r) /\
    elems (strs (heap w')) (EnvVars (ClientNetHint r')) =
      elems (strs (heap w)) (EnvVars (ClientNetHint r)) /\
    (forall s, MSRanks r' = Some s -> base s ∉ dom (u32s (heap w))) /\
    (forall s, ServiceRanks r' = Some s -> base s ∉ dom (ptrs (heap w))) /\
    (forall s, EnvVars (ClientNetHint r') = Some s -> base s ∉ dom (strs (heap w))) /\
    (forall i x m, store (MSRanks r') i x (u32s (heap w')) = Some m -> u32s (heap w) ⊆ m) /\
    (forall i x m, store (ServiceRanks r') i x (ptrs (heap w')) = Some m -> ptrs (heap w) ⊆ m) /\
    (forall i x m, store (EnvVars (ClientNetHint r')) i x (strs (heap w')) = Some m ->
                   strs (heap w) ⊆ m) /\
    psrs (heap w') = psrs (heap w).
Proof.
  intros Hc Hen Hit Hcached Hfresh Hlast Hr Hwf.
  rewrite (GetAttachInfo_hit sys w c cai Hc Hen Hit Hcached Hfresh), Hlast.
  destruct (copyGetAttachInfoResp_spec o r (heap w) Hr Hwf)
    as (cp & ms & sr & ev & h' & Hcopy & Hcp & Hr' & Hle & Hpsr & Hms & Helms & Hsr & Helsr
        & Hev & Hnil & Helev & Hwf').
  rewrite Hcopy. cbn [fst snd].
  eexists cp, _, _. split; [reflexivity|]. cbn [heap set_heap ic items].
  split. { intros ->. apply Hcp, elem_of_dom. eauto. }
  split; [exact Hr'|]. split; [done|]. split; [done|]. split; [exact Hle|].
  cbn [Status DataVersion System ClientNetHint MSRanks ServiceRanks EnvVars
       set_ClientNetHint set_EnvVars set_ServiceRanks set_MSRanks].
  do 4 (split; [reflexivity|]).
  split; [exact Helms|]. split; [exact Helsr|]. split; [exact Helev|].
  split; [by intros s [= <-]|]. split; [by intros s [= <-]|]. split; [exact Hev|].
  destruct Hle as (L1 & L2 & L3 & _).
  split; [intros i x m; apply store_fresh_subseteq; [done | by intros s [= <-]]|].
  split; [intros i x m; apply store_fresh_subseteq; [done | by intros s [= <-]]|].
  split; [intros i x m; apply store_fresh_subseteq; [done | exact Hev]|].
  exact Hpsr.
Qed.

Lemma GetAttachInfo_hits (sys : string) (c : InfoCache) (cai : cachedAttachInfo)
    (o : loc) (r : GetAttachInfoResp) (times : list Time) :
  attachInfoCacheDisabled c = false ->
  isCached (ai_cacheItem cai) = true ->
  Forall (fun t => isStale t (ai_cacheItem cai) = false) times ->
  lastResponse cai = Some o ->
  forall w : World,
    ic w = Some c ->
    items w !! sysAttachInfoKey (if String.eqb sys "" then DefaultSystemName else sys)
      = Some (AttachItem cai) ->
    resps (heap w) !! o = Some r -> wf_resp (heap w) r ->
    let results := fst (GetAttachInfo_at sys times w) in
    let w' := snd (GetAttachInfo_at sys times w) in
    ic w' = ic w /\ rpcLog w' = rpcLog w /\ items w' = items w /\
    heap_le (heap w) (heap w') /\
    length results = length times /\
    Forall (fun res =>
              exists cp r',
                res = (Some cp, None) /\ resps (heap w') !! cp = Some r' /\
                wf_resp (heap w') r' /\
                elems (strs (heap w')) (EnvVars (ClientNetHint r')) =
                  elems (strs (heap w)) (EnvVars (ClientNetHint r))) results.
Proof.
  intros Hen Hcached Htimes Hlast.
  induction Htimes as [|t times Ht Htimes IH]; intros w Hc Hit Hr Hwf.
  - simpl. repeat split; auto using heap_le_refl.
  - cbn [GetAttachInfo_at]. unfold bind, modify.
    rewrite (GetAttachInfo_hit sys (set_clock t w) c cai Hc Hen Hit Hcached Ht), Hlast.
    cbn [heap set_clock].
    destruct (copyGetAttachInfoResp_spec o r (heap w) Hr Hwf)
      as (cp & ms & sr & ev & h' & Hcopy & _ & Hr' & Hle1 & _ & _ & _ & _ & _ & _ & _
          & Hel1 & Hwf1).
    rewrite Hcopy. cbn [fst snd].
    set (w1 := set_heap h' (set_clock t w)).
    assert (Hr1 : resps (heap w1) !! o = Some r).
    { destruct Hle1 as (_ & _ & _ & _ & L & _). by eapply lookup_weaken. }
    pose proof (wf_resp_weaken _ _ _ Hwf Hle1) as Hwfm.
    specialize (IH w1 Hc Hit Hr1 Hwfm).
    destruct (GetAttachInfo_at sys times w1) as [rs w2]. unfold ret.
    cbn [fst snd] in IH |- *.
    destruct IH as (Hic2 & Hlog2 & Hit2 & Hle2 & Hlen & Hres).
    assert (Hmaster : elems (strs (heap w1)) (EnvVars (ClientNetHint r)) =
                      elems (strs (heap w)) (EnvVars (ClientNetHint r))).
    { destruct Hwf as (_ & _ & W), Hle1 as (_ & _ & L & _).
      by apply (elems_weaken _ _ _ W L). }
    split; [exact Hic2|]. split; [exact Hlog2|]. split; [exact Hit2|].
    split; [by eapply heap_le_trans|]. split; [simpl; congruence|].
    constructor.
    + eexists cp, _. split; [done|].
      split. { destruct Hle2 as (_ & _ & _ & _ & L & _). eapply lookup_weaken; [exact Hr'|exact L]. }
      split; [by eapply wf_resp_weaken|].
      destruct Hwf1 as (_ & _ & W), Hle2 as (_ & _ & L & _).
      destruct (elems_weaken _ _ _ W L) as [He _].
      cbn [ClientNetHint set_ClientNetHint EnvVars set_EnvVars] in He |- *.
      rewrite He. exact Hel1.
    + eapply Forall_impl; [exact Hres|]. cbv beta.
      intros res (cp2 & r2 & -> & ? & ? & He). exists cp2, r2.
      split; [done|]. split; [done|]. split; [done|]. by rewrite He.
Qed.

(** C9: telemetry augmentation happens on the fetch path and only there.
    A successful refresh of an entry through the facade's fetch wrapper
    leaves as master the fetched record with the telemetry variables
    appended once to its environment variables; cache hits of
    [GetAttachInfo], however many, call no fetcher and change no object
    of the heap, so the environment variables of the master stay as the
    fetch left them, and every hit returns a record with those same
    variables. *)
Theorem telemetry_once (w : World) (c : InfoCache) :
  ic w = Some c ->
  (forall cb ci v,
      getAttachInfoCb c = Some cb -> ai_fetch ci = InfoCache_getAttachInfo_fn ->
      cb (rpcClient ci) {| req_System := system ci; AllRanks := true |}
         (length (rpcLog w)) = inl v ->
      exists l r w',
        cachedAttachInfo_refresh (Some ci) w =
          ((Some (attach_cached (Some l) (clock w) ci), None), w') /\
        resps (heap w') !! l = Some r /\
        elems (strs (heap w')) (EnvVars (ClientNetHint r)) =
          default [] (rec_EnvVars v) ++ telemetry_vars c)
  /\ (forall sys cai o r times,
        attachInfoCacheDisabled c = false ->
        items w !! sysAttachInfoKey (if String.eqb sys "" then DefaultSystemName else sys)
          = Some (AttachItem cai) ->
        isCached (ai_cacheItem cai) = true ->
        Forall (fun t => isStale t (ai_cacheItem cai) = false) times ->
        lastResponse cai = Some o -> resps (heap w) !! o = Some r ->
        wf_resp (heap w) r ->
        let results := fst (GetAttachInfo_at sys times w) in
        let w' := snd (GetAttachInfo_at sys times w) in
        rpcLog w' = rpcLog w /\ items w' = items w /\
        heap_le (heap w) (heap w') /\
        resps (heap w') !! o = Some r /\
        elems (strs (heap w')) (EnvVars (ClientNetHint r)) =
          elems (strs (heap w)) (EnvVars (ClientNetHint r)) /\
        length results = length times /\
        Forall (fun res =>
                  exists cp r',
                    res = (Some cp, None) /\ resps (heap w') !! cp = Some r' /\
                    elems (strs (heap w')) (EnvVars (ClientNetHint r')) =
                      elems (strs (heap w)) (EnvVars (ClientNetHint r))) results).
Proof.
  intros Hc. split.
  - intros cb ci v Hcb Hfetch Hv.
    destruct (getAttachInfo_ok c cb _ _ v w Hc Hcb Hv) as (l & r & w' & Hcall & Hr & _ & He).
    exists l, r, w'. split; [|by split].
    unfold cachedAttachInfo_refresh, bind. rewrite Hfetch. cbn [call_getAttachInfoFn].
    rewrite Hcall. unfold time_Now, ret. do 3 f_equal.
    pose proof (InfoCache_getAttachInfo_frame (rpcClient ci)
                  {| req_System := system ci; AllRanks := true |} w) as Hf.
    rewrite Hcall in Hf. cbn [snd] in Hf. by destruct Hf as (_ & _ & -> & _).
  - intros sys cai o r times Hen Hit Hcached Htimes Hlast Hr Hwf.
    pose proof (GetAttachInfo_hits sys c cai o r times Hen Hcached Htimes Hlast w
                  Hc Hit Hr Hwf) as H.
    cbn zeta in H |- *. destruct H as (_ & Hlog & Hitems & Hle & Hlen & Hres).
    split; [done|]. split; [done|]. split; [done|].
    split. { destruct Hle as (_ & _ & _ & _ & L & _). by eapply lookup_weaken. }
    split. { destruct Hwf as (_ & _ & W), Hle as (_ & _ & L & _).
             by apply (elems_weaken _ _ _ W L). }
    split; [done|].
    eapply Forall_impl; [exact Hres|]. simpl.
    intros res (cp & r' & -> & ? & _ & ?). eauto.
Qed.

(** *** The provider check *)

(** The bypass path rejects a response without a provider. *)
Lemma bypass_rejects_empty_provider (sys : string) (w : World) (c : InfoCache)
    (cb : AttachInfoCollab) (v : AttachInfoRecord) :
  ic w = Some c -> attachInfoCacheDisabled c = true -> getAttachInfoCb c = Some cb ->
  cb (client c) {| req_System := sys; AllRanks := true |} (length (rpcLog w)) = inl v ->
  rec_Provider v = "" ->
  exists w',
    InfoCache_GetAttachInfo sys w =
      ((None, Some (errors_New "GetAttachInfo response contained no provider")), w') /\
    items w' = items w.
Proof.
  intros Hc Hd Hcb Hv Hp.
  rewrite (GetAttachInfo_disabled sys w c Hc Hd).
  unfold InfoCache_getAttachInfoRemote, bind.
  destruct (getAttachInfo_ok c cb _ _ v w Hc Hcb Hv) as (l & r & w' & Hcall & Hr & Hprov & _).
  pose proof (InfoCache_getAttachInfo_frame (client c)
                {| req_System := sys; AllRanks := true |} w) as Hf.
  rewrite Hcall in Hf |- *. cbn [snd] in Hf. destruct Hf as (_ & Hit & _).
  unfold get_world, resp_Provider. rewrite Hr, Hprov, Hp. simpl. eauto.
Qed.

(** The refresh of a cached entry does not look at the provider. *)
Lemma cached_refresh_ignores_provider (ci : cachedAttachInfo) (w : World)
    (c : InfoCache) (cb : AttachInfoCollab) (v : AttachInfoRecord) :
  ic w = Some c -> getAttachInfoCb c = Some cb ->
  ai_fetch ci = InfoCache_getAttachInfo_fn ->
  cb (rpcClient ci) {| req_System := system ci; AllRanks := true |}
     (length (rpcLog w)) = inl v ->
  exists l w',
    cachedAttachInfo_refresh (Some ci) w =
      ((Some (attach_cached (Some l) (clock w) ci), None), w') /\
    resp_Provider (heap w') (Some l) = rec_Provider v.
Proof.
  intros Hc Hcb Hfetch Hv.
  destruct (getAttachInfo_ok c cb _ _ v w Hc Hcb Hv) as (l & r & w' & Hcall & Hr & Hprov & _).
  exists l, w'. split.
  - unfold cachedAttachInfo_refresh, bind. rewrite Hfetch. cbn [call_getAttachInfoFn].
    rewrite Hcall. unfold time_Now, ret. do 3 f_equal.
    pose proof (InfoCache_getAttachInfo_frame (rpcClient ci)
                  {| req_System := system ci; AllRanks := true |} w) as Hf.
    rewrite Hcall in Hf. cbn [snd] in Hf. by destruct Hf as (_ & _ & -> & _).
  - unfold resp_Provider. by rewrite Hr.
Qed.

(** *** Further properties of the code *)

(** X1: the keys of the attach-info entries.  Distinct systems have distinct
    keys; the key of every attach-info entry starts with the attach-info
    prefix, by which [Refresh] finds it, and is never the fabric key; the
    entry made for a system with a name lists itself under the key by
    which [GetAttachInfo] looks it up, and an entry for the empty name does
    not. *)
Theorem attach_info_keys :
  (forall s1 s2 : string, sysAttachInfoKey s1 = sysAttachInfoKey s2 -> s1 = s2)
  /\ (forall ci : cachedAttachInfo,
        String.prefix attachInfoKey (cachedAttachInfo_Key (Some ci)) = true /\
        cachedAttachInfo_Key (Some ci) <> fabricKey)
  /\ (forall (interval : Duration) (sys : string) (cl : UnaryInvoker) (f : getAttachInfoFn),
        sys <> "" ->
        cachedAttachInfo_Key (Some (newCachedAttachInfo interval sys cl f)) =
          sysAttachInfoKey sys)
  /\ (forall (interval : Duration) (cl : UnaryInvoker) (f : getAttachInfoFn),
        cachedAttachInfo_Key (Some (newCachedAttachInfo interval "" cl f)) <>
          sysAttachInfoKey "").
Proof.
  split; [|split; [|split]].
  - intros s1 s2. unfold sysAttachInfoKey, attachInfoKey. cbn. by intros [=].
  - intros ci. unfold cachedAttachInfo_Key, sysAttachInfoKey, attachInfoKey, fabricKey.
    destruct (String.eqb (system ci) ""); cbn; by split.
  - intros interval sys cl f Hne. unfold cachedAttachInfo_Key. cbn [system newCachedAttachInfo].
    apply String.eqb_neq in Hne. by rewrite Hne.
  - intros interval cl f. by cbn.
Qed.

Lemma filter_all (dc : NetDevClass) (fis : list FabricInterface) :
  Forall (fun fi => fi_NetDevClass fi = dc) fis ->
  filter (fun fi => fi_NetDevClass fi = dc) fis = fis.
Proof.
  induction 1 as [|fi fis Hfi _ IH]; [done|].
  rewrite filter_cons_True by done. by rewrite IH.
Qed.

Lemma filtered_bucket_idem (dc : NetDevClass) (fis kept : list FabricInterface) :
  filtered_bucket dc fis = Some kept -> filtered_bucket dc kept = Some kept.
Proof.
  intros H. apply filtered_bucket_Some in H as [-> Hne].
  apply filtered_bucket_Some. split; [|done].
  symmetry. apply filter_all, Forall_forall.
  intros fi Hin. by apply list_elem_of_filter in Hin as [? _].
Qed.

Lemma filter_range_idem (dc : NetDevClass) (m : gmap Z (list FabricInterface)) :
  let m' := map_fold (filterBucket dc) m m in
  map_fold (filterBucket dc) m' m' = m'.
Proof.
  intros m'. apply map_eq. intros k. rewrite filter_range_lookup.
  destruct (m' !! k) as [kept|] eqn:Hk; [|done]. simpl.
  subst m'. rewrite filter_range_lookup in Hk.
  destruct (m !! k) as [fis|]; [|done]. simpl in Hk.
  by apply filtered_bucket_idem in Hk.
Qed.

(** X2: filtering a fabric on a device class is idempotent, and it edits
    that fabric only.  A second [filterDevClass] with the same class
    succeeds and changes nothing, and no other fabric and no other object
    of the heap is touched by the first. *)
Theorem filterDevClass_idempotent (dc : NetDevClass) (l : loc) (h : Heap)
    (m : gmap Z (list FabricInterface)) :
  fabrics h !! l = Some m ->
  exists h1,
    filterDevClass dc (Some l) h = (None, h1) /\
    filterDevClass dc (Some l) h1 = (None, h1) /\
    (forall l', l' <> l -> fabrics h1 !! l' = fabrics h !! l') /\
    u32s h1 = u32s h /\ ptrs h1 = ptrs h /\ strs h1 = strs h /\
    psrs h1 = psrs h /\ resps h1 = resps h.
Proof.
  intros Hm. rewrite (filterDevClass_ok dc l h m Hm).
  eexists. split; [reflexivity|]. split.
  - erewrite filterDevClass_ok by (cbn; apply lookup_insert_eq).
    rewrite filter_range_idem. unfold set_fabrics. cbn. by rewrite insert_insert_eq.
  - split; [|done]. intros l' Hne. cbn. by rewrite lookup_insert_ne.
Qed.

(** X3: a forced refresh of the entry that [EnableStaticFabricCache]
    installs calls no scanner: its fetch function hands back the seeded
    fabric, which is then filtered in place on the device class of the
    entry.  That class was never set, so it is the zero class: of every
    seeded bucket only the interfaces of class zero remain. *)
Theorem static_entry_forced_refresh (w : World) (c : InfoCache) (l : loc)
    (m : gmap Z (list FabricInterface)) :
  ic w = Some c -> fabrics (heap w) !! l = Some m ->
  let w1 := snd (EnableStaticFabricCache (Some l) w) in
  exists cfi cfi' w2 m',
    items w1 !! fabricKey = Some (FabricItem cfi) /\
    cachedFabricInfo_Refresh (Some cfi) w1 = ((Some cfi', None), w2) /\
    scanLog w2 = scanLog w /\ waitLog w2 = waitLog w /\
    lastResults cfi' = Some l /\ lastCached (fi_cacheItem cfi') = clock w /\
    fabrics (heap w2) !! l = Some m' /\
    (forall numa, m' !! numa = m !! numa ≫= filtered_bucket 0%Z) /\
    (forall numa fis fi, m' !! numa = Some fis -> fi ∈ fis -> fi_NetDevClass fi = 0%Z).
Proof.
  intros Hc Hm w1. subst w1. rewrite (EnableStaticFabricCache_spec c (Some l) w Hc). cbn [snd].
  set (cfi := {| fi_cacheItem := {| lastCached := clock w; refreshInterval := 0%Z |};
                 fetch := static_fn (Some l); providers := []; devClass := 0%Z;
                 lastResults := Some l |}).
  set (w1 := set_ic _ _).
  assert (Href := fabric_refresh_of_fetch cfi w1 w1 l m eq_refl Hm).
  eexists cfi, _, _, _. split; [apply lookup_insert_eq|]. split; [exact Href|].
  split; [done|]. split; [done|]. split; [done|]. split; [done|].
  split; [cbn; apply lookup_insert_eq|]. split.
  - intros numa. apply filter_range_lookup.
  - intros numa fis fi Hfis Hin. rewrite filter_range_lookup in Hfis.
    destruct (m !! numa) as [seeded|]; [|done]. cbn in Hfis.
    apply filtered_bucket_Some in Hfis as [-> _].
    by apply list_elem_of_filter in Hin as [? _].
Qed.

Lemma getNUMAFabric_each_cached (w : World) (c : InfoCache) (cfi : cachedFabricInfo)
    (requests : list (NetDevClass * list string)) :
  ic w = Some c -> fabricCacheDisabled c = false ->
  items w !! fabricKey = Some (FabricItem cfi) ->
  isCached (fi_cacheItem cfi) = true ->
  getNUMAFabric_each c requests w =
    (map (fun _ => (lastResults cfi, None)) requests, w).
Proof.
  intros Hc Hen Hit Hcached.
  induction requests as [|[dc' provs'] rest IH]; [done|].
  cbn [getNUMAFabric_each map]. unfold bind.
  by rewrite (getNUMAFabric_cached c cfi dc' provs' w Hc Hen Hit Hcached), IH.
Qed.

(** X4: once the fabric entry is cached, a request is answered from it
    whatever device class and providers it names: the fabric handed out is
    the cached one, filtered for the class of the request that created the
    entry, and neither the readiness waiter nor the scanner is called. *)
Theorem cached_fabric_ignores_request (w : World) (c : InfoCache)
    (cfi : cachedFabricInfo) (dc : NetDevClass) (provs : list string) :
  ic w = Some c -> fabricCacheDisabled c = false ->
  items w !! fabricKey = Some (FabricItem cfi) ->
  isCached (fi_cacheItem cfi) = true ->
  InfoCache_getNUMAFabric c dc provs w = ((lastResults cfi, None), w) /\
  InfoCache_GetNUMAFabricMap dc provs w =
    (match NUMAFabric_RLockedMap (lastResults cfi) (heap w) with
     | inl lm => (Some lm, None)
     | inr e => (None, Some e)
     end, w) /\
  forall requests,
    getNUMAFabric_each c requests w =
      (map (fun _ => (lastResults cfi, None)) requests, w).
Proof.
  intros Hc Hen Hit Hcached.
  assert (Hone : InfoCache_getNUMAFabric c dc provs w = ((lastResults cfi, None), w))
    by by apply getNUMAFabric_cached.
  split; [apply Hone|]. split.
  - unfold InfoCache_GetNUMAFabricMap. rewrite Hc. unfold bind. rewrite Hone.
    unfold get_world. by destruct (NUMAFabric_RLockedMap _ _).
  - intros requests. by apply getNUMAFabric_each_cached.
Qed.

(** *** The readiness wait *)

Lemma needIfaces_of_ok (getter : string -> NetDevClass + error) (cls : string -> NetDevClass)
    (dc : NetDevClass) (ifaces acc : list string) :
  (forall name, name ∈ ifaces -> getter name = inl (cls name)) ->
  needIfaces_of getter dc ifaces acc = inl (acc ++ filter (fun n => cls n = dc) ifaces).
Proof.
  revert acc. induction ifaces as [|name rest IH]; intros acc Hcls.
  - cbn. by rewrite app_nil_r.
  - cbn [needIfaces_of]. rewrite (Hcls name) by apply list_elem_of_here.
    assert (Hrest : forall n, n ∈ rest -> getter n = inl (cls n))
      by (intros n Hn; apply Hcls; by apply list_elem_of_further).
    destruct (Z.eqb_spec (cls name) dc) as [E|E].
    + rewrite IH by done. rewrite filter_cons_True by done. by rewrite <- app_assoc.
    + rewrite IH by done. by rewrite filter_cons_False.
Qed.

Lemma needIfaces_of_err (getter : string -> NetDevClass + error) (dc : NetDevClass)
    (pre post acc : list string) (name : string) (e : error) :
  (forall n, n ∈ pre -> exists cl, getter n = inl cl) ->
  getter name = inr e ->
  needIfaces_of getter dc (pre ++ name :: post) acc =
    inr (errors_Wrap e "getting device class for %s").
Proof.
  revert acc. induction pre as [|n pre IH]; intros acc Hpre Hname.
  - cbn. by rewrite Hname.
  - cbn [app needIfaces_of].
    destruct (Hpre n) as [cl ->]; [apply list_elem_of_here|].
    assert (Hrest : forall n', n' ∈ pre -> exists cl, getter n' = inl cl)
      by (intros n' Hn'; apply Hpre; by apply list_elem_of_further).
    destruct (cl =? dc)%Z; by apply IH.
Qed.

Lemma waitFabricReady_frame (c : InfoCache) (dc : NetDevClass) (w : World) :
  let w' := snd (InfoCache_waitFabricReady c dc w) in
  ic w' = ic w /\ items w' = items w /\ heap w' = heap w /\ clock w' = clock w /\
  rpcLog w' = rpcLog w /\ scanLog w' = scanLog w.
Proof.
  unfold InfoCache_waitFabricReady.
  destruct (netIfaces c) as [ifaces|e]; [|done].
  destruct (needIfaces_of _ _ _ _) as [[|n need]|e]; done.
Qed.

(** X5: what the readiness wait waits for.  When the lister answers and
    every local interface can be classified, the waiter is asked about
    exactly the interfaces of the requested class, in the order of the
    lister, with unusable interfaces ignored and a poll interval of one
    second; when there is no such interface the waiter is not called at
    all and the wait succeeds at once. *)
Theorem waitFabricReady_selects (c : InfoCache) (dc : NetDevClass) (w : World)
    (ifaces : list string) (cls : string -> NetDevClass) :
  netIfaces c = inl ifaces ->
  (forall name, name ∈ ifaces -> devClassGetter c name = inl (cls name)) ->
  let need := filter (fun n => cls n = dc) ifaces in
  let p := {| FabricIfaces := need; IgnoreUnusable := true;
              IterationSleep := 1000000000%Z |} in
  (need = [] -> InfoCache_waitFabricReady c dc w = (None, w)) /\
  (need <> [] ->
   InfoCache_waitFabricReady c dc w =
     (hardware_WaitFabricReady p (length (waitLog w)),
      set_waitLog (waitLog w ++ [p]) w)).
Proof.
  intros Hifaces Hcls need p. unfold InfoCache_waitFabricReady.
  rewrite Hifaces, (needIfaces_of_ok _ cls) by done. cbn [app]. fold need.
  split.
  - by intros ->.
  - intros Hne. subst p. by destruct need.
Qed.

(** X6: the readiness wait gives up before it calls the waiter.  An error
    of the interface lister is returned wrapped; so is the error of the
    device class provider for the first interface it cannot classify,
    whatever the class of that interface would have been.  In both cases
    nothing has been called and nothing has changed. *)
Theorem waitFabricReady_errors (c : InfoCache) (dc : NetDevClass) (w : World) :
  (forall e, netIfaces c = inr e ->
     InfoCache_waitFabricReady c dc w = (Some (errors_Wrap e "getting net interfaces"), w))
  /\ (forall pre name post e,
        netIfaces c = inl (pre ++ name :: post) ->
        (forall n, n ∈ pre -> exists cl, devClassGetter c n = inl cl) ->
        devClassGetter c name = inr e ->
        InfoCache_waitFabricReady c dc w =
          (Some (errors_Wrap e "getting device class for %s"), w)).
Proof.
  split.
  - intros e He. unfold InfoCache_waitFabricReady. by rewrite He.
  - intros pre name post e Hifaces Hpre Hname. unfold InfoCache_waitFabricReady.
    by rewrite Hifaces, (needIfaces_of_err _ dc pre post [] name e).
Qed.

(** *** The two paths of getNUMAFabric *)

Lemma GetOrCreate_tracked (key : string) createItem (it : Item) (w : World) :
  items w !! key = Some it ->
  ItemCache_GetOrCreate key createItem w =
    (match snd (snd (fst (Item_RefreshIfNeeded it w))) with
     | Some e => (None, Some e)
     | None => (Some (fst (fst (Item_RefreshIfNeeded it w))), None)
     end,
     set_items (<[key := fst (fst (Item_RefreshIfNeeded it w))]>
                  (items (snd (Item_RefreshIfNeeded it w))))
       (snd (Item_RefreshIfNeeded it w))).
Proof.
  intros Hit. unfold ItemCache_GetOrCreate, bind, get_world. rewrite Hit.
  destruct (Item_RefreshIfNeeded it w) as [[it' [b [e|]]] w2]; by cbn.
Qed.

Lemma GetOrCreate_untracked (key : string) createItem (it : Item) (w w1 : World) :
  items w !! key = None ->
  createItem w = ((Some it, None), w1) ->
  let w1' := set_items (<[key := it]> (items w1)) w1 in
  ItemCache_GetOrCreate key createItem w =
    (match snd (snd (fst (Item_RefreshIfNeeded it w1'))) with
     | Some e => (None, Some e)
     | None => (Some (fst (fst (Item_RefreshIfNeeded it w1'))), None)
     end,
     set_items (<[key := fst (fst (Item_RefreshIfNeeded it w1'))]>
                  (items (snd (Item_RefreshIfNeeded it w1'))))
       (snd (Item_RefreshIfNeeded it w1'))).
Proof.
  intros Hit Hcreate w1'. unfold ItemCache_GetOrCreate, bind, get_world.
  rewrite Hit, Hcreate. unfold modify. fold w1'.
  destruct (Item_RefreshIfNeeded it w1') as [[it' [b [e|]]] w2]; by cbn.
Qed.

Lemma GetOrCreate_factory_fails (key : string) createItem (e : error) (w w1 : World)
    (r : option Item) :
  items w !! key = None ->
  createItem w = ((r, Some e), w1) ->
  ItemCache_GetOrCreate key createItem w = ((None, Some e), w1).
Proof.
  intros Hit Hcreate. unfold ItemCache_GetOrCreate, bind, get_world.
  rewrite Hit, Hcreate. by destruct r.
Qed.

(** X7: with the fabric sub-cache disabled every request waits and scans,
    and the scan is handed out as it is: it is not filtered on the device
    class of the request, and nothing is tracked. *)
Theorem uncached_fabric_is_unfiltered (w w1 : World) (c : InfoCache) (dc : NetDevClass)
    (provs : list string) (g : FabricScanCollab) (m : gmap Z (list FabricInterface)) :
  ic w = Some c -> fabricCacheDisabled c = true ->
  InfoCache_waitFabricReady c dc w = (None, w1) ->
  fabricScan c = fabricScanFn_of g ->
  g provs (length (scanLog w)) = inl m ->
  exists l w',
    InfoCache_getNUMAFabric c dc provs w = ((Some l, None), w') /\
    (l ∉ dom (fabrics (heap w))) /\
    fabrics (heap w') !! l = Some m /\
    items w' = items w /\ scanLog w' = scanLog w ++ [provs].
Proof.
  intros Hc Hdis Hwait Hscan Hg.
  pose proof (waitFabricReady_frame c dc w) as Hf. rewrite Hwait in Hf. cbn [snd] in Hf.
  destruct Hf as (_ & Hitems & Hheap & _ & _ & Hlog).
  unfold InfoCache_getNUMAFabric, bind, IsFabricCacheEnabled. rewrite Hc, Hdis. cbn [negb].
  rewrite Hwait, Hscan. cbn [call_fabricScanFn].
  eexists (fresh (dom (fabrics (heap w)))), _. split.
  { rewrite Hlog, Hg, Hheap. reflexivity. }
  split; [apply is_fresh|].
  split; [cbn; apply lookup_insert_eq|]. split; cbn; congruence.
Qed.

(** X8: a failed readiness wait ends the request before any scan.  With
    the sub-cache disabled the error of the wait is returned as it is; with
    it enabled and no entry tracked the error comes back wrapped and the
    fabric key stays untracked, so that the next request starts afresh. *)
Theorem fabric_wait_failure (w w1 : World) (c : InfoCache) (dc : NetDevClass)
    (provs : list string) (e : error) :
  ic w = Some c ->
  InfoCache_waitFabricReady c dc w = (Some e, w1) ->
  (fabricCacheDisabled c = true ->
   InfoCache_getNUMAFabric c dc provs w = ((None, Some e), w1)) /\
  (fabricCacheDisabled c = false -> items w !! fabricKey = None ->
   InfoCache_getNUMAFabric c dc provs w =
     ((None, Some (errors_Wrap e "getting fabric scan from cache")), w1)) /\
  items w1 = items w /\ scanLog w1 = scanLog w /\ heap w1 = heap w.
Proof.
  intros Hc Hwait.
  pose proof (waitFabricReady_frame c dc w) as Hf. rewrite Hwait in Hf. cbn [snd] in Hf.
  destruct Hf as (_ & Hitems & Hheap & _ & _ & Hlog).
  split; [|split; [|done]].
  - intros Hdis. unfold InfoCache_getNUMAFabric, bind, IsFabricCacheEnabled.
    rewrite Hc, Hdis. cbn [negb]. by rewrite Hwait.
  - intros Hen Hnone. unfold InfoCache_getNUMAFabric, bind, IsFabricCacheEnabled.
    rewrite Hc, Hen. cbn [negb].
    erewrite GetOrCreate_factory_fails; [reflexivity | exact Hnone |].
    by rewrite Hwait.
Qed.

(** X9: with the fabric sub-cache enabled the hardware is scanned once.
    The first request waits, scans, filters the scan in place on its own
    device class and leaves the entry cached; every later request, for
    whatever class and providers, gets that same fabric, and the scanner
    is not called again. *)
Theorem fabric_scanned_once (w w1 : World) (c : InfoCache) (dc : NetDevClass)
    (provs : list string) (g : FabricScanCollab) (m : gmap Z (list FabricInterface)) :
  ic w = Some c -> fabricCacheDisabled c = false ->
  items w !! fabricKey = None -> clock w <> Time_zero ->
  InfoCache_waitFabricReady c dc w = (None, w1) ->
  fabricScan c = fabricScanFn_of g ->
  g provs (length (scanLog w)) = inl m ->
  exists l w' cfi m',
    InfoCache_getNUMAFabric c dc provs w = ((Some l, None), w') /\
    items w' !! fabricKey = Some (FabricItem cfi) /\
    devClass cfi = dc /\ providers cfi = provs /\ lastResults cfi = Some l /\
    lastCached (fi_cacheItem cfi) = clock w /\
    fabrics (heap w') !! l = Some m' /\
    (forall numa, m' !! numa = m !! numa ≫= filtered_bucket dc) /\
    scanLog w' = scanLog w ++ [provs] /\
    forall requests,
      getNUMAFabric_each c requests w' = (map (fun _ => (Some l, None)) requests, w').
Proof.
  intros Hc Hen Hnone Hclk Hwait Hscan Hg.
  pose proof (waitFabricReady_frame c dc w) as Hf. rewrite Hwait in Hf. cbn [snd] in Hf.
  destruct Hf as (Hic1 & Hitems & Hheap & Hclock & _ & Hlog).
  set (new := newCachedFabricInfo (fabricScan c) dc provs).
  set (w1' := set_items (<[fabricKey := FabricItem new]> (items w1)) w1).
  set (l := fresh (dom (fabrics (heap w)))).
  set (w2 := set_heap (set_fabrics (<[l := m]> (fabrics (heap w))) (heap w))
               (set_scanLog (scanLog w ++ [provs]) w1')).
  assert (Hcall : call_fabricScanFn (fetch new) (providers new) w1' = ((Some l, None), w2)).
  { subst new. cbn [fetch providers newCachedFabricInfo]. rewrite Hscan.
    cbn [call_fabricScanFn]. cbn [scanLog heap w1' set_items].
    rewrite Hlog, Hg, Hheap. reflexivity. }
  assert (Hm : fabrics (heap w2) !! l = Some m) by (cbn; apply lookup_insert_eq).
  pose proof (fabric_refresh_of_fetch new w1' w2 l m Hcall Hm) as Href.
  set (cfi := fabric_cached (Some l) (clock w2) new) in *.
  set (w3 := set_heap _ w2) in Href.
  assert (Hrin : Item_RefreshIfNeeded (FabricItem new) w1' =
                 ((FabricItem cfi, (true, None)), w3)).
  { unfold Item_RefreshIfNeeded, bind, cachedFabricInfo_RefreshIfNeeded.
    change (isCached (fi_cacheItem new)) with false. cbn [negb].
    unfold cachedFabricInfo_Refresh in Href. unfold bind. rewrite Href. reflexivity. }
  set (w' := set_items (<[fabricKey := FabricItem cfi]> (items w3)) w3).
  assert (Hget : InfoCache_getNUMAFabric c dc provs w = ((Some l, None), w')).
  { unfold InfoCache_getNUMAFabric, bind, IsFabricCacheEnabled. rewrite Hc, Hen. cbn [negb].
    erewrite (GetOrCreate_untracked fabricKey _ (FabricItem new) w w1 Hnone);
      [|by rewrite Hwait].
    cbv zeta. fold w1'. rewrite Hrin. reflexivity. }
  assert (Hcached : isCached (fi_cacheItem cfi) = true).
  { apply isCached_true_iff. cbn. congruence. }
  exists l, w', cfi, (map_fold (filterBucket dc) m m).
  split; [exact Hget|]. split; [apply lookup_insert_eq|].
  split; [done|]. split; [done|]. split; [done|]. split; [cbn; congruence|].
  split; [cbn; apply lookup_insert_eq|]. split; [intros; apply filter_range_lookup|].
  split; [done|].
  intros requests.
  apply (getNUMAFabric_each_cached w' c cfi requests); try done.
  - cbn. congruence.
  - apply lookup_insert_eq.
Qed.

(** *** The attach-info read path *)

Lemma alloc_resp_wf (v : AttachInfoRecord) (h : Heap) :
  exists r,
    resps (snd (alloc_resp v h)) !! fst (alloc_resp v h) = Some r /\
    wf_resp (snd (alloc_resp v h)) r /\
    Provider (ClientNetHint r) = rec_Provider v /\
    elems (strs (snd (alloc_resp v h))) (EnvVars (ClientNetHint r)) = default [] (rec_EnvVars v).
Proof.
  unfold alloc_resp.
  destruct (match rec_ServiceRanks v with
            | Some prs => _
            | None => (None, h)
            end) as [sr h1] eqn:Hsr.
  assert (Hsrwf : wf_slice (ptrs h1) sr /\ strs h1 = strs h).
  { destruct (rec_ServiceRanks v) as [prs|].
    - destruct (alloc_cells prs (psrs h)) as [ls ps].
      pose proof (alloc_slice_spec (Some (map Some ls)) (ptrs h)) as [_ Hwf].
      destruct (alloc_slice (Some (map Some ls)) (ptrs h)) as [s pa].
      injection Hsr as <- <-. by split.
    - injection Hsr as <- <-. by split. }
  destruct Hsrwf as [Hsrwf Hstrs].
  pose proof (alloc_slice_spec (rec_MSRanks v) (u32s h1)) as [_ Hms].
  destruct (alloc_slice (rec_MSRanks v) (u32s h1)) as [ms u].
  pose proof (alloc_slice_spec (rec_EnvVars v) (strs h1)) as [Hev Hevwf].
  destruct (alloc_slice (rec_EnvVars v) (strs h1)) as [ev st].
  unfold alloc_cell. cbn [fst snd] in *.
  eexists. split; [apply lookup_insert_eq|]. split; [|by split].
  by repeat split.
Qed.

Lemma append_EnvVars_wf (l : loc) (s : string) (h : Heap) (r : GetAttachInfoResp) :
  resps h !! l = Some r -> wf_resp h r ->
  exists r',
    resps (append_EnvVars l s h) !! l = Some r' /\
    wf_resp (append_EnvVars l s h) r' /\
    Provider (ClientNetHint r') = Provider (ClientNetHint r) /\
    elems (strs (append_EnvVars l s h)) (EnvVars (ClientNetHint r')) =
      elems (strs h) (EnvVars (ClientNetHint r)) ++ [s].
Proof.
  intros Hr (W1 & W2 & W3). unfold append_EnvVars. rewrite Hr.
  pose proof (append_spec (EnvVars (ClientNetHint r)) s (strs h) W3) as [Hel Hwf].
  destruct (append (EnvVars (ClientNetHint r)) s (strs h)) as [ev st].
  cbn [fst snd] in *. eexists. split; [apply lookup_insert_eq|].
  split; [by repeat split|]. by split.
Qed.

Lemma addTelemetrySettings_wf (c : InfoCache) (l : loc) (w : World) (r : GetAttachInfoResp) :
  ic w = Some c -> resps (heap w) !! l = Some r -> wf_resp (heap w) r ->
  exists r',
    resps (heap (snd (addTelemetrySettings (Some l) w))) !! l = Some r' /\
    wf_resp (heap (snd (addTelemetrySettings (Some l) w))) r' /\
    Provider (ClientNetHint r') = Provider (ClientNetHint r) /\
    elems (strs (heap (snd (addTelemetrySettings (Some l) w)))) (EnvVars (ClientNetHint r')) =
      elems (strs (heap w)) (EnvVars (ClientNetHint r)) ++ telemetry_vars c.
Proof.
  intros Hc Hr Hwf. unfold addTelemetrySettings, telemetry_vars. rewrite Hc.
  destruct (clientTelemetryEnabled c).
  2:{ exists r. cbn [snd]. split; [done|]. split; [done|]. split; [done|]. by rewrite app_nil_r. }
  destruct (append_EnvVars_wf l (ClientMetricsEnabledEnv +:+ "=1") (heap w) r Hr Hwf)
    as (r1 & Hr1 & Hwf1 & Hp1 & He1).
  destruct (clientTelemetryRetain c).
  - destruct (append_EnvVars_wf l (ClientMetricsRetainEnv +:+ "=1") _ r1 Hr1 Hwf1)
      as (r2 & Hr2 & Hwf2 & Hp2 & He2).
    exists r2. cbn [snd heap set_heap]. split; [done|]. split; [done|].
    split; [congruence|]. rewrite He2, He1. by rewrite <- app_assoc.
  - exists r1. cbn [snd heap set_heap]. split; [done|]. split; [done|]. by split.
Qed.

(** One successful fetch through the wrapper of the facade. *)
Lemma getAttachInfo_fetched (c : InfoCache) (cb : AttachInfoCollab) cl req
    (v : AttachInfoRecord) (w : World) :
  ic w = Some c -> getAttachInfoCb c = Some cb ->
  cb cl req (length (rpcLog w)) = inl v ->
  exists l r w',
    InfoCache_getAttachInfo cl req w = ((Some l, None), w') /\
    resps (heap w') !! l = Some r /\ wf_resp (heap w') r /\
    Provider (ClientNetHint r) = rec_Provider v /\
    elems (strs (heap w')) (EnvVars (ClientNetHint r)) =
      default [] (rec_EnvVars v) ++ telemetry_vars c /\
    ic w' = ic w /\ items w' = items w /\ clock w' = clock w /\
    rpcLog w' = rpcLog w ++ [(cl, req)] /\ scanLog w' = scanLog w.
Proof.
  intros Hc Hcb Hv.
  pose proof (InfoCache_getAttachInfo_frame cl req w) as Hf.
  unfold InfoCache_getAttachInfo in *. rewrite Hc, Hcb in *.
  unfold bind, call_AttachInfoCollab in *. rewrite Hv in *.
  destruct (alloc_resp_wf v (heap w)) as (r & Hr & Hwf & Hp & He).
  destruct (alloc_resp v (heap w)) as [l h1]. cbn [fst snd] in *.
  set (w1 := set_heap h1 (set_rpcLog (rpcLog w ++ [(cl, req)]) w)) in *.
  destruct (addTelemetrySettings_wf c l w1 r Hc Hr Hwf) as (r' & Hr' & Hwf' & Hp' & He').
  destruct (addTelemetrySettings (Some l) w1) as [[] w2]. cbn [snd] in *.
  destruct Hf as (? & ? & ? & ? & _ & Hlog).
  exists l, r', w2. split; [done|]. split; [done|]. split; [done|].
  split; [congruence|]. split; [rewrite He'; f_equal; exact He|].
  repeat split; try done. apply Hlog. cbn. eauto.
Qed.

Lemma attach_refresh_new (c : InfoCache) (cb : AttachInfoCollab) (interval : Duration)
    (sys : string) (w : World) :
  ic w = Some c -> getAttachInfoCb c = Some cb ->
  let new := newCachedAttachInfo interval sys (client c) InfoCache_getAttachInfo_fn in
  let req := {| req_System := sys; AllRanks := true |} in
  match cb (client c) req (length (rpcLog w)) with
  | inr e =>
      Item_RefreshIfNeeded (AttachItem new) w =
        ((AttachItem new,
          (true, Some (errors_Wrap e "refreshing cached attach info failed"))),
         set_rpcLog (rpcLog w ++ [(client c, req)]) w)
  | inl v =>
      exists o r w2,
        Item_RefreshIfNeeded (AttachItem new) w =
          ((AttachItem (attach_cached (Some o) (clock w) new), (true, None)), w2) /\
        resps (heap w2) !! o = Some r /\ wf_resp (heap w2) r /\
        Provider (ClientNetHint r) = rec_Provider v /\
        elems (strs (heap w2)) (EnvVars (ClientNetHint r)) =
          default [] (rec_EnvVars v) ++ telemetry_vars c /\
        ic w2 = ic w /\ items w2 = items w /\ clock w2 = clock w /\
        rpcLog w2 = rpcLog w ++ [(client c, req)] /\ scanLog w2 = scanLog w
  end.
Proof.
  intros Hc Hcb new req.
  assert (Hunfold : Item_RefreshIfNeeded (AttachItem new) w =
            (let '((resp, err), w1) := InfoCache_getAttachInfo (client c) req w in
             match err with
             | Some e =>
                 ((AttachItem new,
                   (true, Some (errors_Wrap e "refreshing cached attach info failed"))), w1)
             | None => ((AttachItem (attach_cached resp (clock w1) new), (true, None)), w1)
             end)).
  { unfold Item_RefreshIfNeeded, bind, cachedAttachInfo_RefreshIfNeeded, bind,
      cachedAttachInfo_needsRefresh, bind, time_Now, ret.
    change (isCached (ai_cacheItem new)) with false. cbn [negb orb].
    unfold cachedAttachInfo_refresh, bind.
    change (call_getAttachInfoFn (ai_fetch new) (rpcClient new)
              {| req_System := system new; AllRanks := true |} w)
      with (InfoCache_getAttachInfo (client c) req w).
    destruct (InfoCache_getAttachInfo (client c) req w) as [[resp [e|]] w1]; reflexivity. }
  rewrite Hunfold.
  destruct (cb (client c) req (length (rpcLog w))) as [v|e] eqn:Hv.
  - destruct (getAttachInfo_fetched c cb (client c) req v w Hc Hcb Hv)
      as (o & r & w2 & Hcall & Hr & Hwf & Hp & He & Hic & Hit & Hclk & Hlog & Hscan).
    exists o, r, w2. rewrite Hcall, Hclk. split_done.
  - unfold InfoCache_getAttachInfo. rewrite Hc, Hcb. unfold bind, call_AttachInfoCollab.
    by rewrite Hv.
Qed.

Lemma GetAttachInfo_enabled (sys : string) (w : World) (c : InfoCache) :
  ic w = Some c -> attachInfoCacheDisabled c = false ->
  let eff := if String.eqb sys "" then DefaultSystemName else sys in
  InfoCache_GetAttachInfo sys w =
    (let '((item, err), w1) :=
       ItemCache_GetOrCreate (sysAttachInfoKey eff)
         (ret (Some (AttachItem (newCachedAttachInfo (attachInfoRefresh c) eff (client c)
                                   InfoCache_getAttachInfo_fn)), None)) w in
     match err with
     | Some e => ((None, Some (errors_Wrap e "getting attach info from cache")), w1)
     | None =>
         match item with
         | Some (AttachItem cai) =>
             ((fst (copyGetAttachInfoResp (lastResponse cai) (heap w1)), None),
              set_heap (snd (copyGetAttachInfoResp (lastResponse cai) (heap w1))) w1)
         | _ => ((None, Some (errors_Errorf "unexpected attach info data type %T")), w1)
         end
     end).
Proof.
  intros Hc Hen eff. unfold InfoCache_GetAttachInfo. rewrite Hc.
  unfold bind, IsAttachInfoCacheEnabled. rewrite Hc, Hen. cbn [negb]. fold eff.
  destruct (ItemCache_GetOrCreate _ _ w) as [[item [e|]] w1]; [done|].
  destruct item as [[cai|cfi]|]; try done.
  unfold on_heap, ret. by destruct (copyGetAttachInfoResp (lastResponse cai) (heap w1)).
Qed.

(** What a miss with a fetcher that answers leaves behind. *)
Lemma GetAttachInfo_miss_spec (sys : string) (w : World) (c : InfoCache)
    (cb : AttachInfoCollab) (v : AttachInfoRecord) :
  let eff := if String.eqb sys "" then DefaultSystemName else sys in
  let req := {| req_System := eff; AllRanks := true |} in
  let new := newCachedAttachInfo (attachInfoRefresh c) eff (client c)
               InfoCache_getAttachInfo_fn in
  ic w = Some c -> attachInfoCacheDisabled c = false ->
  getAttachInfoCb c = Some cb ->
  items w !! sysAttachInfoKey eff = None ->
  cb (client c) req (length (rpcLog w)) = inl v ->
  exists cp o r rcp w',
    InfoCache_GetAttachInfo sys w = ((Some cp, None), w') /\
    ic w' = ic w /\ clock w' = clock w /\
    rpcLog w' = rpcLog w ++ [(client c, req)] /\
    items w' = <[sysAttachInfoKey eff := AttachItem (attach_cached (Some o) (clock w) new)]>
                 (items w) /\
    resps (heap w') !! o = Some r /\ wf_resp (heap w') r /\
    Provider (ClientNetHint r) = rec_Provider v /\
    elems (strs (heap w')) (EnvVars (ClientNetHint r)) =
      default [] (rec_EnvVars v) ++ telemetry_vars c /\
    cp <> o /\ resps (heap w') !! cp = Some rcp /\ wf_resp (heap w') rcp /\
    elems (strs (heap w')) (EnvVars (ClientNetHint rcp)) =
      default [] (rec_EnvVars v) ++ telemetry_vars c.
Proof.
  intros eff req new Hc Hen Hcb Hnone Hv.
  rewrite (GetAttachInfo_enabled sys w c Hc Hen). cbv zeta. fold eff new.
  erewrite (GetOrCreate_untracked _ _ (AttachItem new) w w Hnone); [|reflexivity]. cbv zeta.
  set (w1 := set_items (<[sysAttachInfoKey eff := AttachItem new]> (items w)) w).
  pose proof (attach_refresh_new c cb (attachInfoRefresh c) eff w1 Hc Hcb) as Hnew.
  cbv zeta in Hnew. fold new req in Hnew.
  change (rpcLog w1) with (rpcLog w) in Hnew. rewrite Hv in Hnew.
  destruct Hnew as (o & r & w2 & Hrin & Hr & Hwf & Hp & He & Hic & Hit & Hclk & Hlog & _).
  rewrite Hrin. cbn [fst snd lastResponse attach_cached heap set_items].
  destruct (copyGetAttachInfoResp_spec o r (heap w2) Hr Hwf)
    as (cp & ms & sr & ev & h' & Hcopy & Hcp & Hrcp & Hle & _ & _ & _ & _ & _ & _ & _
        & Helev & Hwfcp).
  rewrite Hcopy. cbn [fst snd].
  eexists cp, o, r, _, _. split; [reflexivity|].
  cbn [ic clock rpcLog items heap set_heap set_items].
  split; [done|]. split; [done|]. split; [done|].
  split. { rewrite Hit. cbn [items w1 set_items]. by rewrite insert_insert_eq. }
  split. { destruct Hle as (_ & _ & _ & _ & L & _). by eapply lookup_weaken. }
  split; [by eapply wf_resp_weaken|].
  split; [done|].
  split. { destruct Hwf as (_ & _ & W), Hle as (_ & _ & L & _).
           destruct (elems_weaken _ _ _ W L) as [-> _]. exact He. }
  split. { intros ->. apply Hcp, elem_of_dom. eauto. }
  split; [exact Hrcp|]. split; [exact Hwfcp|].
  cbn [ClientNetHint set_ClientNetHint EnvVars set_EnvVars]. by rewrite Helev.
Qed.

(** X10: with the attach-info sub-cache enabled one fetch serves all.  The
    first [GetAttachInfo] for a system that is not tracked calls the
    fetcher once, for all ranks, and leaves the answer cached with the
    time of the call and the refresh interval of the facade; the later
    calls, as long as the entry is fresh, fetch nothing.  Every call
    returns a record of its own whose environment variables are those of
    the answer followed by the telemetry variables. *)
Theorem attach_fetched_once (sys : string) (w : World) (c : InfoCache)
    (cb : AttachInfoCollab) (v : AttachInfoRecord) (times : list Time) :
  let eff := if String.eqb sys "" then DefaultSystemName else sys in
  let req := {| req_System := eff; AllRanks := true |} in
  ic w = Some c -> attachInfoCacheDisabled c = false ->
  getAttachInfoCb c = Some cb ->
  items w !! sysAttachInfoKey eff = None ->
  cb (client c) req (length (rpcLog w)) = inl v ->
  clock w <> Time_zero ->
  Forall (fun t => isStale t {| lastCached := clock w;
                                refreshInterval := attachInfoRefresh c |} = false) times ->
  let first := InfoCache_GetAttachInfo sys w in
  let later := GetAttachInfo_at sys times (snd first) in
  rpcLog (snd later) = rpcLog w ++ [(client c, req)] /\
  (exists cai,
      items (snd later) !! sysAttachInfoKey eff = Some (AttachItem cai) /\
      system cai = eff /\ lastCached (ai_cacheItem cai) = clock w /\
      refreshInterval (ai_cacheItem cai) = attachInfoRefresh c) /\
  length (fst later) = length times /\
  Forall (fun res =>
            exists cp r,
              res = (Some cp, None) /\ resps (heap (snd later)) !! cp = Some r /\
              elems (strs (heap (snd later))) (EnvVars (ClientNetHint r)) =
                default [] (rec_EnvVars v) ++ telemetry_vars c)
         (fst first :: fst later).
Proof.
  intros eff req Hc Hen Hcb Hnone Hv Hclk Htimes first later.
  destruct (GetAttachInfo_miss_spec sys w c cb v Hc Hen Hcb Hnone Hv)
    as (cp & o & r & rcp & w' & Hfirst & Hic & Hclock & Hlog & Hitems & Hr & Hwf & _ & He
        & _ & Hrcp & Hwfcp & Hecp).
  fold eff req in Hfirst, Hlog, Hitems.
  set (cai := attach_cached (Some o) (clock w)
                (newCachedAttachInfo (attachInfoRefresh c) eff (client c)
                   InfoCache_getAttachInfo_fn)) in *.
  assert (Hit : items w' !! sysAttachInfoKey eff = Some (AttachItem cai))
    by (rewrite Hitems; apply lookup_insert_eq).
  assert (Hcached : isCached (ai_cacheItem cai) = true) by by apply isCached_true_iff.
  pose proof (GetAttachInfo_hits sys c cai o r times Hen Hcached Htimes eq_refl w'
                (eq_trans Hic Hc) Hit Hr Hwf) as Hhits.
  subst later first. rewrite Hfirst. cbn [fst snd]. cbv zeta in Hhits.
  destruct Hhits as (_ & Hlog2 & Hitems2 & Hle & Hlen & Hres).
  split; [congruence|]. split.
  { exists cai. rewrite Hitems2. by split_done. }
  split; [done|]. constructor.
  - exists cp, rcp. split; [done|].
    split. { destruct Hle as (_ & _ & _ & _ & L & _). by eapply lookup_weaken. }
    destruct Hwfcp as (_ & _ & W), Hle as (_ & _ & L & _).
    destruct (elems_weaken _ _ _ W L) as [-> _]. exact Hecp.
  - eapply Forall_impl; [exact Hres|]. cbv beta.
    intros res (cp2 & r2 & -> & Hr2 & _ & He2). exists cp2, r2.
    split; [done|]. split; [done|]. by rewrite He2.
Qed.

Lemma GetAttachInfo_fetch_fails (sys : string) (w : World) (c : InfoCache)
    (cb : AttachInfoCollab) (e : error) :
  let eff := if String.eqb sys "" then DefaultSystemName else sys in
  let req := {| req_System := eff; AllRanks := true |} in
  let new := newCachedAttachInfo (attachInfoRefresh c) eff (client c)
               InfoCache_getAttachInfo_fn in
  ic w = Some c -> attachInfoCacheDisabled c = false ->
  getAttachInfoCb c = Some cb ->
  items w !! sysAttachInfoKey eff = None \/
  items w !! sysAttachInfoKey eff = Some (AttachItem new) ->
  cb (client c) req (length (rpcLog w)) = inr e ->
  InfoCache_GetAttachInfo sys w =
    ((None, Some (errors_Wrap (errors_Wrap e "refreshing cached attach info failed")
                    "getting attach info from cache")),
     set_items (<[sysAttachInfoKey eff := AttachItem new]> (items w))
       (set_rpcLog (rpcLog w ++ [(client c, req)]) w)).
Proof.
  intros eff req new Hc Hen Hcb Hinv Hv.
  rewrite (GetAttachInfo_enabled sys w c Hc Hen). cbv zeta. fold eff new.
  destruct Hinv as [Hnone|Hsome].
  - erewrite (GetOrCreate_untracked _ _ (AttachItem new) w w Hnone); [|reflexivity].
    cbv zeta.
    set (w1 := set_items (<[sysAttachInfoKey eff := AttachItem new]> (items w)) w).
    pose proof (attach_refresh_new c cb (attachInfoRefresh c) eff w1 Hc Hcb) as Hnew.
    cbv zeta in Hnew. fold new req in Hnew.
    change (rpcLog w1) with (rpcLog w) in Hnew. rewrite Hv in Hnew.
    rewrite Hnew. cbn [fst snd items set_rpcLog w1 set_items].
    by rewrite insert_insert_eq.
  - rewrite (GetOrCreate_tracked _ _ (AttachItem new) w Hsome).
    pose proof (attach_refresh_new c cb (attachInfoRefresh c) eff w Hc Hcb) as Hnew.
    cbv zeta in Hnew. fold new req in Hnew. rewrite Hv in Hnew.
    rewrite Hnew. reflexivity.
Qed.

(** X11: a failure is not cached.  While the fetcher fails, every
    [GetAttachInfo] for the system calls it again, returns no record and
    the error of the fetch, wrapped, and leaves the heap as it was. *)
Theorem attach_failure_retried (sys : string) (c : InfoCache) (cb : AttachInfoCollab)
    (e : error) (times : list Time) (w : World) :
  let eff := if String.eqb sys "" then DefaultSystemName else sys in
  let req := {| req_System := eff; AllRanks := true |} in
  ic w = Some c -> attachInfoCacheDisabled c = false ->
  getAttachInfoCb c = Some cb ->
  items w !! sysAttachInfoKey eff = None ->
  (forall n, cb (client c) req n = inr e) ->
  let r := GetAttachInfo_at sys times w in
  rpcLog (snd r) = rpcLog w ++ replicate (length times) (client c, req) /\
  heap (snd r) = heap w /\
  fst r = replicate (length times)
            (None, Some (errors_Wrap (errors_Wrap e "refreshing cached attach info failed")
                           "getting attach info from cache")).
Proof.
  intros eff req Hc Hen Hcb Hnone Hfail. cbv zeta.
  set (new := newCachedAttachInfo (attachInfoRefresh c) eff (client c)
                InfoCache_getAttachInfo_fn).
  assert (Hinv : items w !! sysAttachInfoKey eff = None \/
                 items w !! sysAttachInfoKey eff = Some (AttachItem new)) by by left.
  clear Hnone. revert w Hc Hinv.
  induction times as [|t times IH]; intros w Hc Hinv.
  - cbn. by rewrite app_nil_r.
  - cbn [GetAttachInfo_at]. unfold bind, modify.
    rewrite (GetAttachInfo_fetch_fails sys (set_clock t w) c cb e Hc Hen Hcb Hinv (Hfail _)).
    fold eff req new. cbn [items rpcLog set_clock].
    set (w1 := set_items _ _).
    specialize (IH w1 Hc (or_intror (lookup_insert_eq _ _ _))).
    destruct (GetAttachInfo_at sys times w1) as [rs w2]. cbn [fst snd] in *.
    destruct IH as (Hlog & Hheap & Hrs). unfold ret. cbn [fst snd length replicate].
    split; [|split].
    + rewrite Hlog. cbn [rpcLog w1 set_items set_rpcLog]. by rewrite <- app_assoc.
    + by rewrite Hheap.
    + by rewrite Hrs.
Qed.

Lemma GetAttachInfo_at_bypass (sys : string) (c : InfoCache) (cb : AttachInfoCollab)
    (times : list Time) (w : World) :
  ic w = Some c -> attachInfoCacheDisabled c = true -> getAttachInfoCb c = Some cb ->
  let r := GetAttachInfo_at sys times w in
  ic (snd r) = ic w /\ items (snd r) = items w /\
  rpcLog (snd r) = rpcLog w ++
    replicate (length times) (client c, {| req_System := sys; AllRanks := true |}) /\
  length (fst r) = length times.
Proof.
  intros Hc Hdis Hcb. cbv zeta. revert w Hc.
  induction times as [|t times IH]; intros w Hc.
  - cbn. by rewrite app_nil_r.
  - cbn [GetAttachInfo_at]. unfold bind, modify.
    rewrite (GetAttachInfo_disabled sys (set_clock t w) c Hc Hdis).
    pose proof (getAttachInfoRemote_frame c sys (set_clock t w)) as Hw. cbv zeta in Hw.
    pose proof (InfoCache_getAttachInfo_frame (client c)
                  {| req_System := sys; AllRanks := true |} (set_clock t w)) as Hf.
    cbv zeta in Hf. rewrite <- Hw in Hf.
    destruct (InfoCache_getAttachInfoRemote c sys (set_clock t w)) as [res w1].
    cbn [snd] in Hf. destruct Hf as (Hic & Hit & _ & _ & _ & Hlog).
    specialize (IH w1 (eq_trans Hic Hc)).
    destruct (GetAttachInfo_at sys times w1) as [rs w2]. cbn [fst snd] in *.
    destruct IH as (Hic2 & Hit2 & Hlog2 & Hlen). unfold ret. cbn [fst snd length replicate].
    cbn [ic items set_clock] in Hic, Hit.
    split; [congruence|]. split; [congruence|]. split; [|by rewrite Hlen].
    rewrite Hlog2, Hlog by (cbn; eauto). cbn [rpcLog set_clock]. by rewrite <- app_assoc.
Qed.

(** X12: with the attach-info sub-cache disabled nothing is cached: every
    [GetAttachInfo] calls the fetcher, so that [n] calls make [n] fetches,
    each for the system as the caller named it (the empty name is not
    replaced by the default one) and for all ranks; no entry is ever
    tracked. *)
Theorem bypass_never_caches (sys : string) (c : InfoCache) (cb : AttachInfoCollab)
    (times : list Time) (w : World) :
  ic w = Some c -> attachInfoCacheDisabled c = true -> getAttachInfoCb c = Some cb ->
  let r := GetAttachInfo_at sys times w in
  rpcLog (snd r) = rpcLog w ++
    replicate (length times) (client c, {| req_System := sys; AllRanks := true |}) /\
  items (snd r) = items w /\ length (fst r) = length times.
Proof.
  intros Hc Hdis Hcb r.
  destruct (GetAttachInfo_at_bypass sys c cb times w Hc Hdis Hcb) as (_ & ? & ? & ?).
  by split_done.
Qed.

(** X13: what the bypass path hands out.  When the fetched response names
    a provider, [GetAttachInfo] with the sub-cache disabled returns that
    very record, not a copy, with the telemetry variables appended to its
    environment variables. *)
Theorem bypass_returns_fetched (sys : string) (w : World) (c : InfoCache)
    (cb : AttachInfoCollab) (v : AttachInfoRecord) :
  ic w = Some c -> attachInfoCacheDisabled c = true -> getAttachInfoCb c = Some cb ->
  cb (client c) {| req_System := sys; AllRanks := true |} (length (rpcLog w)) = inl v ->
  rec_Provider v <> "" ->
  exists l r w',
    InfoCache_GetAttachInfo sys w = ((Some l, None), w') /\
    InfoCache_getAttachInfo (client c) {| req_System := sys; AllRanks := true |} w =
      ((Some l, None), w') /\
    (l ∉ dom (resps (heap w))) /\
    resps (heap w') !! l = Some r /\
    Provider (ClientNetHint r) = rec_Provider v /\
    elems (strs (heap w')) (EnvVars (ClientNetHint r)) =
      default [] (rec_EnvVars v) ++ telemetry_vars c.
Proof.
  intros Hc Hdis Hcb Hv Hprov.
  rewrite (GetAttachInfo_disabled sys w c Hc Hdis).
  unfold InfoCache_getAttachInfoRemote, bind.
  destruct (getAttachInfo_fetched c cb _ _ v w Hc Hcb Hv)
    as (l & r & w' & Hcall & Hr & _ & Hp & He & _).
  assert (Hfresh : l ∉ dom (resps (heap w))).
  { unfold InfoCache_getAttachInfo in Hcall. rewrite Hc, Hcb in Hcall.
    unfold bind, call_AttachInfoCollab in Hcall. rewrite Hv in Hcall.
    unfold alloc_resp in Hcall.
    destruct (match rec_ServiceRanks v with
              | Some prs => _
              | None => (None, heap w)
              end) as [sr h1] eqn:Hsr.
    assert (Hresps : resps h1 = resps (heap w)).
    { destruct (rec_ServiceRanks v) as [prs|].
      - destruct (alloc_cells prs (psrs (heap w))) as [ls ps].
        destruct (alloc_slice (Some (map Some ls)) (ptrs (heap w))) as [s pa].
        by injection Hsr as <- <-.
      - by injection Hsr as <- <-. }
    destruct (alloc_slice (rec_MSRanks v) (u32s h1)) as [ms u].
    destruct (alloc_slice (rec_EnvVars v) (strs h1)) as [ev st].
    unfold alloc_cell in Hcall. cbn [fst snd] in Hcall.
    destruct (addTelemetrySettings _ _) as [[] w2] in Hcall.
    unfold ret in Hcall. injection Hcall as <- _.
    cbn [resps set_u32s]. rewrite Hresps. apply is_fresh. }
  rewrite Hcall. unfold get_world, resp_Provider. rewrite Hr, Hp.
  apply String.eqb_neq in Hprov. rewrite Hprov.
  exists l, r, w'. by split_done.
Qed.

(** X14: switching the attach-info sub-cache off and on again keeps what
    was cached.  [DisableAttachInfoCache] followed by
    [EnableAttachInfoCache], with any interval, changes neither the
    tracked entries nor the heap; an entry that was cached and fresh under
    its own interval then serves [GetAttachInfo] without a fetch, and it
    keeps its own interval: the new one is for the entries created
    later. *)
Theorem reenable_keeps_entries (sys : string) (w : World) (c : InfoCache)
    (cai : cachedAttachInfo) (d : Duration) :
  ic w = Some c ->
  items w !! sysAttachInfoKey (if String.eqb sys "" then DefaultSystemName else sys)
    = Some (AttachItem cai) ->
  isCached (ai_cacheItem cai) = true ->
  isStale (clock w) (ai_cacheItem cai) = false ->
  let w1 := snd (EnableAttachInfoCache d (snd (DisableAttachInfoCache w))) in
  ic w1 = Some (with_attachInfoCache false d c) /\
  items w1 = items w /\ heap w1 = heap w /\
  fst (IsAttachInfoCacheEnabled (snd (DisableAttachInfoCache w))) = false /\
  fst (IsAttachInfoCacheEnabled w1) = true /\
  let r := InfoCache_GetAttachInfo sys w1 in
  fst r = (fst (copyGetAttachInfoResp (lastResponse cai) (heap w)), None) /\
  rpcLog (snd r) = rpcLog w /\ items (snd r) = items w.
Proof.
  intros Hc Hit Hcached Hfresh w1.
  assert (Hw1 : w1 = set_ic (Some (with_attachInfoCache false d c)) w).
  { subst w1. unfold DisableAttachInfoCache, EnableAttachInfoCache. rewrite Hc.
    cbn [snd ic set_ic]. by destruct w. }
  assert (Hdis : fst (IsAttachInfoCacheEnabled (snd (DisableAttachInfoCache w))) = false).
  { unfold DisableAttachInfoCache, IsAttachInfoCacheEnabled. by rewrite Hc. }
  clearbody w1. subst w1.
  split; [done|]. split; [done|]. split; [done|]. split; [done|]. split; [done|].
  cbv zeta.
  rewrite (GetAttachInfo_hit sys (set_ic (Some (with_attachInfoCache false d c)) w)
             (with_attachInfoCache false d c) cai eq_refl eq_refl Hit Hcached Hfresh).
  by split_done.
Qed.

Lemma append_full_subseteq {B : Type} (s : option slice) (x : B) (m : gmap loc (list B)) :
  match s with Some h => cap h = len h | None => True end ->
  m ⊆ snd (append s x m).
Proof.
  intros Hfull.
  assert (Hgrow : m ⊆ <[fresh (dom m) := elems m s ++ [x]]> m)
    by apply insert_subseteq, not_elem_of_dom, is_fresh.
  unfold append, alloc_cell. destruct s as [h|]; [|exact Hgrow].
  destruct (decide (len h < cap h)) as [Hlt|_]; [lia|exact Hgrow].
Qed.

(** X15: the lists of a record that [copyGetAttachInfoResp] returns fit
    their arrays exactly.  The two rank lists of the copy are never nil,
    even where the master's is, and their capacity is their length, the
    length of the master's list; the environment variables are nil where
    the master's are, and an exact fit too otherwise.  So when the caller
    appends to one of them, the list moves to a new array and nothing
    that was in memory changes. *)
Theorem copy_lists_exact_fit (o : loc) (r : GetAttachInfoResp) (h : Heap) :
  resps h !! o = Some r ->
  exists cp r' h',
    copyGetAttachInfoResp (Some o) h = (Some cp, h') /\ resps h' !! cp = Some r' /\
    (exists ms, MSRanks r' = Some ms /\ len ms = slice_len (MSRanks r) /\ cap ms = len ms) /\
    (exists sr, ServiceRanks r' = Some sr /\ len sr = slice_len (ServiceRanks r) /\
                cap sr = len sr) /\
    match EnvVars (ClientNetHint r) with
    | None => EnvVars (ClientNetHint r') = None
    | Some e => exists ev, EnvVars (ClientNetHint r') = Some ev /\ len ev = len e /\
                           cap ev = len ev
    end /\
    (forall x, u32s h' ⊆ snd (append (MSRanks r') x (u32s h'))) /\
    (forall x, ptrs h' ⊆ snd (append (ServiceRanks r') x (ptrs h'))) /\
    (forall x, strs h' ⊆ snd (append (EnvVars (ClientNetHint r')) x (strs h'))).
Proof.
  intros Hr. unfold copyGetAttachInfoResp. rewrite Hr.
  unfold make, alloc_cell.
  destruct (copy _ (MSRanks r) _) as [n1 u2].
  destruct (copy _ (ServiceRanks r) _) as [n2 p2].
  destruct (EnvVars (ClientNetHint r)) as [e|] eqn:He.
  - destruct (copy _ (Some e) _) as [n3 s2].
    eexists _, _, _. split; [reflexivity|]. cbn [resps set_resps].
    split; [apply lookup_insert_eq|]. cbn -[append subseteq].
    split; [by eexists|]. split; [by eexists|]. split; [by eexists|].
    split; [|split]; intros x; by apply append_full_subseteq.
  - eexists _, _, _. split; [reflexivity|]. cbn [resps set_resps].
    split; [apply lookup_insert_eq|]. cbn -[append subseteq]. rewrite ?He.
    split; [by eexists|]. split; [by eexists|]. split; [done|].
    split; [|split]; intros x; by apply append_full_subseteq.
Qed.

(** X16: what [NewInfoCache] sets up.  The two sub-caches are disabled
    together, exactly when the configuration disables caching; otherwise
    new attach-info entries get the configured expiration as their
    refresh interval.  The telemetry flags are those of the
    configuration, retention being on for a positive setting only.  The
    item cache starts empty, except that a configuration that lists
    fabric interfaces (with caching on) seeds it with one fabric entry,
    for the fabric built from that list, dated with the time of
    construction and with a zero refresh interval. *)
Theorem NewInfoCache_configures {A : Type}
    (NUMAFabricFromConfig : list A -> gmap Z (list FabricInterface))
    (cb : AttachInfoCollab) (scan : fabricScanFn) (ifs : list string + error)
    (cp : string -> NetDevClass + error) (cl : UnaryInvoker) (cfg : Config A) (w : World) :
  let w' := snd (NewInfoCache NUMAFabricFromConfig cb scan ifs cp cl cfg w) in
  exists c,
    ic w' = Some c /\
    attachInfoCacheDisabled c = DisableCache cfg /\
    fabricCacheDisabled c = DisableCache cfg /\
    attachInfoRefresh c = (if DisableCache cfg then 0%Z else CacheExpiration cfg) /\
    clientTelemetryEnabled c = TelemetryEnabled cfg /\
    clientTelemetryRetain c = bool_decide (0 < TelemetryRetain cfg)%Z /\
    getAttachInfoCb c = Some cb /\ fabricScan c = scan /\ client c = cl /\
    rpcLog w' = rpcLog w /\ scanLog w' = scanLog w /\
    heap_le (heap w) (heap w') /\
    if DisableCache cfg || bool_decide (FabricInterfaces cfg = [])
    then items w' = ∅ /\ heap w' = heap w
    else exists l,
        (l ∉ dom (fabrics (heap w))) /\
        fabrics (heap w') !! l = Some (NUMAFabricFromConfig (FabricInterfaces cfg)) /\
        items w' =
          {[ fabricKey :=
               FabricItem {| fi_cacheItem := {| lastCached := clock w; refreshInterval := 0%Z |};
                             fetch := static_fn (Some l); providers := []; devClass := 0%Z;
                             lastResults := Some l |} ]}.
Proof.
  intros w'. subst w'. unfold NewInfoCache.
  assert (Hret : forall z : Z, (0 <? z)%Z = bool_decide (0 < z)%Z).
  { intros z. case_bool_decide; [by apply Z.ltb_lt|by apply Z.ltb_ge; lia]. }
  destruct (DisableCache cfg) eqn:Hd.
  - eexists. unfold bind, DisableAttachInfoCache, DisableFabricCache.
    cbn [ic set_ic set_items snd fst orb]. split; [reflexivity|]. cbn.
    rewrite Hret. repeat (split; [first [done | apply heap_le_refl]|]). done.
  - unfold bind at 1. unfold EnableAttachInfoCache at 1. cbn [ic set_ic set_items snd fst orb].
    destruct (FabricInterfaces cfg) as [|a fis] eqn:Hf.
    + cbn [length Nat.ltb Nat.leb]. unfold EnableFabricCache. cbn [ic set_ic set_items snd].
      eexists. split; [reflexivity|]. cbn. rewrite Hret.
      repeat (split; [first [done | apply heap_le_refl]|]). done.
    + change (0 <? length (a :: fis)) with true. cbv iota.
      unfold bind, on_heap, alloc_cell. cbn [heap set_items set_ic].
      erewrite EnableStaticFabricCache_spec by reflexivity.
      eexists. split; [reflexivity|]. cbn. rewrite Hret.
      repeat (split; [done|]).
      split.
      { repeat split; try done. cbn. apply insert_subseteq, not_elem_of_dom, is_fresh. }
      try rewrite bool_decide_eq_false_2 by done.
      eexists. split; [apply is_fresh|]. split; [apply lookup_insert_eq|].
      by rewrite insert_empty.
Qed.

(** *** A fetch builds its record in new memory *)

Lemma fresh_not_in_sub {B : Type} (m0 m : gmap loc B) :
  m0 ⊆ m -> m0 !! fresh (dom m) = None.
Proof.
  intros Hsub. apply not_elem_of_dom. intros Hin.
  apply (is_fresh (dom m)). by apply (subseteq_dom _ _ Hsub).
Qed.

Lemma alloc_cells_subseteq {B : Type} (xs : list B) (m0 m : gmap loc B) :
  m0 ⊆ m -> m0 ⊆ snd (alloc_cells xs m).
Proof.
  revert m. induction xs as [|x xs IH]; intros m Hsub; [done|].
  cbn [alloc_cells]. unfold alloc_cell.
  specialize (IH (<[fresh (dom m) := x]> m)
                (insert_subseteq_r _ _ _ _ (fresh_not_in_sub _ _ Hsub) Hsub)).
  by destruct (alloc_cells xs _).
Qed.

Lemma alloc_slice_owned {B : Type} (xs : option (list B)) (m0 m : gmap loc (list B)) :
  m0 ⊆ m ->
  m0 ⊆ snd (alloc_slice xs m) /\
  forall s, fst (alloc_slice xs m) = Some s -> base s ∉ dom m0.
Proof.
  intros Hsub. unfold alloc_slice, alloc_cell. destruct xs as [l|]; cbn [fst snd].
  - split; [by apply insert_subseteq_r; [apply fresh_not_in_sub|]|].
    intros s [= <-]. cbn [base]. by apply not_elem_of_dom, fresh_not_in_sub.
  - by split.
Qed.

Lemma append_owned {B : Type} (s : option slice) (x : B) (m0 m : gmap loc (list B)) :
  m0 ⊆ m -> (forall h, s = Some h -> base h ∉ dom m0) ->
  m0 ⊆ snd (append s x m) /\
  forall h, fst (append s x m) = Some h -> base h ∉ dom m0.
Proof.
  intros Hsub Hown.
  assert (Hgrow : m0 ⊆ <[fresh (dom m) := elems m s ++ [x]]> m /\
                  forall h, Some (Slice (fresh (dom m)) (length (elems m s ++ [x]))
                                    (length (elems m s ++ [x]))) = Some h ->
                            base h ∉ dom m0).
  { split; [by apply insert_subseteq_r; [apply fresh_not_in_sub|]|].
    intros h [= <-]. cbn [base]. by apply not_elem_of_dom, fresh_not_in_sub. }
  unfold append, alloc_cell. destruct s as [h|]; [|exact Hgrow].
  destruct (decide (len h < cap h)) as [Hlt|_]; [|exact Hgrow].
  cbn [fst snd]. split.
  - apply alter_fresh_subseteq; [done|]. by apply Hown.
  - intros h' [= <-]. cbn [base]. by apply Hown.
Qed.

Lemma alloc_resp_owned (v : AttachInfoRecord) (h : Heap) :
  heap_le h (snd (alloc_resp v h)) /\
  (fst (alloc_resp v h) ∉ dom (resps h)) /\
  forall r s, resps (snd (alloc_resp v h)) !! fst (alloc_resp v h) = Some r ->
              EnvVars (ClientNetHint r) = Some s -> base s ∉ dom (strs h).
Proof.
  unfold alloc_resp.
  destruct (match rec_ServiceRanks v with
            | Some prs => _
            | None => (None, h)
            end) as [sr h1] eqn:Hsr.
  assert (H1 : heap_le h h1 /\ u32s h1 = u32s h /\ strs h1 = strs h /\ resps h1 = resps h).
  { destruct (rec_ServiceRanks v) as [prs|].
    - pose proof (alloc_cells_subseteq prs (psrs h) (psrs h) (reflexivity _)) as Hps.
      destruct (alloc_cells prs (psrs h)) as [ls ps].
      pose proof (alloc_slice_owned (Some (map Some ls)) (ptrs h) (ptrs h) (reflexivity _))
        as [Hpa _].
      destruct (alloc_slice (Some (map Some ls)) (ptrs h)) as [s pa].
      injection Hsr as <- <-. by repeat split.
    - injection Hsr as <- <-. split; [apply heap_le_refl|done]. }
  destruct H1 as ((L1 & L2 & L3 & L4 & L5 & L6) & Hu & Hs & Hrs).
  pose proof (alloc_slice_owned (rec_MSRanks v) (u32s h) (u32s h1)) as Hms.
  rewrite Hu in Hms. specialize (Hms (reflexivity _)). destruct Hms as [Hms _].
  rewrite Hu. destruct (alloc_slice (rec_MSRanks v) (u32s h)) as [ms u].
  pose proof (alloc_slice_owned (rec_EnvVars v) (strs h) (strs h1)) as Hev.
  rewrite Hs in Hev. specialize (Hev (reflexivity _)). destruct Hev as [Hev Hbase].
  rewrite Hs. destruct (alloc_slice (rec_EnvVars v) (strs h)) as [ev st].
  unfold alloc_cell. cbn [fst snd] in *. rewrite Hrs.
  split; [|split].
  - repeat split; try done. cbn. apply insert_subseteq, not_elem_of_dom, is_fresh.
  - apply is_fresh.
  - intros r s. cbn [resps set_resps]. rewrite lookup_insert_eq. intros [= <-]. cbn.
    apply Hbase.
Qed.

Lemma append_EnvVars_owned (l : loc) (x : string) (h0 h : Heap) :
  heap_le h0 h -> (l ∉ dom (resps h0)) ->
  (forall r s, resps h !! l = Some r -> EnvVars (ClientNetHint r) = Some s ->
               base s ∉ dom (strs h0)) ->
  heap_le h0 (append_EnvVars l x h) /\
  (forall r s, resps (append_EnvVars l x h) !! l = Some r ->
               EnvVars (ClientNetHint r) = Some s -> base s ∉ dom (strs h0)).
Proof.
  intros (L1 & L2 & L3 & L4 & L5 & L6) Hl Hown. unfold append_EnvVars.
  destruct (resps h !! l) as [r|] eqn:Hr.
  2:{ split; [done|]. intros r s. by rewrite Hr. }
  destruct (append_owned (EnvVars (ClientNetHint r)) x (strs h0) (strs h) L3
              (fun s => Hown r s eq_refl)) as [Hsub Hbase].
  destruct (append (EnvVars (ClientNetHint r)) x (strs h)) as [ev st]. cbn [fst snd] in *.
  split.
  - repeat split; try done. cbn.
    apply insert_subseteq_r; [by apply not_elem_of_dom|done].
  - intros r' s. cbn [resps set_resps]. rewrite lookup_insert_eq. intros [= <-]. cbn.
    apply Hbase.
Qed.

Lemma addTelemetrySettings_owned (l : loc) (h0 : Heap) (w : World) :
  heap_le h0 (heap w) -> (l ∉ dom (resps h0)) ->
  (forall r s, resps (heap w) !! l = Some r -> EnvVars (ClientNetHint r) = Some s ->
               base s ∉ dom (strs h0)) ->
  heap_le h0 (heap (snd (addTelemetrySettings (Some l) w))).
Proof.
  intros Hle Hl Hown. unfold addTelemetrySettings.
  destruct (ic w) as [c|]; [|done].
  destruct (clientTelemetryEnabled c); [|done].
  destruct (append_EnvVars_owned l (ClientMetricsEnabledEnv +:+ "=1") h0 (heap w) Hle Hl Hown)
    as [Hle1 Hown1].
  destruct (clientTelemetryRetain c); cbn [snd heap set_heap]; [|done].
  by apply append_EnvVars_owned.
Qed.

Lemma getAttachInfo_heap_le cl req (w : World) :
  let r := InfoCache_getAttachInfo cl req w in
  heap_le (heap w) (heap (snd r)) /\
  forall l, fst (fst r) = Some l -> l ∉ dom (resps (heap w)).
Proof.
  cbv zeta. unfold InfoCache_getAttachInfo.
  destruct (ic w) as [c|]; [|split; [apply heap_le_refl|done]].
  destruct (getAttachInfoCb c) as [cb|]; [|split; [apply heap_le_refl|done]].
  unfold bind, call_AttachInfoCollab.
  destruct (cb cl req (length (rpcLog w))) as [v|e]; [|split; [apply heap_le_refl|done]].
  destruct (alloc_resp_owned v (heap w)) as (Hle & Hl & Hown).
  destruct (alloc_resp v (heap w)) as [l h1]. cbn [fst snd] in *.
  set (w1 := set_heap h1 (set_rpcLog (rpcLog w ++ [(cl, req)]) w)).
  pose proof (addTelemetrySettings_owned l (heap w) w1 Hle Hl Hown) as Hle2.
  destruct (addTelemetrySettings (Some l) w1) as [[] w2]. cbn [fst snd] in *.
  split; [done|]. by intros ? [= <-].
Qed.

Lemma attach_refresh_bound (c : InfoCache) (cb : AttachInfoCollab) (cai : cachedAttachInfo)
    (w : World) :
  ic w = Some c -> getAttachInfoCb c = Some cb ->
  ai_fetch cai = InfoCache_getAttachInfo_fn ->
  negb (isCached (ai_cacheItem cai)) || isStale (clock w) (ai_cacheItem cai) = true ->
  let req := {| req_System := system cai; AllRanks := true |} in
  match cb (rpcClient cai) req (length (rpcLog w)) with
  | inr e =>
      Item_RefreshIfNeeded (AttachItem cai) w =
        ((AttachItem cai,
          (true, Some (errors_Wrap e "refreshing cached attach info failed"))),
         set_rpcLog (rpcLog w ++ [(rpcClient cai, req)]) w)
  | inl v =>
      exists o r w2,
        Item_RefreshIfNeeded (AttachItem cai) w =
          ((AttachItem (attach_cached (Some o) (clock w) cai), (true, None)), w2) /\
        (o ∉ dom (resps (heap w))) /\ heap_le (heap w) (heap w2) /\
        resps (heap w2) !! o = Some r /\ wf_resp (heap w2) r /\
        Provider (ClientNetHint r) = rec_Provider v /\
        elems (strs (heap w2)) (EnvVars (ClientNetHint r)) =
          default [] (rec_EnvVars v) ++ telemetry_vars c /\
        ic w2 = ic w /\ items w2 = items w /\ clock w2 = clock w /\
        rpcLog w2 = rpcLog w ++ [(rpcClient cai, req)] /\ scanLog w2 = scanLog w
  end.
Proof.
  intros Hc Hcb Hfetch Hneed req.
  assert (Hunfold : Item_RefreshIfNeeded (AttachItem cai) w =
            (let '((resp, err), w1) := InfoCache_getAttachInfo (rpcClient cai) req w in
             match err with
             | Some e =>
                 ((AttachItem cai,
                   (true, Some (errors_Wrap e "refreshing cached attach info failed"))), w1)
             | None => ((AttachItem (attach_cached resp (clock w1) cai), (true, None)), w1)
             end)).
  { unfold Item_RefreshIfNeeded, bind. rewrite (attach_RefreshIfNeeded_needed cai w Hneed).
    unfold cachedAttachInfo_refresh, bind. rewrite Hfetch.
    change (call_getAttachInfoFn InfoCache_getAttachInfo_fn (rpcClient cai)
              {| req_System := system cai; AllRanks := true |} w)
      with (InfoCache_getAttachInfo (rpcClient cai) req w).
    destruct (InfoCache_getAttachInfo (rpcClient cai) req w) as [[resp [e|]] w1]; reflexivity. }
  rewrite Hunfold.
  destruct (cb (rpcClient cai) req (length (rpcLog w))) as [v|e] eqn:Hv.
  - destruct (getAttachInfo_fetched c cb (rpcClient cai) req v w Hc Hcb Hv)
      as (o & r & w2 & Hcall & Hr & Hwf & Hp & He & Hic & Hit & Hclk & Hlog & Hscan).
    pose proof (getAttachInfo_heap_le (rpcClient cai) req w) as Hle. cbv zeta in Hle.
    rewrite Hcall in Hle. cbn [fst snd] in Hle. destruct Hle as [Hle Hfresh].
    exists o, r, w2. rewrite Hcall, Hclk. split; [done|]. split; [by apply Hfresh|].
    by split_done.
  - unfold InfoCache_getAttachInfo. rewrite Hc, Hcb. unfold bind, call_AttachInfoCollab.
    by rewrite Hv.
Qed.

(** X17: a stale entry is never served.  When the cached response of a
    system has gone stale and the fetch that [GetAttachInfo] then makes
    fails, the caller gets the error and no record: the old response is
    not handed out.  The entry stays as it was, with its old response and
    its old time, so that the next call fetches again. *)
Theorem stale_entry_not_served (sys : string) (w : World) (c : InfoCache)
    (cb : AttachInfoCollab) (cai : cachedAttachInfo) (e : error) :
  let eff := if String.eqb sys "" then DefaultSystemName else sys in
  let req := {| req_System := system cai; AllRanks := true |} in
  ic w = Some c -> attachInfoCacheDisabled c = false ->
  getAttachInfoCb c = Some cb ->
  items w !! sysAttachInfoKey eff = Some (AttachItem cai) ->
  ai_fetch cai = InfoCache_getAttachInfo_fn ->
  isStale (clock w) (ai_cacheItem cai) = true ->
  cb (rpcClient cai) req (length (rpcLog w)) = inr e ->
  InfoCache_GetAttachInfo sys w =
    ((None, Some (errors_Wrap (errors_Wrap e "refreshing cached attach info failed")
                    "getting attach info from cache")),
     set_rpcLog (rpcLog w ++ [(rpcClient cai, req)]) w).
Proof.
  intros eff req Hc Hen Hcb Hit Hfetch Hstale Hv.
  rewrite (GetAttachInfo_enabled sys w c Hc Hen). cbv zeta. fold eff.
  rewrite (GetOrCreate_tracked _ _ (AttachItem cai) w Hit).
  assert (Hneed : negb (isCached (ai_cacheItem cai)) || isStale (clock w) (ai_cacheItem cai)
                  = true) by (rewrite Hstale; apply orb_true_r).
  pose proof (attach_refresh_bound c cb cai w Hc Hcb Hfetch Hneed) as Hb.
  cbv zeta in Hb. fold req in Hb. rewrite Hv in Hb. rewrite Hb. cbn [fst snd items set_rpcLog].
  rewrite (insert_id _ _ _ Hit). f_equal; by destruct w.
Qed.

(** X18: a stale entry is replaced, not edited.  When the cached response
    of a system has gone stale and the fetcher answers, [GetAttachInfo]
    fetches once and the answer becomes the cached response, in a new
    record: whatever was in memory before the call, the old cached record
    and the records handed out earlier among it, is unchanged.  The entry
    is dated with the time of the call and keeps its refresh interval, and
    the caller gets a copy of the new response. *)
Theorem stale_entry_replaced (sys : string) (w : World) (c : InfoCache)
    (cb : AttachInfoCollab) (cai : cachedAttachInfo) (v : AttachInfoRecord) :
  let eff := if String.eqb sys "" then DefaultSystemName else sys in
  let req := {| req_System := system cai; AllRanks := true |} in
  ic w = Some c -> attachInfoCacheDisabled c = false ->
  getAttachInfoCb c = Some cb ->
  items w !! sysAttachInfoKey eff = Some (AttachItem cai) ->
  ai_fetch cai = InfoCache_getAttachInfo_fn ->
  isStale (clock w) (ai_cacheItem cai) = true ->
  cb (rpcClient cai) req (length (rpcLog w)) = inl v ->
  exists cp o r rcp w',
    InfoCache_GetAttachInfo sys w = ((Some cp, None), w') /\
    rpcLog w' = rpcLog w ++ [(rpcClient cai, req)] /\
    heap_le (heap w) (heap w') /\
    (o ∉ dom (resps (heap w))) /\ (cp ∉ dom (resps (heap w))) /\ cp <> o /\
    items w' = <[sysAttachInfoKey eff := AttachItem (attach_cached (Some o) (clock w) cai)]>
                 (items w) /\
    refreshInterval (ai_cacheItem (attach_cached (Some o) (clock w) cai)) =
      refreshInterval (ai_cacheItem cai) /\
    resps (heap w') !! o = Some r /\
    elems (strs (heap w')) (EnvVars (ClientNetHint r)) =
      default [] (rec_EnvVars v) ++ telemetry_vars c /\
    resps (heap w') !! cp = Some rcp /\
    elems (strs (heap w')) (EnvVars (ClientNetHint rcp)) =
      default [] (rec_EnvVars v) ++ telemetry_vars c.
Proof.
  intros eff req Hc Hen Hcb Hit Hfetch Hstale Hv.
  rewrite (GetAttachInfo_enabled sys w c Hc Hen). cbv zeta. fold eff.
  rewrite (GetOrCreate_tracked _ _ (AttachItem cai) w Hit).
  assert (Hneed : negb (isCached (ai_cacheItem cai)) || isStale (clock w) (ai_cacheItem cai)
                  = true) by (rewrite Hstale; apply orb_true_r).
  pose proof (attach_refresh_bound c cb cai w Hc Hcb Hfetch Hneed) as Hb.
  cbv zeta in Hb. fold req in Hb. rewrite Hv in Hb.
  destruct Hb as (o & r & w2 & Hrin & Hfresh & Hle & Hr & Hwf & _ & He & _ & Hitems & _
                  & Hlog & _).
  rewrite Hrin. cbn [fst snd lastResponse attach_cached heap set_items].
  destruct (copyGetAttachInfoResp_spec o r (heap w2) Hr Hwf)
    as (cp & ms & sr & ev & h' & Hcopy & Hcpfresh & Hrcp & Hle2 & _ & _ & _ & _ & _ & _ & _
        & Hel & Hwfcp).
  rewrite Hcopy. cbn [fst snd].
  assert (Hro : resps h' !! o = Some r).
  { destruct Hle2 as (_ & _ & _ & _ & L & _). by eapply lookup_weaken. }
  eexists cp, o, r, _, _. split; [reflexivity|]. cbn [rpcLog heap items set_heap set_items].
  split; [done|]. split; [by eapply heap_le_trans|]. split; [done|].
  split.
  { intros Hin. apply Hcpfresh. destruct Hle as (_ & _ & _ & _ & L & _).
    by apply (subseteq_dom _ _ L). }
  split.
  { intros ->. apply Hcpfresh. apply elem_of_dom. eauto. }
  split; [by rewrite Hitems|]. split; [done|]. split; [done|].
  split.
  { destruct Hwf as (_ & _ & W), Hle2 as (_ & _ & L & _).
    destruct (elems_weaken _ _ _ W L) as [-> _]. exact He. }
  split; [exact Hrcp|]. cbn. by rewrite Hel.
Qed.

Lemma attach_refresh_fetched (c : InfoCache) (cb : AttachInfoCollab) (cai : cachedAttachInfo)
    (v : AttachInfoRecord) (w : World) :
  ic w = Some c -> getAttachInfoCb c = Some cb ->
  ai_fetch cai = InfoCache_getAttachInfo_fn ->
  let req := {| req_System := system cai; AllRanks := true |} in
  cb (rpcClient cai) req (length (rpcLog w)) = inl v ->
  exists o r w2,
    cachedAttachInfo_refresh (Some cai) w =
      ((Some (attach_cached (Some o) (clock w) cai), None), w2) /\
    (o ∉ dom (resps (heap w))) /\ heap_le (heap w) (heap w2) /\
    resps (heap w2) !! o = Some r /\ wf_resp (heap w2) r /\
    elems (strs (heap w2)) (EnvVars (ClientNetHint r)) =
      default [] (rec_EnvVars v) ++ telemetry_vars c /\
    ic w2 = ic w /\ items w2 = items w /\ clock w2 = clock w /\
    rpcLog w2 = rpcLog w ++ [(rpcClient cai, req)] /\ scanLog w2 = scanLog w.
Proof.
  intros Hc Hcb Hfetch req Hv.
  destruct (getAttachInfo_fetched c cb (rpcClient cai) req v w Hc Hcb Hv)
    as (o & r & w2 & Hcall & Hr & Hwf & Hp & He & Hic & Hit & Hclk & Hlog & Hscan).
  pose proof (getAttachInfo_heap_le (rpcClient cai) req w) as Hle. cbv zeta in Hle.
  rewrite Hcall in Hle. cbn [fst snd] in Hle. destruct Hle as [Hle Hfresh].
  exists o, r, w2. split.
  { unfold cachedAttachInfo_refresh, bind. rewrite Hfetch.
    change (call_getAttachInfoFn InfoCache_getAttachInfo_fn (rpcClient cai)
              {| req_System := system cai; AllRanks := true |} w)
      with (InfoCache_getAttachInfo (rpcClient cai) req w).
    rewrite Hcall. unfold time_Now, ret. by rewrite Hclk. }
  split; [by apply Hfresh|]. by split_done.
Qed.

(** X19: [Refresh] of the facade fetches again what is still fresh.  For a
    cache that tracks one attach-info entry which is cached and not
    stale, so that a read would not fetch, [Refresh] calls the fetcher
    once, for the system of the entry and for all ranks, and returns no
    error.  The answer, with the telemetry variables, becomes the cached
    response, in a new record, and the entry is dated with the time of
    the call; what was in memory before is unchanged. *)
Theorem facade_Refresh_refetches (w : World) (c : InfoCache) (cb : AttachInfoCollab)
    (cai : cachedAttachInfo) (key : string) (v : AttachInfoRecord) :
  let req := {| req_System := system cai; AllRanks := true |} in
  ic w = Some c -> attachInfoCacheDisabled c = false ->
  getAttachInfoCb c = Some cb ->
  items w = {[ key := AttachItem cai ]} ->
  String.prefix attachInfoKey key = true ->
  ai_fetch cai = InfoCache_getAttachInfo_fn ->
  isCached (ai_cacheItem cai) = true -> isStale (clock w) (ai_cacheItem cai) = false ->
  cb (rpcClient cai) req (length (rpcLog w)) = inl v ->
  Item_RefreshIfNeeded (AttachItem cai) w = ((AttachItem cai, (false, None)), w) /\
  exists o r w',
    InfoCache_Refresh w = (None, w') /\
    rpcLog w' = rpcLog w ++ [(rpcClient cai, req)] /\
    items w' = {[ key := AttachItem (attach_cached (Some o) (clock w) cai) ]} /\
    (o ∉ dom (resps (heap w))) /\ heap_le (heap w) (heap w') /\
    resps (heap w') !! o = Some r /\
    elems (strs (heap w')) (EnvVars (ClientNetHint r)) =
      default [] (rec_EnvVars v) ++ telemetry_vars c.
Proof.
  intros req Hc Hen Hcb Hitems Hprefix Hfetch Hcached Hfresh Hv. split.
  { unfold Item_RefreshIfNeeded, bind. by rewrite attach_RefreshIfNeeded_fresh. }
  destruct (attach_refresh_fetched c cb cai v w Hc Hcb Hfetch Hv)
    as (o & r & w2 & Href & Hofresh & Hle & Hr & _ & He & _ & Hit2 & _ & Hlog & _).
  assert (Hkey : key <> fabricKey) by (intros ->; by vm_compute in Hprefix).
  exists o, r, (set_items (<[key := AttachItem (attach_cached (Some o) (clock w) cai)]>
                            (items w2)) w2).
  split.
  { unfold InfoCache_Refresh. rewrite Hc.
    unfold bind, IsAttachInfoCacheEnabled, IsFabricCacheEnabled, ItemCache_Has, ItemCache_Keys.
    rewrite Hc, Hen. cbn [negb andb fst snd]. rewrite Hc. cbv beta iota zeta.
    rewrite Hitems, map_to_list_singleton.
    rewrite lookup_singleton_ne by done.
    rewrite bool_decide_eq_false_2 by (by intros [? ?]).
    rewrite andb_false_r. cbn [fmap list_fmap fst app].
    rewrite filter_cons_True by done. rewrite filter_nil.
    cbn [ItemCache_Refresh]. unfold bind, get_world. rewrite Hitems, lookup_singleton_eq.
    unfold Item_Refresh, bind, cachedAttachInfo_Refresh. rewrite Href.
    unfold ret, modify. cbn [fst snd default from_option]. reflexivity. }
  cbn [rpcLog items heap set_items]. split; [done|].
  split; [by rewrite Hit2, Hitems, insert_singleton_eq|]. by split_done.
Qed.

End Agent.

(** ** The statically seeded fabric cache *)

Lemma FindDevice_by_name_found (l : loc) (m : gmap Z (list FabricInterface))
    (p : FabricIfaceParams) (h : Heap) (numa : Z) (fis : list FabricInterface)
    (fi : FabricInterface) :
  fabrics h !! l = Some m -> m !! numa = Some fis -> fi ∈ fis -> Name fi = Interface p ->
  exists fi' rest,
    FindDevice_by_name (Some l) p h = (fi' :: rest, None) /\
    Name fi' = Interface p /\
    exists numa' fis', m !! numa' = Some fis' /\ fi' ∈ fis'.
Proof.
  intros Hl Hm Hin Hname. unfold FindDevice_by_name, NUMAFabric_LockedMap. rewrite Hl.
  assert (Hfound : fi ∈ filter (fun fi => Name fi = Interface p) (mjoin ((map_to_list m).*2))).
  { apply list_elem_of_filter. split; [done|].
    apply list_elem_of_join. exists fis. split; [done|].
    apply list_elem_of_fmap. exists (numa, fis). split; [done|].
    by apply elem_of_map_to_list. }
  destruct (filter _ _) as [|fi' rest] eqn:Hflt; [by apply elem_of_nil in Hfound|].
  exists fi', rest. split; [done|].
  assert (Hfi' : fi' ∈ filter (fun fi => Name fi = Interface p) (mjoin ((map_to_list m).*2)))
    by (rewrite Hflt; apply list_elem_of_here).
  apply list_elem_of_filter in Hfi' as [Hn Hc]. split; [done|].
  apply list_elem_of_join in Hc as (fis' & Hin' & Hfis').
  apply list_elem_of_fmap in Hfis' as ([numa' fis2] & -> & Hml).
  apply elem_of_map_to_list in Hml. eauto.
Qed.

(** C6: a fabric entry that has been cached answers [RefreshIfNeeded] with
    (false, nil) and no fetch, whatever the clock and its refresh interval
    say.  The entry that [EnableStaticFabricCache] installs is such an
    entry, with a fetch function that returns the seeded fabric; after it,
    at any later time, [GetFabricDevice] for an interface named in the
    seeded map returns an interface of that name from the map, and neither
    the scanner nor the readiness waiter has been called. *)
Theorem static_fabric_never_rescanned
    (EnabledEnv RetainEnv : string)
    (wait : WaitFabricReadyParams -> nat -> option error)
    (getDevice : option loc -> FabricIfaceParams -> M (option FabricInterface * option error)) :
  (forall (cfi : cachedFabricInfo) (w : World),
      isCached (fi_cacheItem cfi) = true ->
      cachedFabricInfo_RefreshIfNeeded (Some cfi) w = ((Some cfi, (false, None)), w))
  /\ (forall (w : World) (c : InfoCache) (l : loc) (m : gmap Z (list FabricInterface))
             (p : FabricIfaceParams) (numa : Z) (fis : list FabricInterface)
             (fi : FabricInterface) (later : Time),
        ic w = Some c -> clock w <> Time_zero ->
        fabrics (heap w) !! l = Some m ->
        m !! numa = Some fis -> fi ∈ fis -> Name fi = Interface p -> Interface p <> "" ->
        let w1 := set_clock later (snd (EnableStaticFabricCache (Some l) w)) in
        exists cfi fi',
          items w1 !! fabricKey = Some (FabricItem cfi) /\
          isCached (fi_cacheItem cfi) = true /\
          fetch cfi = static_fn (Some l) /\ lastResults cfi = Some l /\
          InfoCache_GetFabricDevice EnabledEnv RetainEnv wait FindDevice_by_name getDevice
            (Some p) w1 = (Returned (Some fi') None, w1) /\
          Name fi' = Interface p /\
          (exists numa' fis', m !! numa' = Some fis' /\ fi' ∈ fis') /\
          scanLog w1 = scanLog w /\ waitLog w1 = waitLog w).
Proof.
  split; [apply fabric_RefreshIfNeeded_cached|].
  intros w c l m p numa fis fi later Hc Hclk Hl Hm Hin Hname Hne w1.
  subst w1. rewrite (EnableStaticFabricCache_spec c (Some l) w Hc). cbn [snd].
  set (cfi := {| fi_cacheItem := {| lastCached := clock w; refreshInterval := 0%Z |};
                 fetch := static_fn (Some l); providers := []; devClass := 0%Z;
                 lastResults := Some l |}).
  set (w1 := set_clock later _).
  assert (Hit : items w1 !! fabricKey = Some (FabricItem cfi)) by apply lookup_insert_eq.
  assert (Hcached : isCached (fi_cacheItem cfi) = true) by by apply isCached_true_iff.
  destruct (FindDevice_by_name_found l m p (heap w1) numa fis fi Hl Hm Hin Hname)
    as (fi' & rest & Hfind & Hn & Hmem).
  exists cfi, fi'. split; [exact Hit|]. split; [exact Hcached|].
  split; [done|]. split; [done|]. split.
  - rewrite (GetFabricDevice_cached EnabledEnv RetainEnv wait FindDevice_by_name getDevice
               (with_fabricCacheDisabled false c) cfi p w1); try done.
    cbn [lastResults cfi]. by rewrite Hfind.
  - by repeat split.
Qed.

(** ** The statements at the sample inputs *)

(** C1 (the defect): with the attach-info sub-cache enabled, a fetched
    response whose provider is empty is not rejected.  [GetAttachInfo]
    returns a record and no error, and the response has become the cached
    master with the time of the fetch; the same response on the bypass
    path is refused. *)
Theorem cached_path_accepts_empty_provider :
  let GetAttachInfo :=
    InfoCache_GetAttachInfo Sample.defaultSystem Sample.EnabledEnv Sample.RetainEnv in
  let cached := GetAttachInfo "daos_server"
                  (Sample.world (Some (Sample.facade false false (Some (Sample.answers "")))) 100%Z) in
  let bypass := GetAttachInfo "daos_server"
                  (Sample.world (Some (Sample.facade true true (Some (Sample.answers "")))) 100%Z) in
  snd (fst cached) = None /\
  is_Some (fst (fst cached)) /\
  resp_Provider (heap (snd cached)) (fst (fst cached)) = "" /\
  is_Some (master_of "GetAttachInfo-daos_server" (snd cached)) /\
  resp_Provider (heap (snd cached)) (master_of "GetAttachInfo-daos_server" (snd cached)) = "" /\
  (exists cai, items (snd cached) !! "GetAttachInfo-daos_server" = Some (AttachItem cai) /\
               lastCached (ai_cacheItem cai) = 100%Z) /\
  fst bypass = (None, Some (errors_New "GetAttachInfo response contained no provider")).
Proof.
  cbv zeta. split; [by vm_compute|]. split; [vm_compute; eauto|].
  split; [by vm_compute|]. split; [vm_compute; eauto|]. split; [by vm_compute|].
  split; [|by vm_compute].
  eexists. split; [vm_compute; reflexivity|]. reflexivity.
Qed.

(** Against C2 as stated: the record that a second call returns is used to
    write the URI of its first service rank, and the master record of the
    cache and the record returned by the first call both show the new URI. *)
Lemma shared_rank_records_counterexample :
  let GetAttachInfo :=
    InfoCache_GetAttachInfo Sample.defaultSystem Sample.EnabledEnv Sample.RetainEnv in
  let w0 := Sample.world (Some (Sample.facade false false (Some (Sample.answers "ofi+tcp")))) 100%Z in
  let first := GetAttachInfo "daos_server" w0 in
  let second := GetAttachInfo "daos_server" (snd first) in
  let w2 := snd second in
  let master := master_of "GetAttachInfo-daos_server" w2 in
  let tampered := caller_set_Uri (fst (fst second)) 0 "tampered" (heap w2) in
  length (rpcLog w2) = 1 /\
  fst (fst second) <> master /\ fst (fst second) <> fst (fst first) /\
  read_Uri master 0 (heap w2) = Some "ofi+tcp://10.0.0.1:31416" /\
  read_Uri master 0 tampered = Some "tampered" /\
  read_Uri (fst (fst first)) 0 tampered = Some "tampered".
Proof. cbv zeta. repeat split; by vm_compute. Qed.

(** Against C4 as stated: when the current time equals last-fetch-time plus
    the interval, the code finds the entry fresh, and the rule of the
    specification finds it stale. *)
Lemma staleness_boundary_counterexample :
  let item := {| lastCached := 10%Z; refreshInterval := 5%Z |} in
  negb (isStale 15%Z item) = true /\ fresh_by_spec 15%Z item = false.
Proof. by vm_compute. Qed.

Lemma GetAttachInfo_copy_witness :
  let GetAttachInfo :=
    InfoCache_GetAttachInfo Sample.defaultSystem Sample.EnabledEnv Sample.RetainEnv in
  let c := Sample.facade false false (Some (Sample.answers "ofi+tcp")) in
  let w := set_clock 5000%Z (snd (GetAttachInfo "" (Sample.world (Some c) 100%Z))) in
  ic w = Some c /\ attachInfoCacheDisabled c = false /\
  exists cp w',
    GetAttachInfo "" w = ((Some cp, None), w') /\
    Some cp <> master_of "GetAttachInfo-daos_server" w /\
    items w' = items w /\ heap_le (heap w) (heap w').
Proof.
  cbv zeta. split; [by_computation|]. split; [by_computation|].
  edestruct (GetAttachInfo_copy Sample.defaultSystem Sample.EnabledEnv Sample.RetainEnv ""
               (set_clock 5000%Z
                  (snd (InfoCache_GetAttachInfo Sample.defaultSystem Sample.EnabledEnv
                          Sample.RetainEnv ""
                          (Sample.world
                             (Some (Sample.facade false false (Some (Sample.answers "ofi+tcp"))))
                             100%Z))))
               (Sample.facade false false (Some (Sample.answers "ofi+tcp"))))
    as (cp & r' & w' & Hcall & Hne & _ & _ & Hitems & Hle & _).
  - by_computation.
  - by_computation.
  - by_computation.
  - by_computation.
  - by_computation.
  - by_computation.
  - by_computation.
  - sample_wf.
  - exists cp, w'. split; [exact Hcall|]. split; [|by split].
    intros Heq. vm_compute in Heq. apply Hne. congruence.
Defined.


Lemma attach_entry_staleness_witness :
  let ci := Sample.entry (getAttachInfoFn_of (Sample.answers "ofi+tcp")) 10%Z 5%Z in
  let w := Sample.world None 15%Z in
  isCached (ai_cacheItem ci) = true /\ isStale (clock w) (ai_cacheItem ci) = false /\
  cachedAttachInfo_RefreshIfNeeded Sample.EnabledEnv Sample.RetainEnv (Some ci) w
    = ((Some ci, (false, None)), w).
Proof.
  cbv zeta. split; [by_computation|]. split; [by_computation|].
  apply (proj1 (proj2 (attach_entry_staleness Sample.EnabledEnv Sample.RetainEnv
                         (Sample.entry (getAttachInfoFn_of (Sample.answers "ofi+tcp")) 10%Z 5%Z)
                         (Sample.world None 15%Z)))); by_computation.
Defined.

Lemma fabric_refresh_filters_witness :
  let cfi := newCachedFabricInfo (fabricScanFn_of Sample.scans) 1%Z ["ofi+tcp"] in
  let w := Sample.world None 100%Z in
  fetch cfi = fabricScanFn_of Sample.scans /\
  Sample.scans (providers cfi) (length (scanLog w)) = inl Sample.topology /\
  exists l w' m',
    cachedFabricInfo_Refresh (Some cfi) w =
      ((Some (fabric_cached (Some l) 100%Z cfi), None), w') /\
    fabrics (heap w') !! l = Some m' /\
    m' !! 1%Z = None /\
    forall fis, m' !! 2%Z = Some fis -> Forall (fun fi => fi_NetDevClass fi = 1%Z) fis.
Proof.
  cbv zeta. split; [by_computation|]. split; [by_computation|].
  destruct (fabric_refresh_filters
              (newCachedFabricInfo (fabricScanFn_of Sample.scans) 1%Z ["ofi+tcp"])
              (Sample.world None 100%Z) Sample.scans Sample.topology eq_refl eq_refl)
    as (l & w' & m' & Href & Hm' & _ & Hall & Hgone).
  exists l, w', m'. split; [exact Href|]. split; [exact Hm'|]. split.
  - apply (Hgone 1%Z [Sample.ib0]); by_computation.
  - intros fis. apply Hall.
Defined.

Lemma static_fabric_never_rescanned_witness :
  let c := Sample.facade false true None in
  let w :=
    set_heap (set_fabrics (<[7 := Sample.seeded]> ∅) empty_heap)
      (Sample.world (Some c) 100%Z) in
  let w1 := set_clock 86400000000000%Z (snd (EnableStaticFabricCache (Some 7) w)) in
  ic w = Some c /\ clock w <> Time_zero /\
  exists fi',
    InfoCache_GetFabricDevice Sample.EnabledEnv Sample.RetainEnv Sample.ready
      FindDevice_by_name Sample.anyDevice (Some (Sample.wants "eth1")) w1
      = (Returned (Some fi') None, w1) /\
    Name fi' = "eth1" /\ scanLog w1 = [].
Proof.
  cbv zeta. split; [by_computation|]. split; [discriminate|].
  destruct (proj2 (static_fabric_never_rescanned Sample.EnabledEnv Sample.RetainEnv
                     Sample.ready Sample.anyDevice)
              (set_heap (set_fabrics (<[7 := Sample.seeded]> ∅) empty_heap)
                 (Sample.world (Some (Sample.facade false true None)) 100%Z))
              (Sample.facade false true None) 7 Sample.seeded (Sample.wants "eth1")
              1%Z [Sample.eth1] Sample.eth1 86400000000000%Z)
    as (cfi & fi' & _ & _ & _ & _ & Hget & Hname & _ & Hscan & _).
  - by_computation.
  - discriminate.
  - by_computation.
  - by_computation.
  - apply list_elem_of_here.
  - by_computation.
  - discriminate.
  - exists fi'. split; [exact Hget|]. split; [exact Hname|exact Hscan].
Defined.

Lemma bypass_fetch_all_ranks_witness :
  let c := Sample.facade true false (Some (Sample.answers "ofi+tcp")) in
  let w := Sample.world (Some c) 100%Z in
  let w' := snd (InfoCache_GetAttachInfo Sample.defaultSystem Sample.EnabledEnv
                   Sample.RetainEnv "sysA" w) in
  ic w = Some c /\ attachInfoCacheDisabled c = true /\
  rpcLog w' = [(1, {| req_System := "sysA"; AllRanks := true |})] /\
  items w' = items w.
Proof.
  cbv zeta. split; [by_computation|]. split; [by_computation|].
  destruct (bypass_fetch_all_ranks Sample.defaultSystem Sample.EnabledEnv Sample.RetainEnv
              "sysA"
              (Sample.world (Some (Sample.facade true false (Some (Sample.answers "ofi+tcp"))))
                 100%Z)
              (Sample.facade true false (Some (Sample.answers "ofi+tcp")))
              (Sample.answers "ofi+tcp") eq_refl eq_refl eq_refl)
    as (_ & Hlog & _ & Hitems & _).
  split; [exact Hlog|exact Hitems].
Defined.


Lemma telemetry_once_witness :
  let GetAttachInfo :=
    InfoCache_GetAttachInfo Sample.defaultSystem Sample.EnabledEnv Sample.RetainEnv in
  let c := Sample.facade false false (Some (Sample.answers "ofi+tcp")) in
  let w := snd (GetAttachInfo "" (Sample.world (Some c) 100%Z)) in
  let hits := GetAttachInfo_at Sample.defaultSystem Sample.EnabledEnv Sample.RetainEnv
                "" [200%Z; 5000%Z; 86400000000000%Z] w in
  ic w = Some c /\
  rpcLog (snd hits) = rpcLog w /\ items (snd hits) = items w /\
  heap_le (heap w) (heap (snd hits)) /\ length (fst hits) = 3.
Proof.
  cbv zeta.
  assert (Hc : ic (snd (InfoCache_GetAttachInfo Sample.defaultSystem Sample.EnabledEnv
                          Sample.RetainEnv ""
                          (Sample.world
                             (Some (Sample.facade false false
                                      (Some (Sample.answers "ofi+tcp")))) 100%Z)))
               = Some (Sample.facade false false (Some (Sample.answers "ofi+tcp"))))
    by by_computation.
  split; [exact Hc|].
  pose proof (proj2 (telemetry_once Sample.defaultSystem Sample.EnabledEnv Sample.RetainEnv
                       _ _ Hc)) as Hhits.
  edestruct (fun cai o r => Hhits "" cai o r [200%Z; 5000%Z; 86400000000000%Z])
    as (Hlog & Hitems & Hle & _ & _ & Hlen & _).
  - by_computation.
  - by_computation.
  - by_computation.
  - repeat constructor.
  - by_computation.
  - by_computation.
  - sample_wf.
  - split; [exact Hlog|]. split; [exact Hitems|]. split; [exact Hle|exact Hlen].
Defined.

Lemma GetFabricDevice_partial_witness :
  let GetFabricDevice :=
    InfoCache_GetFabricDevice Sample.EnabledEnv Sample.RetainEnv Sample.ready
      Sample.finds_nothing Sample.anyDevice in
  let c := Sample.facade false true None in
  let w := Sample.world (Some c) 100%Z in
  ic w = Some c /\ Interface (Sample.wants "eth9") <> "" /\
  fst (GetFabricDevice None w) =
    Panicked "invalid memory address or nil pointer dereference" /\
  fst (GetFabricDevice (Some (Sample.wants "eth9")) w) =
    Panicked "index out of range [0] with length 0".
Proof.
  cbv zeta. split; [by_computation|]. split; [discriminate|].
  pose proof (GetFabricDevice_partial Sample.EnabledEnv Sample.RetainEnv Sample.ready
                Sample.finds_nothing Sample.anyDevice
                (Sample.world (Some (Sample.facade false true None)) 100%Z))
    as (_ & Hnil & Hempty & _).
  split.
  - by rewrite (Hnil _ eq_refl).
  - erewrite Hempty; [by_computation | by_computation | discriminate | vm_compute; reflexivity
                     | by_computation].
Defined.

(** ** The further properties on the sample inputs *)

Lemma attach_info_keys_witness :
  "sysA" <> "" /\
  cachedAttachInfo_Key (Some (newCachedAttachInfo 0%Z "sysA" 1 InfoCache_getAttachInfo_fn))
    = sysAttachInfoKey "sysA".
Proof.
  split; [discriminate|].
  apply (proj1 (proj2 (proj2 attach_info_keys))). discriminate.
Defined.

Lemma filterDevClass_idempotent_witness :
  let h := set_fabrics (<[7 := Sample.topology]> ∅) empty_heap in
  fabrics h !! 7 = Some Sample.topology /\
  exists h1,
    filterDevClass 1%Z (Some 7) h = (None, h1) /\
    filterDevClass 1%Z (Some 7) h1 = (None, h1).
Proof.
  cbv zeta. split; [by_computation|].
  destruct (filterDevClass_idempotent 1%Z 7
              (set_fabrics (<[7 := Sample.topology]> ∅) empty_heap) Sample.topology)
    as (h1 & H1 & H2 & _).
  - by_computation.
  - exists h1. split; [exact H1|exact H2].
Defined.

Lemma static_entry_forced_refresh_witness :
  let c := Sample.facade false true None in
  let w :=
    set_heap (set_fabrics (<[7 := Sample.seeded]> ∅) empty_heap)
      (Sample.world (Some c) 100%Z) in
  let w1 := snd (EnableStaticFabricCache (Some 7) w) in
  ic w = Some c /\ fabrics (heap w) !! 7 = Some Sample.seeded /\
  exists cfi cfi' w2 m',
    items w1 !! fabricKey = Some (FabricItem cfi) /\
    cachedFabricInfo_Refresh (Some cfi) w1 = ((Some cfi', None), w2) /\
    scanLog w2 = [] /\
    fabrics (heap w2) !! 7 = Some m' /\ m' !! 0%Z = None /\ m' !! 1%Z = None.
Proof.
  cbv zeta. split; [by_computation|]. split; [by_computation|].
  destruct (static_entry_forced_refresh
              (set_heap (set_fabrics (<[7 := Sample.seeded]> ∅) empty_heap)
                 (Sample.world (Some (Sample.facade false true None)) 100%Z))
              (Sample.facade false true None) 7 Sample.seeded)
    as (cfi & cfi' & w2 & m' & Hit & Href & Hscan & _ & _ & _ & Hm' & Hfilt & _).
  - by_computation.
  - by_computation.
  - exists cfi, cfi', w2, m'. split; [exact Hit|]. split; [exact Href|].
    split; [exact Hscan|]. split; [exact Hm'|].
    split; (etrans; [apply Hfilt|by_computation]).
Defined.

Lemma cached_fabric_ignores_request_witness :
  let c := Sample.facade false false None in
  let w :=
    set_heap (set_fabrics (<[7 := Sample.seeded]> ∅) empty_heap)
      (Sample.world (Some (Sample.facade false true None)) 100%Z) in
  let w1 := snd (EnableStaticFabricCache (Some 7) w) in
  ic w1 = Some c /\ fabricCacheDisabled c = false /\
  InfoCache_getNUMAFabric Sample.EnabledEnv Sample.RetainEnv Sample.ready c 32%Z
    ["ofi+verbs"] w1 = ((Some 7, None), w1) /\
  InfoCache_getNUMAFabric Sample.EnabledEnv Sample.RetainEnv Sample.ready c 1%Z
    ["ofi+tcp"] w1 = ((Some 7, None), w1).
Proof.
  cbv zeta. split; [by_computation|]. split; [by_computation|].
  split.
  - refine (proj1 (cached_fabric_ignores_request Sample.EnabledEnv Sample.RetainEnv
                     Sample.ready _ (Sample.facade false false None)
                     {| fi_cacheItem := {| lastCached := 100%Z; refreshInterval := 0%Z |};
                        fetch := static_fn (Some 7); providers := []; devClass := 0%Z;
                        lastResults := Some 7 |} 32%Z ["ofi+verbs"] _ _ _ _));
      by_computation.
  - refine (proj1 (cached_fabric_ignores_request Sample.EnabledEnv Sample.RetainEnv
                     Sample.ready _ (Sample.facade false false None)
                     {| fi_cacheItem := {| lastCached := 100%Z; refreshInterval := 0%Z |};
                        fetch := static_fn (Some 7); providers := []; devClass := 0%Z;
                        lastResults := Some 7 |} 1%Z ["ofi+tcp"] _ _ _ _));
      by_computation.
Defined.

Lemma waitFabricReady_selects_witness :
  let c := Sample.facade false true None in
  let w := Sample.world (Some c) 100%Z in
  netIfaces c = inl ["eth0"; "eth1"; "ib0"] /\
  InfoCache_waitFabricReady Sample.ready c 32%Z w =
    (None,
     set_waitLog [{| FabricIfaces := ["ib0"]; IgnoreUnusable := true;
                     IterationSleep := 1000000000%Z |}] w) /\
  InfoCache_waitFabricReady Sample.ready c 64%Z w = (None, w).
Proof.
  cbv zeta. split; [reflexivity|].
  pose proof (waitFabricReady_selects Sample.ready (Sample.facade false true None))
    as Hsel.
  split.
  - etrans.
    + apply (proj2 (Hsel 32%Z (Sample.world (Some (Sample.facade false true None)) 100%Z)
                      ["eth0"; "eth1"; "ib0"]
                      (fun name => if String.eqb name "ib0" then 32%Z else 1%Z)
                      eq_refl (fun _ _ => eq_refl))).
      by_computation.
    + by_computation.
  - apply (proj1 (Hsel 64%Z (Sample.world (Some (Sample.facade false true None)) 100%Z)
                    ["eth0"; "eth1"; "ib0"]
                    (fun name => if String.eqb name "ib0" then 32%Z else 1%Z)
                    eq_refl (fun _ _ => eq_refl))).
    by_computation.
Defined.

Lemma waitFabricReady_errors_witness :
  let w := Sample.world None 100%Z in
  netIfaces (Faulty.unlistable true) = inr (errors_New "netlink unavailable") /\
  devClassGetter Faulty.unclassified "eth1" = inr (errors_New "no such device") /\
  InfoCache_waitFabricReady Sample.ready (Faulty.unlistable true) 1%Z w =
    (Some (errors_Wrap (errors_New "netlink unavailable") "getting net interfaces"), w) /\
  InfoCache_waitFabricReady Sample.ready Faulty.unclassified 32%Z w =
    (Some (errors_Wrap (errors_New "no such device") "getting device class for %s"), w).
Proof.
  cbv zeta. split; [reflexivity|]. split; [reflexivity|]. split.
  - apply (proj1 (waitFabricReady_errors Sample.ready (Faulty.unlistable true) 1%Z
                    (Sample.world None 100%Z))).
    reflexivity.
  - apply (proj2 (waitFabricReady_errors Sample.ready Faulty.unclassified 32%Z
                    (Sample.world None 100%Z))
             ["eth0"] "eth1" ["ib0"]).
    + reflexivity.
    + intros n Hn. exists 1%Z. apply list_elem_of_singleton in Hn as ->. reflexivity.
    + reflexivity.
Defined.

Lemma uncached_fabric_is_unfiltered_witness :
  let c := Sample.facade false true None in
  let w := Sample.world (Some c) 100%Z in
  ic w = Some c /\ fabricCacheDisabled c = true /\
  exists l w',
    InfoCache_getNUMAFabric Sample.EnabledEnv Sample.RetainEnv Sample.ready c 1%Z
      ["ofi+tcp"] w = ((Some l, None), w') /\
    fabrics (heap w') !! l = Some Sample.topology /\
    items w' = ∅ /\ scanLog w' = [["ofi+tcp"]].
Proof.
  cbv zeta. split; [by_computation|]. split; [by_computation|].
  destruct (uncached_fabric_is_unfiltered Sample.EnabledEnv Sample.RetainEnv Sample.ready
              (Sample.world (Some (Sample.facade false true None)) 100%Z)
              (snd (InfoCache_waitFabricReady Sample.ready (Sample.facade false true None)
                      1%Z (Sample.world (Some (Sample.facade false true None)) 100%Z)))
              (Sample.facade false true None) 1%Z ["ofi+tcp"] Sample.scans Sample.topology)
    as (l & w' & Hcall & _ & Hm & Hitems & Hscan).
  - by_computation.
  - by_computation.
  - by_computation.
  - by_computation.
  - by_computation.
  - exists l, w'. split; [exact Hcall|]. split; [exact Hm|].
    split; [exact Hitems|exact Hscan].
Defined.

Lemma fabric_wait_failure_witness :
  let e := errors_Wrap (errors_New "netlink unavailable") "getting net interfaces" in
  let getNUMAFabric :=
    InfoCache_getNUMAFabric Sample.EnabledEnv Sample.RetainEnv Sample.ready in
  let off := Sample.world (Some (Faulty.unlistable true)) 100%Z in
  let on := Sample.world (Some (Faulty.unlistable false)) 100%Z in
  InfoCache_waitFabricReady Sample.ready (Faulty.unlistable true) 1%Z off = (Some e, off) /\
  getNUMAFabric (Faulty.unlistable true) 1%Z ["ofi+tcp"] off = ((None, Some e), off) /\
  getNUMAFabric (Faulty.unlistable false) 1%Z ["ofi+tcp"] on =
    ((None, Some (errors_Wrap e "getting fabric scan from cache")), on).
Proof.
  cbv zeta. split; [by_computation|]. split.
  - apply (proj1 (fabric_wait_failure Sample.EnabledEnv Sample.RetainEnv Sample.ready
                    (Sample.world (Some (Faulty.unlistable true)) 100%Z)
                    (Sample.world (Some (Faulty.unlistable true)) 100%Z)
                    (Faulty.unlistable true) 1%Z ["ofi+tcp"]
                    (errors_Wrap (errors_New "netlink unavailable") "getting net interfaces")
                    ltac:(by_computation) ltac:(by_computation))).
    reflexivity.
  - apply (proj1 (proj2 (fabric_wait_failure Sample.EnabledEnv Sample.RetainEnv Sample.ready
                    (Sample.world (Some (Faulty.unlistable false)) 100%Z)
                    (Sample.world (Some (Faulty.unlistable false)) 100%Z)
                    (Faulty.unlistable false) 1%Z ["ofi+tcp"]
                    (errors_Wrap (errors_New "netlink unavailable") "getting net interfaces")
                    ltac:(by_computation) ltac:(by_computation)))).
    + reflexivity.
    + by_computation.
Defined.

Lemma fabric_scanned_once_witness :
  let c := Sample.facade false false None in
  let w := Sample.world (Some c) 100%Z in
  ic w = Some c /\ fabricCacheDisabled c = false /\ clock w <> Time_zero /\
  exists l w' m',
    InfoCache_getNUMAFabric Sample.EnabledEnv Sample.RetainEnv Sample.ready c 1%Z
      ["ofi+tcp"] w = ((Some l, None), w') /\
    fabrics (heap w') !! l = Some m' /\ m' !! 1%Z = None /\
    scanLog w' = [["ofi+tcp"]] /\
    getNUMAFabric_each Sample.EnabledEnv Sample.RetainEnv Sample.ready c
      [(32%Z, []); (1%Z, ["ofi+verbs"])] w' = ([(Some l, None); (Some l, None)], w').
Proof.
  cbv zeta. split; [by_computation|]. split; [by_computation|]. split; [discriminate|].
  destruct (fabric_scanned_once Sample.EnabledEnv Sample.RetainEnv Sample.ready
              (Sample.world (Some (Sample.facade false false None)) 100%Z)
              (snd (InfoCache_waitFabricReady Sample.ready (Sample.facade false false None)
                      1%Z (Sample.world (Some (Sample.facade false false None)) 100%Z)))
              (Sample.facade false false None) 1%Z ["ofi+tcp"] Sample.scans Sample.topology)
    as (l & w' & cfi & m' & Hcall & _ & _ & _ & _ & _ & Hm' & Hfilt & Hscan & Heach).
  - by_computation.
  - by_computation.
  - by_computation.
  - discriminate.
  - by_computation.
  - by_computation.
  - by_computation.
  - exists l, w', m'. split; [exact Hcall|]. split; [exact Hm'|].
    split; [etrans; [apply Hfilt|by_computation]|].
    split; [exact Hscan|]. apply Heach.
Defined.

Lemma attach_fetched_once_witness :
  let GetAttachInfo :=
    InfoCache_GetAttachInfo Sample.defaultSystem Sample.EnabledEnv Sample.RetainEnv in
  let c := Sample.facade false false (Some (Sample.answers "ofi+tcp")) in
  let w := Sample.world (Some c) 100%Z in
  let later :=
    GetAttachInfo_at Sample.defaultSystem Sample.EnabledEnv Sample.RetainEnv ""
      [200%Z; 86400000000000%Z] (snd (GetAttachInfo "" w)) in
  ic w = Some c /\ clock w <> Time_zero /\
  rpcLog (snd later) = [(1, {| req_System := "daos_server"; AllRanks := true |})] /\
  length (fst later) = 2.
Proof.
  cbv zeta. split; [by_computation|]. split; [discriminate|].
  destruct (attach_fetched_once Sample.defaultSystem Sample.EnabledEnv Sample.RetainEnv ""
              (Sample.world (Some (Sample.facade false false (Some (Sample.answers "ofi+tcp"))))
                 100%Z)
              (Sample.facade false false (Some (Sample.answers "ofi+tcp")))
              (Sample.answers "ofi+tcp") (Sample.record "ofi+tcp")
              [200%Z; 86400000000000%Z])
    as (Hlog & _ & Hlen & _).
  - by_computation.
  - by_computation.
  - by_computation.
  - by_computation.
  - by_computation.
  - discriminate.
  - repeat constructor.
  - split; [exact Hlog|exact Hlen].
Defined.

Lemma attach_failure_retried_witness :
  let c := Sample.facade false false (Some Sample.fails) in
  let w := Sample.world (Some c) 100%Z in
  let r := GetAttachInfo_at Sample.defaultSystem Sample.EnabledEnv Sample.RetainEnv ""
             [100%Z; 200%Z; 300%Z] w in
  ic w = Some c /\ attachInfoCacheDisabled c = false /\
  length (rpcLog (snd r)) = 3 /\ heap (snd r) = empty_heap /\
  fst r = replicate 3
            (None, Some (errors_Wrap (errors_Wrap (errors_New "connection refused")
                                        "refreshing cached attach info failed")
                           "getting attach info from cache")).
Proof.
  cbv zeta. split; [by_computation|]. split; [by_computation|].
  destruct (attach_failure_retried Sample.defaultSystem Sample.EnabledEnv Sample.RetainEnv ""
              (Sample.facade false false (Some Sample.fails)) Sample.fails
              (errors_New "connection refused") [100%Z; 200%Z; 300%Z]
              (Sample.world (Some (Sample.facade false false (Some Sample.fails))) 100%Z))
    as (Hlog & Hheap & Hres).
  - by_computation.
  - by_computation.
  - by_computation.
  - by_computation.
  - intros n. reflexivity.
  - split; [by rewrite Hlog|]. split; [exact Hheap|exact Hres].
Defined.

Lemma bypass_never_caches_witness :
  let c := Sample.facade true false (Some (Sample.answers "ofi+tcp")) in
  let w := Sample.world (Some c) 100%Z in
  let r := GetAttachInfo_at Sample.defaultSystem Sample.EnabledEnv Sample.RetainEnv ""
             [100%Z; 200%Z] w in
  ic w = Some c /\ attachInfoCacheDisabled c = true /\
  rpcLog (snd r) = replicate 2 (1, {| req_System := ""; AllRanks := true |}) /\
  items (snd r) = ∅.
Proof.
  cbv zeta. split; [by_computation|]. split; [by_computation|].
  destruct (bypass_never_caches Sample.defaultSystem Sample.EnabledEnv Sample.RetainEnv ""
              (Sample.facade true false (Some (Sample.answers "ofi+tcp")))
              (Sample.answers "ofi+tcp") [100%Z; 200%Z]
              (Sample.world (Some (Sample.facade true false (Some (Sample.answers "ofi+tcp"))))
                 100%Z))
    as (Hlog & Hitems & _).
  - by_computation.
  - by_computation.
  - by_computation.
  - split; [exact Hlog|exact Hitems].
Defined.

Lemma bypass_returns_fetched_witness :
  let c := Sample.facade true false (Some (Sample.answers "ofi+tcp")) in
  let w := Sample.world (Some c) 100%Z in
  ic w = Some c /\ rec_Provider (Sample.record "ofi+tcp") <> "" /\
  exists l r w',
    InfoCache_GetAttachInfo Sample.defaultSystem Sample.EnabledEnv Sample.RetainEnv
      "sysA" w = ((Some l, None), w') /\
    resps (heap w') !! l = Some r /\
    elems (strs (heap w')) (EnvVars (ClientNetHint r)) =
      ["FI_OFI_RXM_USE_SRX=1"; "D_CLIENT_METRICS_ENABLE=1"; "D_CLIENT_METRICS_RETAIN=1"].
Proof.
  cbv zeta. split; [by_computation|]. split; [by_computation|].
  destruct (bypass_returns_fetched Sample.defaultSystem Sample.EnabledEnv Sample.RetainEnv
              "sysA"
              (Sample.world (Some (Sample.facade true false (Some (Sample.answers "ofi+tcp"))))
                 100%Z)
              (Sample.facade true false (Some (Sample.answers "ofi+tcp")))
              (Sample.answers "ofi+tcp") (Sample.record "ofi+tcp"))
    as (l & r & w' & Hcall & _ & _ & Hr & _ & He).
  - by_computation.
  - by_computation.
  - by_computation.
  - by_computation.
  - by_computation.
  - exists l, r, w'. split; [exact Hcall|]. split; [exact Hr|].
    etrans; [exact He|by_computation].
Defined.

Lemma reenable_keeps_entries_witness :
  let GetAttachInfo :=
    InfoCache_GetAttachInfo Sample.defaultSystem Sample.EnabledEnv Sample.RetainEnv in
  let c := Sample.facade false false (Some (Sample.answers "ofi+tcp")) in
  let w := set_clock 5000%Z (snd (GetAttachInfo "" (Sample.world (Some c) 100%Z))) in
  let w1 := snd (EnableAttachInfoCache 60%Z (snd (DisableAttachInfoCache w))) in
  ic w = Some c /\
  items w1 = items w /\ heap w1 = heap w /\
  rpcLog (snd (GetAttachInfo "" w1)) = rpcLog w /\
  items (snd (GetAttachInfo "" w1)) = items w.
Proof.
  cbv zeta.
  assert (Hc : ic (set_clock 5000%Z
                     (snd (InfoCache_GetAttachInfo Sample.defaultSystem Sample.EnabledEnv
                             Sample.RetainEnv ""
                             (Sample.world
                                (Some (Sample.facade false false
                                         (Some (Sample.answers "ofi+tcp")))) 100%Z))))
               = Some (Sample.facade false false (Some (Sample.answers "ofi+tcp"))))
    by by_computation.
  split; [exact Hc|].
  edestruct (fun cai => reenable_keeps_entries Sample.defaultSystem Sample.EnabledEnv
                          Sample.RetainEnv "" _ _ cai 60%Z Hc)
    as (_ & Hitems & Hheap & _ & _ & _ & Hlog & Hitems2).
  - by_computation.
  - by_computation.
  - by_computation.
  - split; [exact Hitems|]. split; [exact Hheap|]. split; [exact Hlog|exact Hitems2].
Defined.

Lemma copy_lists_exact_fit_witness :
  let o := fst (alloc_resp (Sample.record "ofi+tcp") empty_heap) in
  let h := snd (alloc_resp (Sample.record "ofi+tcp") empty_heap) in
  is_Some (resps h !! o) /\
  exists cp r' h',
    copyGetAttachInfoResp (Some o) h = (Some cp, h') /\ resps h' !! cp = Some r' /\
    (forall x, strs h' ⊆ snd (append (EnvVars (ClientNetHint r')) x (strs h'))).
Proof.
  cbv zeta. split; [by_computation|].
  edestruct (fun r => copy_lists_exact_fit
                        (fst (alloc_resp (Sample.record "ofi+tcp") empty_heap)) r
                        (snd (alloc_resp (Sample.record "ofi+tcp") empty_heap)))
    as (cp & r' & h' & Hcopy & Hr' & _ & _ & _ & _ & _ & Happ).
  - by_computation.
  - exists cp, r', h'. split; [exact Hcopy|]. split; [exact Hr'|exact Happ].
Defined.

Lemma stale_entry_not_served_witness :
  let GetAttachInfo :=
    InfoCache_GetAttachInfo Sample.defaultSystem Sample.EnabledEnv Sample.RetainEnv in
  let c := Faulty.expiring Faulty.answers_once in
  let w := set_clock 500%Z (snd (GetAttachInfo "" (Sample.world (Some c) 100%Z))) in
  ic w = Some c /\ is_Some (master_of "GetAttachInfo-daos_server" w) /\
  GetAttachInfo "" w =
    ((None, Some (errors_Wrap (errors_Wrap (errors_New "connection refused")
                                 "refreshing cached attach info failed")
                    "getting attach info from cache")),
     set_rpcLog (rpcLog w ++ [(1, {| req_System := "daos_server"; AllRanks := true |})]) w).
Proof.
  cbv zeta.
  assert (Hc : ic (set_clock 500%Z
                     (snd (InfoCache_GetAttachInfo Sample.defaultSystem Sample.EnabledEnv
                             Sample.RetainEnv ""
                             (Sample.world (Some (Faulty.expiring Faulty.answers_once))
                                100%Z))))
               = Some (Faulty.expiring Faulty.answers_once))
    by by_computation.
  split; [exact Hc|]. split; [by_computation|].
  etrans.
  - eapply (fun cai => stale_entry_not_served Sample.defaultSystem Sample.EnabledEnv
                         Sample.RetainEnv "" _ _ Faulty.answers_once cai
                         (errors_New "connection refused") Hc);
      by_computation.
  - by_computation.
Defined.

Lemma stale_entry_replaced_witness :
  let GetAttachInfo :=
    InfoCache_GetAttachInfo Sample.defaultSystem Sample.EnabledEnv Sample.RetainEnv in
  let c := Faulty.expiring (Sample.answers "ofi+tcp") in
  let w := set_clock 500%Z (snd (GetAttachInfo "" (Sample.world (Some c) 100%Z))) in
  ic w = Some c /\
  exists cp o w',
    GetAttachInfo "" w = ((Some cp, None), w') /\
    length (rpcLog w') = 2 /\ heap_le (heap w) (heap w') /\
    master_of "GetAttachInfo-daos_server" w' = Some o /\
    Some o <> master_of "GetAttachInfo-daos_server" w.
Proof.
  cbv zeta.
  assert (Hc : ic (set_clock 500%Z
                     (snd (InfoCache_GetAttachInfo Sample.defaultSystem Sample.EnabledEnv
                             Sample.RetainEnv ""
                             (Sample.world (Some (Faulty.expiring (Sample.answers "ofi+tcp")))
                                100%Z))))
               = Some (Faulty.expiring (Sample.answers "ofi+tcp")))
    by by_computation.
  split; [exact Hc|].
  edestruct (fun cai => stale_entry_replaced Sample.defaultSystem Sample.EnabledEnv
                          Sample.RetainEnv "" _ _ (Sample.answers "ofi+tcp") cai
                          (Sample.record "ofi+tcp") Hc)
    as (cp & o & r & rcp & w' & Hcall & Hlog & Hle & Hfresh & _ & _ & Hitems & _).
  - by_computation.
  - by_computation.
  - by_computation.
  - by_computation.
  - by_computation.
  - by_computation.
  - exists cp, o, w'. split; [exact Hcall|]. split; [rewrite Hlog; by_computation|].
    split; [exact Hle|]. split.
    + unfold master_of. rewrite Hitems.
      etrans; [apply (f_equal (fun x => match x with
                                        | Some (AttachItem cai) => lastResponse cai
                                        | _ => None
                                        end)); apply lookup_insert_eq|reflexivity].
    + intros Heq. apply Hfresh. vm_compute in Heq. injection Heq as ->.
      apply elem_of_dom. clear. vm_compute. eauto.
Defined.

Lemma facade_Refresh_refetches_witness :
  let c := Sample.facade false false (Some (Sample.answers "ofi+tcp")) in
  let w :=
    set_clock 5000%Z
      (snd (InfoCache_GetAttachInfo Sample.defaultSystem Sample.EnabledEnv Sample.RetainEnv
              "" (Sample.world (Some c) 100%Z))) in
  ic w = Some c /\ length (rpcLog w) = 1 /\
  exists o w',
    InfoCache_Refresh Sample.EnabledEnv Sample.RetainEnv w = (None, w') /\
    length (rpcLog w') = 2 /\
    master_of "GetAttachInfo-daos_server" w' = Some o /\
    heap_le (heap w) (heap w').
Proof.
  cbv zeta.
  assert (Hc : ic (set_clock 5000%Z
                     (snd (InfoCache_GetAttachInfo Sample.defaultSystem Sample.EnabledEnv
                             Sample.RetainEnv ""
                             (Sample.world
                                (Some (Sample.facade false false
                                         (Some (Sample.answers "ofi+tcp")))) 100%Z))))
               = Some (Sample.facade false false (Some (Sample.answers "ofi+tcp"))))
    by by_computation.
  split; [exact Hc|]. split; [by_computation|].
  edestruct (fun cai => facade_Refresh_refetches Sample.EnabledEnv Sample.RetainEnv _ _
                          (Sample.answers "ofi+tcp") cai "GetAttachInfo-daos_server"
                          (Sample.record "ofi+tcp") Hc)
    as (_ & o & r & w' & Hcall & Hlog & Hitems & _ & Hle & _).
  - by_computation.
  - by_computation.
  - by_computation.
  - by_computation.
  - by_computation.
  - by_computation.
  - by_computation.
  - by_computation.
  - exists o, w'. split; [exact Hcall|]. split; [rewrite Hlog; clear; by_computation|].
    split; [|exact Hle].
    unfold master_of. rewrite Hitems.
    etrans; [apply (f_equal (fun x => match x with
                                      | Some (AttachItem cai) => lastResponse cai
                                      | _ => None
                                      end)); apply lookup_singleton_eq|reflexivity].
Defined.
